(** * NanoEdit: the edit-history and session-state core

    A shallow embedding of the TypeScript sources of the editor:
    - [src/hooks/useImageHistory.ts]  (the History Store),
    - [src/components/Editor.tsx]     (the two Editor components: load and
      save effects, [handleSubmit], [handlePromptChange], [handleReset],
      [handleClearSession], [handleFileChange], [handleDownload],
      [handleGetSuggestions] and the gates of the buttons; and the copy of
      the service that stands at its end, modules [GeminiService] and
      [Suggestions]),
    - [src/services/geminiService.ts] (the service module with its own
      [catch] blocks, module [Services]),
    - the image utilities ([optimizeImage], [compressImageForDownload],
      [applyVisualAdjustments]).

    React state is modelled by explicit state passing.  A function that
    React creates during a render closes over the values of that render;
    such a function is modelled as taking the render snapshot [r] it was
    created in, and returning a transformer of the state it is applied
    to.  [setX(v)] overwrites a field, [setX(prev => ...)] reads the
    field of the state it is applied to. *)

From Stdlib Require Import ZArith QArith Lia Ascii String.
From stdpp Require Import base option list strings pretty gmap.

#[local] Set Warnings "-register-all".

Local Open Scope Z_scope.

(** ** JavaScript arrays *)

Module JSArray.
Section Arrays.
Context {A : Type}.

(** [arr[i]]: [undefined] (here [None]) outside of [0 .. length-1]. *)
Definition index (arr : list A) (i : Z) : option A :=
  if i <? 0 then None else arr !! Z.to_nat i.

(** The relative-index rule of [Array.prototype.slice]: a negative
    index counts from the end, and the result is clamped to
    [0 .. length]. *)
Definition relative (len i : Z) : Z :=
  if i <? 0 then Z.max (len + i) 0 else Z.min i len.

(** [arr.slice(start, end)]. *)
Definition slice (arr : list A) (start end_ : Z) : list A :=
  let len := Z.of_nat (length arr) in
  let k := relative len start in
  let final := relative len end_ in
  take (Z.to_nat (Z.max (final - k) 0)) (drop (Z.to_nat k) arr).

End Arrays.
End JSArray.

(** ** The History Store: [useImageHistory] *)

Module ImageHistory.
Section Hook.
Context {ImageState : Type}.

(** The two [useState] cells of the hook. *)
Record State : Type := mkState {
  history : list ImageState;
  currentIndex : Z
}.

(** [useState(initialState ? [initialState] : [])] and
    [useState(initialState ? 0 : -1)]. *)
Definition init (initialState : option ImageState) : State :=
  match initialState with
  | Some s => mkState [s] 0
  | None => mkState [] (-1)
  end.

Definition setHistory (h : list ImageState) (st : State) : State :=
  mkState h (currentIndex st).

(** [setCurrentIndex(f)]; [setCurrentIndex(v)] is [setCurrentIndex (fun _ => v)]. *)
Definition setCurrentIndex (f : Z -> Z) (st : State) : State :=
  mkState (history st) (f (currentIndex st)).

(** Values computed during the render of snapshot [r]. *)
Definition canUndo (r : State) : bool := 0 <? currentIndex r.

Definition canRedo (r : State) : bool :=
  currentIndex r <? Z.of_nat (length (history r)) - 1.

Definition current (r : State) : option ImageState :=
  JSArray.index (history r) (currentIndex r).

Definition original (r : State) : option ImageState :=
  JSArray.index (history r) 0.

(** [push], created by [useCallback(..., [history, currentIndex])] in the
    render of [r]: it slices the [history] of [r] at the
    [currentIndex] of [r], whatever the state it is applied to. *)
Definition push (r : State) (state : ImageState) (st : State) : State :=
  let newHistory := JSArray.slice (history r) 0 (currentIndex r + 1) ++ [state] in
  setCurrentIndex (fun _ => Z.of_nat (length newHistory) - 1)
    (setHistory newHistory st).

(** [undo] is guarded by the [canUndo] of its render and decrements the
    index of the state it is applied to. *)
Definition undo (r : State) (st : State) : State :=
  if canUndo r then setCurrentIndex (fun prevIndex => prevIndex - 1) st else st.

Definition redo (r : State) (st : State) : State :=
  if canRedo r then setCurrentIndex (fun prevIndex => prevIndex + 1) st else st.

Definition reset (state : ImageState) (st : State) : State :=
  setCurrentIndex (fun _ => 0) (setHistory [state] st).

(** The object returned by the hook,
    [{ current, original, push, undo, redo, canUndo, canRedo, reset }],
    as a finite map from property names to values. *)
Inductive Member : Type :=
| MImage (v : option ImageState)
| MFlag (b : bool)
| MPush (f : ImageState -> State -> State)
| MAction (f : State -> State).

Definition useImageHistory (r : State) : gmap string Member :=
  <["current" := MImage (current r)]>
  (<["original" := MImage (original r)]>
  (<["push" := MPush (push r)]>
  (<["undo" := MAction (undo r)]>
  (<["redo" := MAction (redo r)]>
  (<["canUndo" := MFlag (canUndo r)]>
  (<["canRedo" := MFlag (canRedo r)]>
  (<["reset" := MPush reset]> ∅))))))).

(** A user intent handled by the render of the state it is applied to
    (a click on a button of the current screen). *)
Inductive Op : Type :=
| OpPush (state : ImageState)
| OpUndo
| OpRedo.

Definition apply_op (st : State) (op : Op) : State :=
  match op with
  | OpPush s => push st s st
  | OpUndo => undo st st
  | OpRedo => redo st st
  end.

Definition run (st : State) (ops : list Op) : State :=
  foldl apply_op st ops.

(** The invariant of an initialized history. *)
Definition initialized (st : State) : Prop :=
  0 <= currentIndex st < Z.of_nat (length (history st)).

End Hook.
Arguments State : clear implicits.
Arguments Member : clear implicits.
Arguments Op : clear implicits.
End ImageHistory.

(** ** JavaScript strings *)

Module JSString.

(** [s] without its prefix [p], when it starts with [p]. *)
Fixpoint strip_prefix (p s : string) : option string :=
  match p, s with
  | EmptyString, _ => Some s
  | String a p', String b s' => if Ascii.eqb a b then strip_prefix p' s' else None
  | String _ _, EmptyString => None
  end.

(** [haystack.includes(needle)] *)
Fixpoint includes (needle haystack : string) : bool :=
  match strip_prefix needle haystack with
  | Some _ => true
  | None =>
      match haystack with
      | EmptyString => false
      | String _ rest => includes needle rest
      end
  end.

(** [s.split(sep)] for a separator of one character. *)
Fixpoint split_on (sep : ascii) (s : string) : list string :=
  match s with
  | EmptyString => [EmptyString]
  | String c s' =>
      if Ascii.eqb c sep then EmptyString :: split_on sep s'
      else match split_on sep s' with
           | piece :: rest => String c piece :: rest
           | [] => [String c EmptyString]
           end
  end.

(** [s.indexOf(c)] for a string [c] of one character: [-1] when absent. *)
Fixpoint indexOf (c : ascii) (s : string) : Z :=
  match s with
  | EmptyString => -1
  | String d s' =>
      if Ascii.eqb c d then 0
      else let i := indexOf c s' in if i <? 0 then -1 else i + 1
  end.

(** [s.substring(from, to)]: both ends are clamped to [0 .. length], and
    swapped when [from] is the larger one. *)
Definition substring (from to : Z) (s : string) : string :=
  let len := Z.of_nat (String.length s) in
  let a := Z.min (Z.max from 0) len in
  let b := Z.min (Z.max to 0) len in
  let lo := Z.min a b in
  let hi := Z.max a b in
  String.substring (Z.to_nat lo) (Z.to_nat (hi - lo)) s.

(** [a || b] on strings, where [a] may be [undefined]: the empty string
    is falsy. *)
Definition or_else (a : option string) (b : string) : string :=
  match a with
  | Some EmptyString | None => b
  | Some s => s
  end.

End JSString.

(** ** JavaScript values, exceptions and JSON *)

Module JS.

(** Values that can live in the history and in [localStorage] entries.
    A number is kept as the text of its literal: the editor only tests
    numbers for truthiness, and never computes with them. *)
Inductive Value : Type :=
| VUndefined
| VNull
| VBool (b : bool)
| VNumber (literal : string)
| VString (s : string)
| VArray (elems : list Value)
| VObject (props : list (string * Value)).

(** Errors raised by the platform itself; their message text is chosen
    by the engine. *)
Inductive EngineError : Type :=
| SyntaxError
| TypeError
| QuotaExceededError.

(** What a [throw] (or a rejected promise) carries: [new Error(message)],
    a platform error, or any other value. *)
Inductive Thrown : Type :=
| Error (message : string)
| Engine (e : EngineError)
| NonError (v : Value).

Inductive Result (A : Type) : Type :=
| Return (a : A)
| Throw (t : Thrown).
Global Arguments Return {A} a.
Global Arguments Throw {A} t.

Definition bind {A B} (m : Result A) (k : A -> Result B) : Result B :=
  match m with
  | Return a => k a
  | Throw t => Throw t
  end.

(** [try { m } catch (e) { h e }] *)
Definition try_catch {A} (m : Result A) (h : Thrown -> Result A) : Result A :=
  match m with
  | Return a => Return a
  | Throw t => h t
  end.

Definition is_digit (c : ascii) : bool :=
  (48 <=? nat_of_ascii c)%nat && (nat_of_ascii c <=? 57)%nat.

(** The digits of the mantissa of a number literal are all [0]. *)
Fixpoint zero_literal (s : string) : bool :=
  match s with
  | EmptyString => true
  | String c s' =>
      if Ascii.eqb c "e" || Ascii.eqb c "E" then true
      else if is_digit c && negb (Ascii.eqb c "0") then false
      else zero_literal s'
  end.

(** [ToBoolean]. *)
Definition truthy (v : Value) : bool :=
  match v with
  | VUndefined | VNull => false
  | VBool b => b
  | VNumber lit => negb (zero_literal lit)
  | VString s => negb (String.eqb s "")
  | VArray _ | VObject _ => true
  end.

Definition typeof (v : Value) : string :=
  match v with
  | VUndefined => "undefined"
  | VBool _ => "boolean"
  | VNumber _ => "number"
  | VString _ => "string"
  | VNull | VArray _ | VObject _ => "object"
  end.

Fixpoint lookup_prop (name : string) (props : list (string * Value)) : option Value :=
  match props with
  | [] => None
  | (k, v) :: rest => if String.eqb k name then Some v else lookup_prop name rest
  end.

(** [obj[name] = v] on an ordinary object: an existing property keeps
    its place, a new one is added last. *)
Fixpoint set_prop (name : string) (v : Value) (props : list (string * Value))
  : list (string * Value) :=
  match props with
  | [] => [(name, v)]
  | (k, w) :: rest =>
      if String.eqb k name then (k, v) :: rest else (k, w) :: set_prop name v rest
  end.

(** [v.name] for a name that no prototype defines (such as [dataUrl] and
    [mimeType]): [undefined] unless [v] is an object with that own
    property; reading a property of [undefined] or [null] throws. *)
Definition get (v : Value) (name : string) : Result Value :=
  match v with
  | VUndefined | VNull => Throw (Engine TypeError)
  | VObject props => Return (default VUndefined (lookup_prop name props))
  | _ => Return VUndefined
  end.

End JS.

Module JSON.
Import JS.

Definition is_ws (c : ascii) : bool :=
  Ascii.eqb c " " || Ascii.eqb c "009" || Ascii.eqb c "010" || Ascii.eqb c "013".

Fixpoint skip_ws (s : string) : string :=
  match s with
  | String c s' => if is_ws c then skip_ws s' else s
  | EmptyString => EmptyString
  end.

Fixpoint take_digits (s : string) : string * string :=
  match s with
  | String c s' =>
      if is_digit c then let '(d, rest) := take_digits s' in (String c d, rest)
      else (EmptyString, s)
  | EmptyString => (EmptyString, EmptyString)
  end.

Definition hex_value (c : ascii) : option N :=
  let n := N_of_ascii c in
  if (48 <=? n)%N && (n <=? 57)%N then Some (n - 48)%N
  else if (65 <=? n)%N && (n <=? 70)%N then Some (n - 55)%N
  else if (97 <=? n)%N && (n <=? 102)%N then Some (n - 87)%N
  else None.

(** The code unit of a [\uXXXX] escape, as bytes (one byte below 128). *)
Definition code_unit_bytes (u : N) : string :=
  if (u <? 128)%N then String (ascii_of_N u) EmptyString
  else if (u <? 2048)%N then
    String (ascii_of_N (192 + u / 64)) (String (ascii_of_N (128 + u mod 64)) EmptyString)
  else
    String (ascii_of_N (224 + u / 4096))
      (String (ascii_of_N (128 + (u / 64) mod 64))
         (String (ascii_of_N (128 + u mod 64)) EmptyString)).

(** The characters of a string literal, after its opening quote. *)
Fixpoint parse_chars (s : string) : option (string * string) :=
  match s with
  | EmptyString => None
  | String c s1 =>
      if Ascii.eqb c "034" then Some (EmptyString, s1)
      else if Ascii.eqb c "\" then
        match s1 with
        | String e s2 =>
            let plain (b : ascii) :=
              '(str, rest) ← parse_chars s2; Some (String b str, rest) in
            if Ascii.eqb e "034" then plain "034"%char
            else if Ascii.eqb e "\" then plain "\"%char
            else if Ascii.eqb e "/" then plain "/"%char
            else if Ascii.eqb e "b" then plain "008"%char
            else if Ascii.eqb e "f" then plain "012"%char
            else if Ascii.eqb e "n" then plain "010"%char
            else if Ascii.eqb e "r" then plain "013"%char
            else if Ascii.eqb e "t" then plain "009"%char
            else if Ascii.eqb e "u" then
              match s2 with
              | String h1 (String h2 (String h3 (String h4 s3))) =>
                  a ← hex_value h1; b ← hex_value h2;
                  c ← hex_value h3; d ← hex_value h4;
                  '(str, rest) ← parse_chars s3;
                  Some (code_unit_bytes (((a * 16 + b) * 16 + c) * 16 + d)%N +:+ str, rest)
              | _ => None
              end
            else None
        | EmptyString => None
        end
      else if (nat_of_ascii c <? 32)%nat then None
      else '(str, rest) ← parse_chars s1; Some (String c str, rest)
  end.

(** A number literal: an optional minus sign, then [0] or a digit
    sequence that does not start with [0], then an optional fraction
    (a dot and digits) and an optional exponent. *)
Definition parse_number (s : string) : option (string * string) :=
  let '(sign, s1) :=
    match s with
    | String "-" s' => ("-", s')
    | _ => (EmptyString, s)
    end in
  '(int, s2) ←
    match s1 with
    | String "0" s' => Some ("0", s')
    | _ => let '(d, rest) := take_digits s1 in
           if String.eqb d "" then None else Some (d, rest)
    end;
  '(frac, s3) ←
    match s2 with
    | String "." s' =>
        let '(d, rest) := take_digits s' in
        if String.eqb d "" then None else Some ("." +:+ d, rest)
    | _ => Some (EmptyString, s2)
    end;
  '(exp, s4) ←
    match s3 with
    | String c s' =>
        if Ascii.eqb c "e" || Ascii.eqb c "E" then
          let '(sg, s'') :=
            match s' with
            | String "+" t => ("+", t)
            | String "-" t => ("-", t)
            | _ => (EmptyString, s')
            end in
          let '(d, rest) := take_digits s'' in
          if String.eqb d "" then None
          else Some (String c sg +:+ d, rest)
        else Some (EmptyString, s3)
    | EmptyString => Some (EmptyString, s3)
    end;
  Some (sign +:+ int +:+ frac +:+ exp, s4).

Definition parse_scalar (s : string) : option (Value * string) :=
  match JSString.strip_prefix "true" s with
  | Some rest => Some (VBool true, rest)
  | None =>
  match JSString.strip_prefix "false" s with
  | Some rest => Some (VBool false, rest)
  | None =>
  match JSString.strip_prefix "null" s with
  | Some rest => Some (VNull, rest)
  | None => '(lit, rest) ← parse_number s; Some (VNumber lit, rest)
  end end end.

Fixpoint parse_value (fuel : nat) (s : string) : option (Value * string) :=
  match fuel with
  | O => None
  | S fuel =>
      match skip_ws s with
      | String "{" s1 =>
          match skip_ws s1 with
          | String "}" s2 => Some (VObject [], s2)
          | s2 => parse_members fuel [] s2
          end
      | String "[" s1 =>
          match skip_ws s1 with
          | String "]" s2 => Some (VArray [], s2)
          | s2 => parse_elements fuel [] s2
          end
      | String "034" s1 => '(str, s2) ← parse_chars s1; Some (VString str, s2)
      | s1 => parse_scalar s1
      end
  end
with parse_elements (fuel : nat) (acc : list Value) (s : string)
  : option (Value * string) :=
  match fuel with
  | O => None
  | S fuel =>
      '(v, s1) ← parse_value fuel s;
      match skip_ws s1 with
      | String "," s2 => parse_elements fuel (acc ++ [v]) s2
      | String "]" s2 => Some (VArray (acc ++ [v]), s2)
      | _ => None
      end
  end
with parse_members (fuel : nat) (acc : list (string * Value)) (s : string)
  : option (Value * string) :=
  match fuel with
  | O => None
  | S fuel =>
      match skip_ws s with
      | String "034" s1 =>
          '(k, s2) ← parse_chars s1;
          match skip_ws s2 with
          | String ":" s3 =>
              '(v, s4) ← parse_value fuel s3;
              match skip_ws s4 with
              | String "," s5 => parse_members fuel (set_prop k v acc) s5
              | String "}" s5 => Some (VObject (set_prop k v acc), s5)
              | _ => None
              end
          | _ => None
          end
      | _ => None
      end
  end.

(** [JSON.parse(text)]; [None] stands for the [SyntaxError] it throws. *)
Definition parse (text : string) : option Value :=
  '(v, rest) ← parse_value (2 * String.length text + 2) text;
  if String.eqb (skip_ws rest) "" then Some v else None.

Definition hex_digit (n : N) : ascii :=
  if (n <? 10)%N then ascii_of_N (48 + n) else ascii_of_N (87 + n).

Fixpoint quote_chars (s : string) : string :=
  match s with
  | EmptyString => EmptyString
  | String c s' =>
      let n := N_of_ascii c in
      (if Ascii.eqb c "034" then String "\" (String "034" EmptyString)
       else if Ascii.eqb c "\" then "\\"
       else if (n =? 8)%N then "\b"
       else if (n =? 12)%N then "\f"
       else if (n =? 10)%N then "\n"
       else if (n =? 13)%N then "\r"
       else if (n =? 9)%N then "\t"
       else if (n <? 32)%N then
         "\u00" +:+ String (hex_digit (n / 16)) (String (hex_digit (n mod 16)) EmptyString)
       else String c EmptyString) +:+ quote_chars s'
  end.

Definition quote (s : string) : string :=
  String "034" (quote_chars s +:+ String "034" EmptyString).

Definition join (sep : string) (l : list string) : string :=
  match l with
  | [] => EmptyString
  | x :: rest => foldl (fun acc y => acc +:+ sep +:+ y) x rest
  end.

(** [JSON.stringify(v)]; [None] stands for the result [undefined].  A
    number is written as its literal. *)
Fixpoint stringify (v : Value) : option string :=
  match v with
  | VUndefined => None
  | VNull => Some "null"
  | VBool b => Some (if b then "true" else "false")
  | VNumber lit => Some lit
  | VString s => Some (quote s)
  | VArray elems =>
      let items :=
        (fix go (l : list Value) : list string :=
           match l with
           | [] => []
           | x :: l' => default "null" (stringify x) :: go l'
           end) elems in
      Some ("[" +:+ join "," items +:+ "]")
  | VObject props =>
      let items :=
        (fix go (l : list (string * Value)) : list string :=
           match l with
           | [] => []
           | (k, x) :: l' =>
               match stringify x with
               | Some sx => (quote k +:+ ":" +:+ sx) :: go l'
               | None => go l'
               end
           end) props in
      Some ("{" +:+ join "," items +:+ "}")
  end.

End JSON.

(** ** [localStorage] *)

Module WebStorage.
Import JS.

(** The entries of the storage area, and the space the browser grants it. *)
Record Storage : Type := mkStorage {
  items : gmap string string;
  quota : nat
}.

Definition used (m : gmap string string) : nat :=
  map_fold (fun k v n => (String.length k + String.length v + n)%nat) 0%nat m.

(** [getItem(key)]: [null] (here [None]) when there is no such entry. *)
Definition getItem (key : string) (s : Storage) : option string :=
  items s !! key.

(** [setItem(key, value)] throws a [QuotaExceededError] when the new
    value does not fit, and then leaves the storage as it was. *)
Definition setItem (key value : string) (s : Storage) : Result Storage :=
  let items' := <[key := value]> (items s) in
  if (used items' <=? quota s)%nat
  then Return (mkStorage items' (quota s))
  else Throw (Engine QuotaExceededError).

Definition removeItem (key : string) (s : Storage) : Storage :=
  mkStorage (delete key (items s)) (quota s).

End WebStorage.

(** ** The AI edit collaborator: [editImageWithNanoBanana] *)

Module GeminiService.
Import JS.

(** The arguments of the call, as they reach [generateContent]. *)
Record EditRequest : Type := mkRequest {
  base64Image : option string;
  mimeType : Value;
  instruction : string
}.

(** The part of the answer of the API that the function reads. *)
Record InlineData : Type := mkInlineData { data : string; dataMimeType : string }.
Record Part : Type := mkPart { inlineData : option InlineData }.
Record Candidate : Type := mkCandidate {
  parts : option (list Part);      (* [content.parts], when it is an array *)
  finishReason : option string
}.
Record Response : Type := mkResponse { candidates : option (list Candidate) }.

(** The first part that carries image data. *)
Fixpoint first_inline (ps : list Part) : option InlineData :=
  match ps with
  | [] => None
  | p :: rest =>
      match inlineData p with
      | Some d => Some d
      | None => first_inline rest
      end
  end.

Section Service.
(** The message the engine gives to each of its own errors. *)
Variable engineMessage : EngineError -> string.
(** The hosted model. *)
Variable generateContent : EditRequest -> Result Response.

(** The body of the [try] block. *)
Definition request_image (req : EditRequest) : Result string :=
  JS.bind (generateContent req) (fun response =>
    let candidate := cs ← candidates response; head cs in
    match (c ← candidate; ps ← parts c; first_inline ps) with
    | Some d => Return ("data:" +:+ dataMimeType d +:+ ";base64," +:+ data d)
    | None =>
        match (c ← candidate; finishReason c) with
        | Some reason =>
            if truthy (VString reason) && negb (String.eqb reason "STOP") then
              Throw (Error ("Image generation failed. Reason: " +:+ reason
                +:+ ". This can happen if the prompt violates safety policies."))
            else
              Throw (Error "No image data found in the AI's response. The model may have refused the request.")
        | None =>
            Throw (Error "No image data found in the AI's response. The model may have refused the request.")
        end
    end).

(** The [catch] block: every failure leaves as an [Error]. *)
Definition rethrow (error : Thrown) : Thrown :=
  match error with
  | Error message =>
      if JSString.includes "API key not valid" message
      then Error "The API key is invalid. Please check your configuration."
      else error
  | Engine e =>
      if JSString.includes "API key not valid" (engineMessage e)
      then Error "The API key is invalid. Please check your configuration."
      else error
  | NonError _ => Error "Failed to edit image. An unknown error occurred."
  end.

(** The result of the promise, and what was written to the console. *)
Definition editImageWithNanoBanana (req : EditRequest)
  : Result string * list (string * Thrown) :=
  match request_image req with
  | Return url => (Return url, [])
  | Throw error =>
      (Throw (rethrow error), [("Error editing image with Gemini:", error)])
  end.

End Service.
End GeminiService.

(** ** The Editor component *)

Module Editor.
Import JS WebStorage.

(** The pan and zoom of the canvas, [{ scale, x, y }]. *)
Record Transform : Type := mkTransform { scale : Q; x : Q; y : Q }.

(** The [useState] cells of the component, the two cells of its
    [useImageHistory(null)], and the two parts of the browser it writes
    to.  The declared type of a history entry is
    [ImageState = { dataUrl: string; mimeType: string }]; the type is
    erased at run time, so an entry is any value. *)
Record State : Type := mkEditor {
  hist : ImageHistory.State Value;
  prompt : string;
  isLoading : bool;
  loadingMessage : string;
  error : option string;
  suggestions : list string;
  suggestionError : option string;
  speechRecognitionError : option string;
  sliderPosition : Q;
  transform : Transform;
  brightness : Z;
  contrast : Z;
  localStorage : Storage;
  console : list (string * Thrown)
}.

(** Field updates: [update_x f] is [setX(f)] for a [useState] cell [x]. *)

Definition update_hist (f : ImageHistory.State Value -> ImageHistory.State Value)
  (st : State) : State :=
  mkEditor (f (hist st)) (prompt st) (isLoading st) (loadingMessage st)
    (error st) (suggestions st) (suggestionError st)
    (speechRecognitionError st) (sliderPosition st) (transform st)
    (brightness st) (contrast st) (localStorage st) (console st).

Definition update_prompt (f : string -> string)
  (st : State) : State :=
  mkEditor (hist st) (f (prompt st)) (isLoading st) (loadingMessage st)
    (error st) (suggestions st) (suggestionError st)
    (speechRecognitionError st) (sliderPosition st) (transform st)
    (brightness st) (contrast st) (localStorage st) (console st).

Definition update_isLoading (f : bool -> bool)
  (st : State) : State :=
  mkEditor (hist st) (prompt st) (f (isLoading st)) (loadingMessage st)
    (error st) (suggestions st) (suggestionError st)
    (speechRecognitionError st) (sliderPosition st) (transform st)
    (brightness st) (contrast st) (localStorage st) (console st).

Definition update_loadingMessage (f : string -> string)
  (st : State) : State :=
  mkEditor (hist st) (prompt st) (isLoading st) (f (loadingMessage st))
    (error st) (suggestions st) (suggestionError st)
    (speechRecognitionError st) (sliderPosition st) (transform st)
    (brightness st) (contrast st) (localStorage st) (console st).

Definition update_error (f : option string -> option string)
  (st : State) : State :=
  mkEditor (hist st) (prompt st) (isLoading st) (loadingMessage st)
    (f (error st)) (suggestions st) (suggestionError st)
    (speechRecognitionError st) (sliderPosition st) (transform st)
    (brightness st) (contrast st) (localStorage st) (console st).

Definition update_suggestions (f : list string -> list string)
  (st : State) : State :=
  mkEditor (hist st) (prompt st) (isLoading st) (loadingMessage st)
    (error st) (f (suggestions st)) (suggestionError st)
    (speechRecognitionError st) (sliderPosition st) (transform st)
    (brightness st) (contrast st) (localStorage st) (console st).

Definition update_suggestionError (f : option string -> option string)
  (st : State) : State :=
  mkEditor (hist st) (prompt st) (isLoading st) (loadingMessage st)
    (error st) (suggestions st) (f (suggestionError st))
    (speechRecognitionError st) (sliderPosition st) (transform st)
    (brightness st) (contrast st) (localStorage st) (console st).

Definition update_speechRecognitionError (f : option string -> option string)
  (st : State) : State :=
  mkEditor (hist st) (prompt st) (isLoading st) (loadingMessage st)
    (error st) (suggestions st) (suggestionError st)
    (f (speechRecognitionError st)) (sliderPosition st) (transform st)
    (brightness st) (contrast st) (localStorage st) (console st).

Definition update_sliderPosition (f : Q -> Q)
  (st : State) : State :=
  mkEditor (hist st) (prompt st) (isLoading st) (loadingMessage st)
    (error st) (suggestions st) (suggestionError st)
    (speechRecognitionError st) (f (sliderPosition st)) (transform st)
    (brightness st) (contrast st) (localStorage st) (console st).

Definition update_transform (f : Transform -> Transform)
  (st : State) : State :=
  mkEditor (hist st) (prompt st) (isLoading st) (loadingMessage st)
    (error st) (suggestions st) (suggestionError st)
    (speechRecognitionError st) (sliderPosition st) (f (transform st))
    (brightness st) (contrast st) (localStorage st) (console st).

Definition update_brightness (f : Z -> Z)
  (st : State) : State :=
  mkEditor (hist st) (prompt st) (isLoading st) (loadingMessage st)
    (error st) (suggestions st) (suggestionError st)
    (speechRecognitionError st) (sliderPosition st) (transform st)
    (f (brightness st)) (contrast st) (localStorage st) (console st).

Definition update_contrast (f : Z -> Z)
  (st : State) : State :=
  mkEditor (hist st) (prompt st) (isLoading st) (loadingMessage st)
    (error st) (suggestions st) (suggestionError st)
    (speechRecognitionError st) (sliderPosition st) (transform st)
    (brightness st) (f (contrast st)) (localStorage st) (console st).

Definition update_localStorage (f : Storage -> Storage)
  (st : State) : State :=
  mkEditor (hist st) (prompt st) (isLoading st) (loadingMessage st)
    (error st) (suggestions st) (suggestionError st)
    (speechRecognitionError st) (sliderPosition st) (transform st)
    (brightness st) (contrast st) (f (localStorage st)) (console st).

Definition update_console (f : list (string * Thrown) -> list (string * Thrown))
  (st : State) : State :=
  mkEditor (hist st) (prompt st) (isLoading st) (loadingMessage st)
    (error st) (suggestions st) (suggestionError st)
    (speechRecognitionError st) (sliderPosition st) (transform st)
    (brightness st) (contrast st) (localStorage st) (f (console st)).

(** The state of the component when it mounts. *)
Definition initial (storage : Storage) : State :=
  mkEditor (ImageHistory.init None) EmptyString false EmptyString None [] None None
    50 (mkTransform 1 0 0) 100 100 storage [].

(** *** Statements that change the state and may throw *)

Inductive Completion (A : Type) : Type :=
| Normal (a : A) (st : State)
| Abrupt (t : Thrown) (st : State).
Global Arguments Normal {A} a st.
Global Arguments Abrupt {A} t st.

Definition Action (A : Type) : Type := State -> Completion A.

Definition ret {A} (a : A) : Action A := fun st => Normal a st.

Definition throw {A} (t : Thrown) : Action A := fun st => Abrupt t st.

Definition bind {A B} (m : Action A) (k : A -> Action B) : Action B :=
  fun st =>
    match m st with
    | Normal a st' => k a st'
    | Abrupt t st' => Abrupt t st'
    end.

Notation "x <- m ;; k" := (bind m (fun x => k))
  (at level 100, m at next level, right associativity, only parsing).
Notation "m ;; k" := (bind m (fun _ => k))
  (at level 100, right associativity, only parsing).

Definition modify (f : State -> State) : Action unit :=
  fun st => Normal tt (f st).

Definition of_result {A} (m : Result A) : Action A :=
  match m with
  | Return a => ret a
  | Throw t => throw t
  end.

(** [try { m } catch (err) { h err }] *)
Definition try_catch {A} (m : Action A) (h : Thrown -> Action A) : Action A :=
  fun st =>
    match m st with
    | Normal a st' => Normal a st'
    | Abrupt t st' => h t st'
    end.

(** [try { m } finally { f }] *)
Definition try_finally {A} (m : Action A) (f : Action unit) : Action A :=
  fun st =>
    match m st with
    | Normal a st' =>
        match f st' with
        | Normal _ st'' => Normal a st''
        | Abrupt t st'' => Abrupt t st''
        end
    | Abrupt t st' =>
        match f st' with
        | Normal _ st'' => Abrupt t st''
        | Abrupt t' st'' => Abrupt t' st''
        end
    end.

Definition final_state {A} (c : Completion A) : State :=
  match c with
  | Normal _ st => st
  | Abrupt _ st => st
  end.

Definition set_hist (f : ImageHistory.State Value -> ImageHistory.State Value)
  : Action unit := modify (update_hist f).
Definition setPrompt (v : string) : Action unit := modify (update_prompt (fun _ => v)).
Definition setIsLoading (v : bool) : Action unit := modify (update_isLoading (fun _ => v)).
Definition setLoadingMessage (v : string) : Action unit :=
  modify (update_loadingMessage (fun _ => v)).
Definition setError (v : option string) : Action unit := modify (update_error (fun _ => v)).
Definition setSuggestions (v : list string) : Action unit :=
  modify (update_suggestions (fun _ => v)).
Definition setSuggestionError (v : option string) : Action unit :=
  modify (update_suggestionError (fun _ => v)).
Definition setSpeechRecognitionError (v : option string) : Action unit :=
  modify (update_speechRecognitionError (fun _ => v)).
Definition setSliderPosition (v : Q) : Action unit :=
  modify (update_sliderPosition (fun _ => v)).
Definition setTransform (v : Transform) : Action unit :=
  modify (update_transform (fun _ => v)).
Definition setBrightness (v : Z) : Action unit := modify (update_brightness (fun _ => v)).
Definition setContrast (v : Z) : Action unit := modify (update_contrast (fun _ => v)).

(** [console.error(label, err)] *)
Definition console_error (label : string) (err : Thrown) : Action unit :=
  modify (update_console (fun log => log ++ [(label, err)])).

Definition localStorage_getItem (key : string) : Action (option string) :=
  fun st => Normal (getItem key (localStorage st)) st.

Definition localStorage_setItem (key value : string) : Action unit :=
  fun st =>
    match setItem key value (localStorage st) with
    | Return s => Normal tt (update_localStorage (fun _ => s) st)
    | Throw t => Abrupt t st
    end.

Definition localStorage_removeItem (key : string) : Action unit :=
  modify (update_localStorage (removeItem key)).

(** [JSON.parse(text)] as a statement. *)
Definition JSON_parse (text : string) : Action Value :=
  match JSON.parse text with
  | Some v => ret v
  | None => throw (Engine SyntaxError)
  end.

(** The argument [JSON.stringify(v)] as [setItem] stores it: a value
    that is not a string is converted to one. *)
Definition JSON_stringify (v : Value) : string :=
  default "undefined" (JSON.stringify v).

(** A string read from storage, or [null], in a condition. *)
Definition present (s : option string) : bool :=
  match s with
  | Some s => truthy (VString s)
  | None => truthy VNull
  end.

(** The value of [current] (or [original]) in a condition and in a
    property access: an index outside of the history reads [undefined]. *)
Definition read (v : option Value) : Value := default VUndefined v.


(** *** String helpers of the handlers *)

(** A line terminator, which [.] does not match, starts here. *)
Definition line_break (s : string) : bool :=
  match s with
  | String c rest =>
      Ascii.eqb c "010" || Ascii.eqb c "013"
      || match JSString.strip_prefix (String "226" (String "128" EmptyString)) s with
         | Some (String d _) => Ascii.eqb d "168" || Ascii.eqb d "169"
         | _ => false
         end
  | EmptyString => false
  end.

(** The longest [g] without line terminators such that [s] starts with
    [g] followed by [;base64,]: what a greedy group of any characters
    captures in front of [;base64,]. *)
Fixpoint greedy_group (s : string) : option string :=
  let here := if JSString.strip_prefix ";base64," s is Some _ then Some EmptyString else None in
  match s with
  | EmptyString => here
  | String c s' =>
      if line_break s then here
      else match greedy_group s' with
           | Some g => Some (String c g)
           | None => here
           end
  end.

(** The first group of the leftmost match of [s] against the pattern
    [data:], a greedy group, [;base64,]; [None] when nothing matches. *)
Fixpoint match_data_url (s : string) : option string :=
  match (rest ← JSString.strip_prefix "data:" s; greedy_group rest) with
  | Some g => Some g
  | None =>
      match s with
      | EmptyString => None
      | String _ s' => match_data_url s'
      end
  end.

Definition image_state (dataUrl mimeType : string) : Value :=
  VObject [("dataUrl", VString dataUrl); ("mimeType", VString mimeType)].

Definition resetView : Action unit := setTransform (mkTransform 1 0 0).

Definition resetAdjustments : Action unit := setBrightness 100;; setContrast 100.

(** *** Session persistence of the canonical Editor *)

Definition SAVED_IMAGE : string := "nanoedit-saved-image".
Definition SAVED_PROMPT : string := "nanoedit-saved-prompt".

(** The effect that runs once on mount: load the saved state. *)
Definition loadEffect : Action unit :=
  try_catch
    (savedImageJSON <- localStorage_getItem SAVED_IMAGE;;
     (if present savedImageJSON then
        savedImage <- JSON_parse (default EmptyString savedImageJSON);;
        set_hist (ImageHistory.reset savedImage)
      else ret tt);;
     savedPrompt <- localStorage_getItem SAVED_PROMPT;;
     if present savedPrompt then setPrompt (default EmptyString savedPrompt)
     else ret tt)
    (fun err =>
       console_error "Failed to load saved state from localStorage" err;;
       localStorage_removeItem SAVED_IMAGE;;
       localStorage_removeItem SAVED_PROMPT).

(** The effect that runs after a render [r] in which [current] changed. *)
Definition autoSaveEffect (r : State) : Action unit :=
  let current := read (ImageHistory.current (hist r)) in
  if truthy current then localStorage_setItem SAVED_IMAGE (JSON_stringify current)
  else ret tt.

Definition handlePromptChange (newPrompt : string) : Action unit :=
  setPrompt newPrompt;;
  localStorage_setItem SAVED_PROMPT newPrompt.

(** *** Editing *)

Section Handlers.
(** The message the engine gives to each of its own errors. *)
Variable engineMessage : EngineError -> string.

(** [err instanceof Error ? err.message : fallback] *)
Definition message_or (fallback : string) (err : Thrown) : string :=
  match err with
  | Error message => message
  | Engine e => engineMessage e
  | NonError _ => fallback
  end.

(** [current.dataUrl.split(',')[1]]: [split] exists on strings only. *)
Definition base64_of (current : Value) : Result (option string) :=
  JS.bind (get current "dataUrl") (fun dataUrl =>
    match dataUrl with
    | VString s => Return (JSString.split_on "," s !! 1%nat)
    | _ => Throw (Engine TypeError)
    end).

Definition edit_request (current : Value) (prompt : string)
  : Result GeminiService.EditRequest :=
  JS.bind (base64_of current) (fun base64Image =>
  JS.bind (get current "mimeType") (fun mimeType =>
    Return (GeminiService.mkRequest base64Image mimeType prompt))).

(** A call of an [async] handler either runs to its end, or stops at
    its [await] with a request in flight. *)
Inductive Submitted : Type :=
| Finished (c : Completion unit)
| Awaiting (request : GeminiService.EditRequest) (st : State).

Definition handleSubmit_catch (err : Thrown) : Action unit :=
  setError (Some (message_or "An unexpected error occurred." err)).

Definition handleSubmit_finally : Action unit :=
  setIsLoading false;; setLoadingMessage EmptyString.

(** [handleSubmit], created in the render of [r], up to its [await]:
    [current], [prompt] and [isLoading] are those of [r].
    ([e.preventDefault()] touches no state.) *)
Definition handleSubmit (r : State) (st : State) : Submitted :=
  let current := read (ImageHistory.current (hist r)) in
  if negb (truthy current) || negb (truthy (VString (prompt r))) || isLoading r
  then Finished (Normal tt st)
  else
    let st1 := final_state
      ((setIsLoading true;;
        setLoadingMessage "Applying AI edit...";;
        setError None) st) in
    match edit_request current (prompt r) with
    | Return request => Awaiting request st1
    | Throw err =>
        Finished
          (try_finally (try_catch (throw err) handleSubmit_catch)
             handleSubmit_finally st1)
    end.

(** The rest of [handleSubmit] of render [r], run when the promise of
    [editImageWithNanoBanana] settles with [outcome].  Its [push] is the
    one that the render of [r] destructured from [useImageHistory]. *)
Definition handleSubmit_resume (r : State) (outcome : Result string)
  : Action unit :=
  try_finally
    (try_catch
       (newImageDataUrl <- of_result outcome;;
        let newMimeType := JSString.or_else (match_data_url newImageDataUrl) "image/png" in
        set_hist (ImageHistory.push (hist r)
                    (image_state newImageDataUrl newMimeType));;
        setPrompt EmptyString;;
        localStorage_removeItem SAVED_PROMPT;;
        setSliderPosition 50;;
        resetAdjustments)
       handleSubmit_catch)
    handleSubmit_finally.

End Handlers.

(** *** The history buttons *)

(** [<button onClick={undo} disabled={!canUndo || isLoading}>]: a click
    on a disabled button runs no handler. *)
Definition clickUndo (r : State) : Action unit :=
  if negb (ImageHistory.canUndo (hist r)) || isLoading r then ret tt
  else set_hist (ImageHistory.undo (hist r)).

Definition clickRedo (r : State) : Action unit :=
  if negb (ImageHistory.canRedo (hist r)) || isLoading r then ret tt
  else set_hist (ImageHistory.redo (hist r)).

(** *** Clearing the session *)

(** A call [f()] of a property of the object of [useImageHistory] that
    the component destructured; a property the object does not have reads
    [undefined], and calling it throws. *)
Definition call_member (m : option (ImageHistory.Member Value)) : Action unit :=
  match m with
  | Some (ImageHistory.MAction f) => set_hist f
  | Some (ImageHistory.MPush f) => set_hist (f VUndefined)
  | _ => throw (Engine TypeError)
  end.

Definition handleClearSession (r : State) : Action unit :=
  let clear := ImageHistory.useImageHistory (hist r) !! "clear" in
  localStorage_removeItem SAVED_IMAGE;;
  localStorage_removeItem SAVED_PROMPT;;
  call_member clear;;
  setPrompt EmptyString;;
  setError None;;
  setSuggestions [];;
  setSuggestionError None;;
  setSpeechRecognitionError None;;
  resetView;;
  resetAdjustments.

End Editor.

(** ** The superseded Editor component: its session persistence *)

Module SupersededEditor.
Import JS WebStorage Editor.

Definition SESSION_IMAGE_KEY : string := "nanoedit-session-image".
Definition SESSION_PROMPT_KEY : string := "nanoedit-session-prompt".

(** [savedImage && typeof savedImage.dataUrl === 'string'
     && typeof savedImage.mimeType === 'string'] *)
Definition well_formed (savedImage : Value) : Action bool :=
  if truthy savedImage then
    dataUrl <- of_result (get savedImage "dataUrl");;
    if String.eqb (typeof dataUrl) "string" then
      mimeType <- of_result (get savedImage "mimeType");;
      ret (String.eqb (typeof mimeType) "string")
    else ret false
  else ret false.

(** The validation in the words of the specification: the entry has the
    two required string fields.  Compared with [well_formed] below. *)
Definition spec_has_string_fields (savedImage : Value) : bool :=
  match savedImage with
  | VObject props =>
      match lookup_prop "dataUrl" props, lookup_prop "mimeType" props with
      | Some (VString _), Some (VString _) => true
      | _, _ => false
      end
  | _ => false
  end.

Definition loadEffect : Action unit :=
  try_catch
    (savedImageJSON <- localStorage_getItem SESSION_IMAGE_KEY;;
     (if present savedImageJSON then
        savedImage <- JSON_parse (default EmptyString savedImageJSON);;
        ok <- well_formed savedImage;;
        if ok then set_hist (ImageHistory.reset savedImage) else ret tt
      else ret tt);;
     savedPrompt <- localStorage_getItem SESSION_PROMPT_KEY;;
     if present savedPrompt then setPrompt (default EmptyString savedPrompt)
     else ret tt)
    (fun err =>
       console_error "Failed to load session from localStorage:" err;;
       localStorage_removeItem SESSION_IMAGE_KEY;;
       localStorage_removeItem SESSION_PROMPT_KEY).

(** The effect that runs after a render [r] in which [current] or
    [prompt] changed. *)
Definition saveEffect (r : State) : Action unit :=
  let current := read (ImageHistory.current (hist r)) in
  if truthy current then
    localStorage_setItem SESSION_IMAGE_KEY (JSON_stringify current);;
    localStorage_setItem SESSION_PROMPT_KEY (prompt r)
  else ret tt.

End SupersededEditor.

(** ** The local image transforms *)

Module ImageUtils.
Import JS.

Inductive OutputQuality : Type := low | medium | high.

(** The options object handed to [imageCompression]. *)
Record Options : Type := mkOptions {
  maxSizeMB : Q;
  maxWidthOrHeight : option Z;
  useWebWorker : bool;
  initialQuality : Q
}.

Definition upload_options : Options :=
  mkOptions 1 (Some 1920) true (8 # 10).

Definition qualityOptions (quality : OutputQuality) : Q * Q :=
  match quality with
  | low => (5 # 10, 6 # 10)%Q
  | medium => (1, 8 # 10)%Q
  | high => (5, 95 # 100)%Q
  end.

Definition download_options (quality : OutputQuality) : Options :=
  let '(size, q) := qualityOptions quality in
  mkOptions size None true q.

(** What a function wrote with [console.error]. *)
Definition Log : Type := list (string * Thrown).

Section Transforms.
Context {File Blob FetchResponse Image : Type}.

(** The library [browser-image-compression] and the browser. *)
Variable imageCompression : File -> Options -> Result File.
Variable getDataUrlFromFile : File -> Result string.
Variable fetch : string -> Result FetchResponse.
Variable blob : FetchResponse -> Result Blob.
(** [new File([blob], filename, { type: blob.type })] *)
Variable newFile : Blob -> string -> File.
(** Setting [img.src]: [onload] with the decoded image, or [onerror]
    with an event, of which the text in a template string is given. *)
Variable loadImage : string -> Image + string.
(** [canvas.getContext('2d')] returned a context. *)
Variable has2dContext : bool.
(** The canvas of the size of the image, after [drawImage] under the
    given [filter], encoded by [toDataURL(mimeType)]. *)
Variable renderFiltered : Image -> string -> string -> string.

Definition optimizeImage (file : File) : Result File * Log :=
  match imageCompression file upload_options with
  | Return compressedFile => (Return compressedFile, [])
  | Throw error => (Return file, [("Image compression failed:", error)])
  end.

Definition dataURLtoFile (dataUrl filename : string) : Result File :=
  JS.bind (fetch dataUrl) (fun res =>
  JS.bind (blob res) (fun b =>
    Return (newFile b filename))).

Definition compressImageForDownload
  (dataUrl mimeType : string) (quality : OutputQuality) : Result string * Log :=
  let options := download_options quality in
  let extension :=
    JSString.or_else (JSString.split_on "/" mimeType !! 1%nat) "png" in
  match dataURLtoFile dataUrl ("source." +:+ extension) with
  | Throw error => (Throw error, [])
  | Return file =>
      match JS.bind (imageCompression file options) getDataUrlFromFile with
      | Return compressedDataUrl => (Return compressedDataUrl, [])
      | Throw error =>
          (Return dataUrl, [("Image compression for download failed:", error)])
      end
  end.

(** The promise of [applyVisualAdjustments]: resolved or rejected. *)
Definition applyVisualAdjustments
  (dataUrl : string) (brightness contrast : Z) : Result string :=
  if (brightness =? 100) && (contrast =? 100) then Return dataUrl
  else
    match loadImage dataUrl with
    | inr err => Throw (Error ("Failed to load image for adjustments: " +:+ err))
    | inl img =>
        if has2dContext then
          let filter := "brightness(" +:+ pretty brightness +:+ "%) contrast("
                        +:+ pretty contrast +:+ "%)" in
          let mimeType :=
            JSString.substring (JSString.indexOf ":" dataUrl + 1)
              (JSString.indexOf ";" dataUrl) dataUrl in
          Return (renderFiltered img filter mimeType)
        else Throw (Error "Could not get canvas context")
    end.

End Transforms.
End ImageUtils.

(** ** Concrete sessions, used to run the model *)

Module Scenario.
Import JS WebStorage Editor.

Definition engineMessage (e : EngineError) : string :=
  match e with
  | SyntaxError => "Unexpected end of JSON input"
  | TypeError => "Cannot read properties of undefined"
  | QuotaExceededError => "The quota has been exceeded."
  end.

Definition imageA : Value := image_state "data:image/png;base64,AAAA" "image/png".
Definition imageB : Value := image_state "data:image/png;base64,BBBB" "image/png".
Definition answerY : string := "data:image/jpeg;base64,YYYY".
Definition imageY : Value := image_state answerY "image/jpeg".

(** An idle editor showing entry [cursor] of [versions], over [storage]. *)
Definition editor (versions : list Value) (cursor : Z) (promptText : string)
  (storage : Storage) : Editor.State :=
  update_prompt (fun _ => promptText)
    (update_hist (fun _ => ImageHistory.mkState versions cursor)
       (Editor.initial storage)).

Definition roomy : Storage := mkStorage ∅ 1000.
Definition full : Storage := mkStorage ∅ 10.

(** The text of a stored image entry without its [mimeType] field:
    an object with the one property [dataUrl], of value [x]. *)
Definition entry_without_mimeType : string :=
  "{" +:+ JSON.quote "dataUrl" +:+ ":" +:+ JSON.quote "x" +:+ "}".

Definition stored (imageKey promptKey imageEntry promptEntry : string) : Storage :=
  mkStorage (<[imageKey := imageEntry]> (<[promptKey := promptEntry]> ∅)) 1000.

End Scenario.

(** ** The canonical Editor: the buttons of the controls panel *)

Module EditorControls.
Import JS WebStorage Editor.

(** [handleReset], created in the render of [r]. *)
Definition handleReset (r : State) : Action unit :=
  let original := read (ImageHistory.original (hist r)) in
  if truthy original then
    set_hist (ImageHistory.reset original);;
    resetView;;
    resetAdjustments;;
    setPrompt EmptyString;;
    localStorage_removeItem SAVED_PROMPT
  else ret tt.

(** [<button onClick={handleReset} disabled={!canUndo || isLoading}>] *)
Definition clickReset (r : State) : Action unit :=
  if negb (ImageHistory.canUndo (hist r)) || isLoading r then ret tt
  else handleReset r.

(** [<button onClick={handleClearSession} disabled={isLoading}>] *)
Definition clickClear (r : State) : Action unit :=
  if isLoading r then ret tt else handleClearSession r.

(** A suggestion chip: [onClick={() => setPrompt(s)}]. *)
Definition clickSuggestion (s : string) : Action unit := setPrompt s.

(** What the user can do in the controls panel, apart from download,
    share and upload. *)
Inductive Intent : Type :=
| Undo
| Redo
| Reset
| Clear
| Submit
| TypePrompt (newPrompt : string)
| PickSuggestion (s : string)
| SlideBrightness (v : Z)
| SlideContrast (v : Z)
| ResetAdjustments.

Section Panel.
(** The message the engine gives to each of its own errors. *)
Variable engineMessage : EngineError -> string.

(** [<button type="submit" disabled={isLoading || !prompt}>] in the form
    with [onSubmit={handleSubmit}]. *)
Definition clickSubmit (r : State) (st : State) : Submitted :=
  if isLoading r || negb (truthy (VString (prompt r))) then Finished (Normal tt st)
  else handleSubmit engineMessage r st.

(** The state after the handler of the current screen has run: an
    exception that leaves a handler does not undo what it did before. *)
Definition perform (st : State) (i : Intent) : State :=
  match i with
  | Undo => final_state (clickUndo st st)
  | Redo => final_state (clickRedo st st)
  | Reset => final_state (clickReset st st)
  | Clear => final_state (clickClear st st)
  | Submit =>
      match clickSubmit st st with
      | Finished c => final_state c
      | Awaiting _ st1 => st1
      end
  | TypePrompt newPrompt => final_state (handlePromptChange newPrompt st)
  | PickSuggestion s => final_state (clickSuggestion s st)
  | SlideBrightness v => final_state (setBrightness v st)
  | SlideContrast v => final_state (setContrast v st)
  | ResetAdjustments => final_state (resetAdjustments st)
  end.

Definition perform_all (st : State) (intents : list Intent) : State :=
  foldl perform st intents.

End Panel.

(** The character [c] occurs in [s]. *)
Fixpoint has_char (c : ascii) (s : string) : bool :=
  match s with
  | EmptyString => false
  | String d s' => Ascii.eqb c d || has_char c s'
  end.

(** No line terminator starts anywhere in [s]. *)
Fixpoint single_line (s : string) : bool :=
  match s with
  | EmptyString => true
  | String _ s' => negb (line_break s) && single_line s'
  end.

(** The text of the stored entry of an image state: an object with the
    two properties [dataUrl] and [mimeType], in this order. *)
Definition image_state_text (dataUrl mimeType : string) : string :=
  "{" +:+ JSON.quote "dataUrl" +:+ ":" +:+ JSON.quote dataUrl +:+ ","
  +:+ JSON.quote "mimeType" +:+ ":" +:+ JSON.quote mimeType +:+ "}".

(** The effect of a new mount of the component over a storage area. *)
Definition mount (storage : Storage) : Completion unit :=
  loadEffect (Editor.initial storage).

End EditorControls.

(** ** Suggestions: [getPromptSuggestions] and [handleGetSuggestions] *)

Module Suggestions.
Import JS WebStorage Editor.

(** White space of one byte: tab, line feed, vertical tab, form feed,
    carriage return, space. *)
Definition space1 (c : ascii) : bool :=
  let n := nat_of_ascii c in
  ((9 <=? n)%nat && (n <=? 13)%nat) || (n =? 32)%nat.

(** U+00A0, as two bytes. *)
Definition space2 (c1 c2 : ascii) : bool :=
  Ascii.eqb c1 "194" && Ascii.eqb c2 "160".

(** U+1680, U+2000 to U+200A, U+2028, U+2029, U+202F, U+205F, U+3000 and
    U+FEFF, as three bytes. *)
Definition space3 (c1 c2 c3 : ascii) : bool :=
  let n3 := nat_of_ascii c3 in
  (Ascii.eqb c1 "225" && Ascii.eqb c2 "154" && Ascii.eqb c3 "128")
  || (Ascii.eqb c1 "226" && Ascii.eqb c2 "128"
      && (((128 <=? n3)%nat && (n3 <=? 138)%nat)
          || (n3 =? 168)%nat || (n3 =? 169)%nat || (n3 =? 175)%nat))
  || (Ascii.eqb c1 "226" && Ascii.eqb c2 "129" && Ascii.eqb c3 "159")
  || (Ascii.eqb c1 "227" && Ascii.eqb c2 "128" && Ascii.eqb c3 "128")
  || (Ascii.eqb c1 "239" && Ascii.eqb c2 "187" && Ascii.eqb c3 "191").

(** [s.trimStart()] *)
Fixpoint trimStart (s : string) : string :=
  match s with
  | EmptyString => EmptyString
  | String c1 s1 =>
      if space1 c1 then trimStart s1
      else
        match s1 with
        | EmptyString => s
        | String c2 s2 =>
            if space2 c1 c2 then trimStart s2
            else
              match s2 with
              | EmptyString => s
              | String c3 s3 => if space3 c1 c2 c3 then trimStart s3 else s
              end
        end
  end.

(** [s.trimEnd()]: what is left of [s] once it is white space only is
    dropped. *)
Fixpoint trimEnd (s : string) : string :=
  match s with
  | EmptyString => EmptyString
  | String c s' =>
      if String.eqb (trimStart s) EmptyString then EmptyString
      else String c (trimEnd s')
  end.

(** [s.trim()] *)
Definition trim (s : string) : string := trimEnd (trimStart s).

(** The arguments of the call, as they reach [generateContent]. *)
Record SuggestRequest : Type := mkSuggestRequest {
  base64Image : option string;
  mimeType : Value
}.

(** The part of the answer that the function reads: [response.text]. *)
Record TextResponse : Type := mkTextResponse { text : option string }.

(** [Array.isArray(v) && v.every(s => typeof s === 'string')], with the
    strings of the array. *)
Fixpoint strings_of (elems : list Value) : option (list string) :=
  match elems with
  | [] => Some []
  | VString s :: rest => l ← strings_of rest; Some (s :: l)
  | _ :: _ => None
  end.

Definition FAILED : string := "Failed to generate AI suggestions. Please try again.".

Section Service.
(** The hosted model. *)
Variable generateContent : SuggestRequest -> Result TextResponse.

(** The body of the [try] block. *)
Definition request_suggestions (req : SuggestRequest) : Result (list string) :=
  JS.bind (generateContent req) (fun response =>
  JS.bind (match text response with
           | Some t => Return (trim t)
           | None => Throw (Engine TypeError)
           end) (fun jsonText =>
  JS.bind (match JSON.parse jsonText with
           | Some v => Return v
           | None => Throw (Engine SyntaxError)
           end) (fun suggestions =>
    match suggestions with
    | VArray elems =>
        match strings_of elems with
        | Some l => Return l
        | None =>
            Throw (Error "AI response was not in the expected format (array of strings).")
        end
    | _ => Throw (Error "AI response was not in the expected format (array of strings).")
    end))).

(** The result of the promise, and what was written to the console. *)
Definition getPromptSuggestions (req : SuggestRequest)
  : Result (list string) * list (string * Thrown) :=
  match request_suggestions req with
  | Return l => (Return l, [])
  | Throw error => (Throw (Error FAILED), [("Error getting prompt suggestions:", error)])
  end.

End Service.

(** The cells of the Editor, with the one that tracks a suggestion fetch. *)
Record Cells : Type := mkCells {
  editor : Editor.State;
  isGeneratingSuggestions : bool
}.

Definition in_editor (f : Editor.State -> Editor.State) (st : Cells) : Cells :=
  mkCells (f (editor st)) (isGeneratingSuggestions st).

Definition setIsGeneratingSuggestions (v : bool) (st : Cells) : Cells :=
  mkCells (editor st) v.

Inductive Fetching : Type :=
| NotStarted (st : Cells)
| Finished (st : Cells)
| Awaiting (request : SuggestRequest) (st : Cells).

Section Handler.
(** The message the engine gives to each of its own errors. *)
Variable engineMessage : EngineError -> string.

Definition handleGetSuggestions_catch (err : Thrown) (st : Cells) : Cells :=
  in_editor
    (update_suggestionError
       (fun _ => Some (message_or engineMessage "Could not get suggestions." err)))
    st.

(** [handleGetSuggestions], created in the render of [r], up to its
    [await]. *)
Definition handleGetSuggestions (r : Cells) (st : Cells) : Fetching :=
  let current := read (ImageHistory.current (hist (editor r))) in
  if negb (truthy current) then NotStarted st
  else
    let st1 :=
      in_editor (update_suggestions (fun _ => []))
        (in_editor (update_suggestionError (fun _ => None))
           (setIsGeneratingSuggestions true st)) in
    match JS.bind (base64_of current) (fun base64Image =>
          JS.bind (get current "mimeType") (fun mimeType =>
            Return (mkSuggestRequest base64Image mimeType))) with
    | Return request => Awaiting request st1
    | Throw err =>
        Finished (setIsGeneratingSuggestions false (handleGetSuggestions_catch err st1))
    end.

(** The rest of the handler, run when the promise of
    [getPromptSuggestions] settles with [outcome]. *)
Definition handleGetSuggestions_resume (outcome : Result (list string)) (st : Cells)
  : Cells :=
  setIsGeneratingSuggestions false
    match outcome with
    | Return newSuggestions => in_editor (update_suggestions (fun _ => newSuggestions)) st
    | Throw err => handleGetSuggestions_catch err st
    end.

End Handler.

(** The button that starts a fetch is rendered when
    [!isGeneratingSuggestions && suggestions.length === 0]. *)
Definition button_shown (r : Cells) : bool :=
  negb (isGeneratingSuggestions r)
  && (length (suggestions (editor r)) =? 0)%nat.

End Suggestions.

(** ** The service module [src/services/geminiService.ts]

    The [try] blocks of its two functions are those of the copies that
    stand at the end of [Editor.tsx] ([GeminiService.request_image] and
    [Suggestions.request_suggestions]); the [catch] blocks differ: they map
    the error to a message for the user and always throw a new [Error]. *)

Module Services.
Import JS.

(** Lower case of the letters of ASCII, byte by byte; the other bytes are
    kept. *)
Definition lower_ascii (c : ascii) : ascii :=
  let n := nat_of_ascii c in
  if (65 <=? n)%nat && (n <=? 90)%nat then ascii_of_nat (n + 32) else c.

Fixpoint ascii_lower (s : string) : string :=
  match s with
  | EmptyString => EmptyString
  | String c s' => String (lower_ascii c) (ascii_lower s')
  end.

(** Every byte of [s] is below 128. *)
Fixpoint ascii_only (s : string) : bool :=
  match s with
  | EmptyString => true
  | String c s' => (nat_of_ascii c <? 128)%nat && ascii_only s'
  end.

(** What is used of [String.prototype.toLowerCase]: a text of ASCII at the
    end of a string is lowered letter by letter, whatever stands in front
    of it, and nothing is put in front of a string that is all ASCII. *)
Definition lowers_ascii (toLowerCase : string -> string) : Prop :=
  forall a t : string,
    ascii_only t = true ->
    exists a', toLowerCase (a +:+ t) = a' +:+ ascii_lower t
               /\ (a = EmptyString -> a' = EmptyString).

Section Service.
(** The message the engine gives to each of its own errors. *)
Variable engineMessage : EngineError -> string.
(** [s.toLowerCase()] *)
Variable toLowerCase : string -> string.

(** [error.message] when [error instanceof Error]. *)
Definition message_of (error : Thrown) : option string :=
  match error with
  | Error message => Some message
  | Engine e => Some (engineMessage e)
  | NonError _ => None
  end.

Section Edit.
(** The hosted model. *)
Variable generateContent : GeminiService.EditRequest -> Result GeminiService.Response.

(** [userFriendlyError] at the end of the [catch] block of
    [editImageWithNanoBanana]. *)
Definition edit_userFriendlyError (error : Thrown) : string :=
  match message_of error with
  | Some message =>
      let errorMessage := toLowerCase message in
      if JSString.includes "api key not valid" errorMessage then
        "There is an issue with the API configuration. The provided API key is invalid."
      else if JSString.includes "safety" errorMessage then
        "Your request could not be processed due to safety policies. Please modify your prompt and try again."
      else if JSString.includes "no image data found" errorMessage then
        "The AI couldn't generate an image for this request. Try rephrasing your prompt or using a different image."
      else if JSString.includes "network" errorMessage
              || JSString.includes "fetch" errorMessage then
        "A network error occurred. Please check your internet connection and try again."
      else message
  | None => "Failed to edit image due to an unexpected issue. Please try again later."
  end.

(** The result of the promise, and what was written to the console. *)
Definition editImageWithNanoBanana (req : GeminiService.EditRequest)
  : Result string * list (string * Thrown) :=
  match GeminiService.request_image generateContent req with
  | Return url => (Return url, [])
  | Throw error =>
      (Throw (Error (edit_userFriendlyError error)),
       [("Error editing image with Gemini:", error)])
  end.

End Edit.

Section Suggest.
(** The hosted model. *)
Variable generateContent : Suggestions.SuggestRequest -> Result Suggestions.TextResponse.

(** [userFriendlyError] at the end of the [catch] block of
    [getPromptSuggestions]. *)
Definition suggest_userFriendlyError (error : Thrown) : string :=
  match message_of error with
  | Some message =>
      let errorMessage := toLowerCase message in
      if JSString.includes "api key not valid" errorMessage then
        "Could not get suggestions due to an API configuration issue."
      else if JSString.includes "safety" errorMessage then
        "Suggestions could not be generated for this image due to safety policies."
      else if JSString.includes "expected format" errorMessage then
        "The AI returned an unexpected response for suggestions. Please try again."
      else if JSString.includes "network" errorMessage
              || JSString.includes "fetch" errorMessage then
        "Network error while fetching suggestions. Please check your connection."
      else if truthy (VString message) then message
      else Suggestions.FAILED
  | None => Suggestions.FAILED
  end.

(** The result of the promise, and what was written to the console. *)
Definition getPromptSuggestions (req : Suggestions.SuggestRequest)
  : Result (list string) * list (string * Thrown) :=
  match Suggestions.request_suggestions generateContent req with
  | Return l => (Return l, [])
  | Throw error =>
      (Throw (Error (suggest_userFriendlyError error)),
       [("Error getting prompt suggestions:", error)])
  end.

End Suggest.
End Service.
End Services.

(** ** Upload: [handleFileChange] of the canonical Editor *)

Module Upload.
Import JS WebStorage Editor.

(** [err instanceof DOMException] *)
Definition is_DOMException (err : Thrown) : bool :=
  match err with
  | Engine QuotaExceededError => true
  | _ => false
  end.

Section Files.
Context {File : Type}.
(** [file.type] *)
Variable fileType : File -> string.
(** [reader.readAsDataURL(file)] throws, or [onloadend] is called later
    with this [reader.result]: a data URL, or [null] after a failed read. *)
Variable readAsDataURL : File -> Result Value.
(** The message the engine gives to each of its own errors. *)
Variable engineMessage : EngineError -> string.

Inductive Uploading : Type :=
| Rejected (c : Completion unit)
| Optimizing (file : File) (st : State).

(** [handleFileChange(file)] up to [await optimizeImage(file)]. *)
Definition handleFileChange (file : File) (st : State) : Uploading :=
  if JSString.strip_prefix "image/" (fileType file) is Some _ then
    Optimizing file
      (final_state
         ((setIsLoading true;;
           setLoadingMessage "Optimizing image...";;
           setError None;;
           setSuggestions [];;
           resetView;;
           resetAdjustments) st))
  else
    Rejected (setError (Some "Please upload a valid image file (PNG, JPG, etc.).") st).

Definition handleFileChange_catch (err : Thrown) : Action unit :=
  let message :=
    if is_DOMException err then
      "Failed to read the file: " +:+ message_or engineMessage EmptyString err
      +:+ ". It might be corrupt or unreadable."
    else
      match err with
      | NonError _ => "An unknown error occurred while processing the image."
      | _ => "An error occurred while processing the image: "
             +:+ message_or engineMessage EmptyString err
      end in
  setError (Some message);;
  setIsLoading false;;
  setLoadingMessage EmptyString.

Inductive Reading : Type :=
| Failed (c : Completion unit)
| Started (optimizedFile : File) (result : Value) (st : State).

(** The rest of the [try] block, run when the promise of [optimizeImage]
    settles with [outcome]: the reader is created and started. *)
Definition handleFileChange_optimized (outcome : Result File) (st : State) : Reading :=
  match JS.bind outcome (fun optimizedFile =>
        JS.bind (readAsDataURL optimizedFile) (fun result =>
          Return (optimizedFile, result))) with
  | Return (optimizedFile, result) => Started optimizedFile result st
  | Throw err => Failed (handleFileChange_catch err st)
  end.

(** [reader.onloadend] *)
Definition onloadend (optimizedFile : File) (result : Value) : Action unit :=
  set_hist
    (ImageHistory.reset
       (VObject [("dataUrl", result); ("mimeType", VString (fileType optimizedFile))]));;
  setPrompt EmptyString;;
  localStorage_removeItem SAVED_PROMPT;;
  setIsLoading false;;
  setLoadingMessage EmptyString.

End Files.
End Upload.

(** ** Download: [handleDownload] of the canonical Editor *)

Module Download.
Import JS WebStorage Editor ImageUtils.

(** The first group of the leftmost match of [s] against the pattern
    [data:image/], a greedy group of at least one character, [;base64,]. *)
Fixpoint match_image_extension (s : string) : option string :=
  match (rest ← JSString.strip_prefix "data:image/" s;
         g ← greedy_group rest;
         if String.eqb g EmptyString then None else Some g) with
  | Some g => Some g
  | None =>
      match s with
      | EmptyString => None
      | String _ s' => match_image_extension s'
      end
  end.

(** The text of a quality tier in a template string. *)
Definition quality_name (quality : OutputQuality) : string :=
  match quality with
  | low => "low"
  | medium => "medium"
  | high => "high"
  end.

(** The [<a>] element that is clicked: its [href] and its [download]. *)
Record Link : Type := mkLink { href : string; download : string }.

(** The arguments of the two calls that the handler awaits. *)
Record DownloadRequest : Type := mkDownloadRequest {
  dataUrl : Value;
  mimeType : Value;
  brightnessPct : Z;
  contrastPct : Z;
  quality : OutputQuality
}.

Section Pipeline.
Context {File Blob FetchResponse Image : Type}.
Variable imageCompression : File -> Options -> Result File.
Variable getDataUrlFromFile : File -> Result string.
Variable fetch : string -> Result FetchResponse.
Variable blob : FetchResponse -> Result Blob.
Variable newFile : Blob -> string -> File.
Variable loadImage : string -> Image + string.
Variable has2dContext : bool.
Variable renderFiltered : Image -> string -> string -> string.

(** [await applyVisualAdjustments(dataUrl, brightness, contrast)] and then
    [await compressImageForDownload(adjustedDataUrl, mimeType, quality)],
    for an image state whose two fields are strings. *)
Definition prepareDownload (dataUrl mimeType : string) (brightness contrast : Z)
    (quality : OutputQuality) : Result string * Log :=
  match applyVisualAdjustments loadImage has2dContext renderFiltered
          dataUrl brightness contrast with
  | Throw err => (Throw err, [])
  | Return adjustedDataUrl =>
      compressImageForDownload imageCompression getDataUrlFromFile fetch blob newFile
        adjustedDataUrl mimeType quality
  end.

End Pipeline.

Inductive Preparing : Type :=
| Skipped (st : State)
| Finished (c : Completion (option Link))
| Awaiting (request : DownloadRequest) (st : State).

Section Handler.
(** The message the engine gives to each of its own errors. *)
Variable engineMessage : EngineError -> string.
(** [Date.now()] at the time of the download. *)
Variable now : Z.

Definition handleDownload_catch (err : Thrown) : Action (option Link) :=
  setError (Some (message_or engineMessage "Could not prepare the image for download." err));;
  ret None.

Definition handleDownload_finally : Action unit :=
  setIsLoading false;; setLoadingMessage EmptyString.

(** [handleDownload], created in the render of [r] in which the quality
    cell holds [outputQuality], up to its first [await]. *)
Definition handleDownload (r : State) (outputQuality : OutputQuality) (st : State)
  : Preparing :=
  let current := read (ImageHistory.current (hist r)) in
  if negb (truthy current) || isLoading r then Skipped st
  else
    let st1 := final_state
      ((setIsLoading true;;
        setLoadingMessage "Preparing download...";;
        setError None) st) in
    match JS.bind (get current "dataUrl") (fun dataUrl =>
          JS.bind (get current "mimeType") (fun mimeType =>
            Return (mkDownloadRequest dataUrl mimeType
                      (brightness r) (contrast r) outputQuality))) with
    | Return request => Awaiting request st1
    | Throw err =>
        Finished (try_finally (handleDownload_catch err) handleDownload_finally st1)
    end.

(** The rest of the handler, run when the second promise settles with
    [outcome] (or the first one is rejected): the link is made and
    clicked. *)
Definition handleDownload_resume (outputQuality : OutputQuality)
    (outcome : Result string) : Action (option Link) :=
  try_finally
    (try_catch
       (compressedDataUrl <- of_result outcome;;
        let extension :=
          JSString.or_else (match_image_extension compressedDataUrl) "png" in
        ret (Some (mkLink compressedDataUrl
                     ("edited-image-" +:+ quality_name outputQuality +:+ "-"
                      +:+ pretty now +:+ "." +:+ extension))))
       handleDownload_catch)
    handleDownload_finally.

End Handler.
End Download.

(** ** A mounted Editor as a transition system *)

Module Session.
Import JS WebStorage Editor EditorControls.

Section Machine.
Context {File : Type}.
(** [file.type] *)
Variable fileType : File -> string.
(** The message the engine gives to each of its own errors. *)
Variable engineMessage : EngineError -> string.

(** What happens to a mounted Editor, one event at a time: the user acts in
    the controls panel; the promise of one of the edits in flight settles;
    a file is handed to [handleFileChange]; the optimization or the start
    of the read of a file fails; the reader of a file calls [onloadend].
    The events of the browser are not ordered here: a read may end, and
    any pending promise may settle, at any time. *)
Inductive Event : Type :=
| Act (i : Intent)
| Settle (n : nat) (outcome : Result string)
| PickFile (file : File)
| FileFailed (err : Thrown)
| FileRead (optimizedFile : File) (result : Value).

(** The state on screen, and the renders whose [handleSubmit] is waiting
    for the promise of [editImageWithNanoBanana]. *)
Record Session : Type := mkSession {
  view : State;
  inFlight : list State
}.

Definition mounted (storage : Storage) : Session :=
  mkSession (final_state (mount storage)) [].

(** The render that a submit leaves waiting, if it does. *)
Definition submitted_render (st : State) (i : Intent) : list State :=
  match i with
  | Submit =>
      match clickSubmit engineMessage st st with
      | Awaiting _ _ => [st]
      | Finished _ => []
      end
  | _ => []
  end.

Definition step (s : Session) (e : Event) : Session :=
  match e with
  | Act i =>
      mkSession (perform engineMessage (view s) i)
        (inFlight s ++ submitted_render (view s) i)
  | Settle n outcome =>
      match inFlight s !! n with
      | Some r =>
          mkSession (final_state (handleSubmit_resume engineMessage r outcome (view s)))
            (delete n (inFlight s))
      | None => s
      end
  | PickFile file =>
      match Upload.handleFileChange fileType file (view s) with
      | Upload.Rejected c => mkSession (final_state c) (inFlight s)
      | Upload.Optimizing _ st1 => mkSession st1 (inFlight s)
      end
  | FileFailed err =>
      mkSession (final_state (Upload.handleFileChange_catch engineMessage err (view s)))
        (inFlight s)
  | FileRead optimizedFile result =>
      mkSession (final_state (Upload.onloadend fileType optimizedFile result (view s)))
        (inFlight s)
  end.

Definition run (s : Session) (events : list Event) : Session :=
  foldl step s events.

End Machine.

(** The versions and the cursor fit together: no version and the cursor
    at -1, or the cursor on one of the versions. *)
Definition coherent (h : ImageHistory.State Value) : Prop :=
  (ImageHistory.history h = [] /\ ImageHistory.currentIndex h = -1)
  \/ ImageHistory.initialized h.

End Session.

(** ** A run of the canonical Editor: a drop on the canvas during an edit

    The canvas takes a dropped file whatever the loading flag is
    ([onDrop={handleDrop}], where the Upload New button has
    [disabled={isLoading}]), and the end of the read of that file ends the
    loading state.  The runs below start from a mount over an empty
    storage. *)

Module DropDuringEdit.
Import JS WebStorage Editor EditorControls Session.

(** A file, as far as the Editor reads it: its type. *)
Definition fileType (file : string) : string := file.

Definition imageN : Value := image_state "data:image/png;base64,NNNN" "image/png".
Definition answerZ : string := "data:image/png;base64,ZZZZ".
Definition imageZ : Value := image_state answerZ "image/png".

(** An upload that succeeds: the file is handed to [handleFileChange], and
    later its reader ends with the data URL. *)
Definition upload (dataUrl : string) : list (Event (File := string)) :=
  [PickFile "image/png"; FileRead "image/png" (VString dataUrl)].

(** [A] is uploaded and edited into [B]; a second prompt is typed and
    submitted: the history is [A, B] with the cursor on [B], and the edit of
    [B] is in flight. *)
Definition edit_of_B : list Event :=
  upload "data:image/png;base64,AAAA"
  ++ [Act (TypePrompt "add hat"); Act Submit;
      Settle 0 (Return "data:image/png;base64,BBBB");
      Act (TypePrompt "add scarf"); Act Submit].

(** While that edit is in flight, [N] is dropped on the canvas and read,
    and a new prompt is typed. *)
Definition drop_of_N : list Event :=
  edit_of_B ++ upload "data:image/png;base64,NNNN" ++ [Act (TypePrompt "more")].

(** The new prompt is submitted, this edit of [N] succeeds with [Z], and
    the user presses Undo; the edit of [B] is still in flight. *)
Definition undo_in_flight : list Event :=
  drop_of_N ++ [Act Submit; Settle 1 (Return answerZ); Act Undo].

Definition after (events : list Event) : Session :=
  run fileType Scenario.engineMessage (mounted Scenario.roomy) events.

End DropDuringEdit.

(** * The model on concrete inputs *)

Example slice_examples :
  JSArray.slice [1; 2; 3; 4]%nat 0 2 = [1; 2]%nat
  /\ JSArray.slice [1; 2; 3; 4]%nat 0 0 = []
  /\ JSArray.slice [1; 2; 3; 4]%nat 0 9 = [1; 2; 3; 4]%nat
  /\ JSArray.slice [1; 2; 3; 4]%nat 1 (-1) = [2; 3]%nat
  /\ JSArray.slice [1; 2; 3; 4]%nat (-2) 4 = [3; 4]%nat
  /\ JSArray.index [1; 2; 3; 4]%nat (-1) = None
  /\ JSArray.index [1; 2; 3; 4]%nat 3 = Some 4%nat.
Proof. repeat split; reflexivity. Qed.

Example split_examples :
  JSString.split_on "," "data:image/png;base64,AAAA" = ["data:image/png;base64"; "AAAA"]
  /\ JSString.split_on "," EmptyString = [EmptyString]
  /\ JSString.split_on "/" "image/png" !! 1%nat = Some "png"
  /\ JSString.split_on "/" "png" !! 1%nat = None.
Proof. repeat split; reflexivity. Qed.

Example substring_examples :
  let url := "data:image/png;base64,AAAA" in
  JSString.substring (JSString.indexOf ":" url + 1) (JSString.indexOf ";" url) url
    = "image/png"
  /\ JSString.substring (JSString.indexOf ":" "abc" + 1) (JSString.indexOf ";" "abc") "abc"
     = EmptyString
  /\ JSString.substring 3 1 "abcdef" = "bc".
Proof. repeat split; reflexivity. Qed.

Example match_data_url_examples :
  Editor.match_data_url "data:image/jpeg;base64,YYYY" = Some "image/jpeg"
  /\ Editor.match_data_url "xdata:a;base64,b;base64,c" = Some "a;base64,b"
  /\ Editor.match_data_url "data:;base64,YYYY" = Some EmptyString
  /\ Editor.match_data_url "image/png" = None
  /\ JSString.or_else (Editor.match_data_url "data:;base64,YYYY") "image/png" = "image/png".
Proof. repeat split; reflexivity. Qed.

Example json_parse_examples :
  JSON.parse "[1, -0.5e+3, true, null]"
    = Some (JS.VArray [JS.VNumber "1"; JS.VNumber "-0.5e+3"; JS.VBool true; JS.VNull])
  /\ JSON.parse " {} " = Some (JS.VObject [])
  /\ JSON.parse "{oops" = None
  /\ JSON.parse "01" = None
  /\ JSON.parse "[1,]" = None
  /\ JSON.parse EmptyString = None
  /\ JSON.parse Scenario.entry_without_mimeType
     = Some (JS.VObject [("dataUrl", JS.VString "x")]).
Proof. repeat split; reflexivity. Qed.

Example json_round_trip_example :
  (text ← JSON.stringify Scenario.imageA; JSON.parse text) = Some Scenario.imageA.
Proof. reflexivity. Qed.

Example truthy_examples :
  JS.truthy (JS.VNumber "0") = false /\ JS.truthy (JS.VNumber "-0.0e7") = false
  /\ JS.truthy (JS.VNumber "0.5") = true /\ JS.truthy (JS.VString EmptyString) = false
  /\ JS.truthy (JS.VObject []) = true /\ JS.truthy (JS.VArray []) = true.
Proof. repeat split; reflexivity. Qed.

(** The object of the hook has its eight properties. *)
Example hook_members (h : ImageHistory.State nat) :
  ImageHistory.useImageHistory h !! "push" = Some (ImageHistory.MPush (ImageHistory.push h))
  /\ ImageHistory.useImageHistory h !! "undo"
     = Some (ImageHistory.MAction (ImageHistory.undo h))
  /\ ImageHistory.useImageHistory h !! "reset" = Some (ImageHistory.MPush ImageHistory.reset)
  /\ ImageHistory.useImageHistory h !! "canRedo"
     = Some (ImageHistory.MFlag (ImageHistory.canRedo h))
  /\ size (ImageHistory.useImageHistory h) = 8%nat.
Proof. repeat split; reflexivity. Qed.

(** The scenario of a basic edit: upload [A], submit a prompt, the answer
    [Y] arrives, undo, redo. *)
Example basic_edit_scenario :
  let r := Scenario.editor [Scenario.imageA] 0 "add hat" Scenario.roomy in
  exists request st1,
    Editor.handleSubmit Scenario.engineMessage r r = Editor.Awaiting request st1
    /\ let st2 := Editor.final_state
                    (Editor.handleSubmit_resume Scenario.engineMessage r
                       (JS.Return Scenario.answerY) st1) in
       Editor.hist st2 = ImageHistory.mkState [Scenario.imageA; Scenario.imageY] 1
       /\ ImageHistory.canUndo (Editor.hist st2) = true
       /\ Editor.prompt st2 = EmptyString
       /\ Editor.isLoading st2 = false
       /\ let st3 := Editor.final_state (Editor.clickUndo st2 st2) in
          ImageHistory.current (Editor.hist st3) = Some Scenario.imageA
          /\ let st4 := Editor.final_state (Editor.clickRedo st3 st3) in
             ImageHistory.current (Editor.hist st4) = Some Scenario.imageY.
Proof. eexists _, _. repeat split; reflexivity. Qed.

Example trim_examples :
  Suggestions.trim "  [1, 2]  " = "[1, 2]"
  /\ Suggestions.trim (String "009" (String "010" ("a b" +:+ String "013" EmptyString))) = "a b"
  /\ Suggestions.trim (String "194" (String "160" ("x" +:+ String "226" (String "128" (String "168" EmptyString))))) = "x"
  /\ Suggestions.trim "   " = EmptyString
  /\ Suggestions.trim (String "226" (String "130" (String "172" " "))) = String "226" (String "130" (String "172" EmptyString)).
Proof. repeat split; reflexivity. Qed.

Example match_image_extension_examples :
  Download.match_image_extension "data:image/jpeg;base64,YYYY" = Some "jpeg"
  /\ Download.match_image_extension "data:image/;base64,YYYY" = None
  /\ Download.match_image_extension "data:text/plain;base64,YYYY" = None
  /\ Download.match_image_extension "data:image/;base64,data:image/png;base64,Y"
     = Some ";base64,data:image/png".
Proof. repeat split; reflexivity. Qed.

(** * Properties *)

Import ImageHistory.

(** ** The History Store *)

Section HistoryFacts.
Context {T : Type}.
Implicit Types (h : State T) (v : list T) (c : Z) (s : T).

Lemma slice_prefix v c :
  0 <= c + 1 <= Z.of_nat (length v) ->
  JSArray.slice v 0 (c + 1) = take (Z.to_nat (c + 1)) v.
Proof.
  intros Hc. unfold JSArray.slice, JSArray.relative.
  replace (0 <? 0) with false by reflexivity.
  destruct (Z.ltb_spec (c + 1) 0) as [Hneg | _]; [lia |].
  rewrite !Z.min_l by lia.
  rewrite Z.sub_0_r, Z.max_l by lia.
  reflexivity.
Qed.

Lemma push_history v c s h :
  0 <= c + 1 <= Z.of_nat (length v) ->
  push (mkState v c) s h = mkState (take (Z.to_nat (c + 1)) v ++ [s]) (c + 1).
Proof.
  intros Hc. unfold push, setCurrentIndex, setHistory. cbn [history currentIndex].
  rewrite slice_prefix by exact Hc.
  f_equal.
  rewrite length_app, length_take. cbn [length]. lia.
Qed.

Lemma push_initialized v c s h :
  0 <= c + 1 <= Z.of_nat (length v) ->
  initialized (push (mkState v c) s h).
Proof.
  intros Hc. rewrite push_history by exact Hc.
  unfold initialized. cbn [history currentIndex].
  rewrite length_app, length_take. cbn [length]. lia.
Qed.

Lemma apply_op_initialized h op :
  initialized h -> initialized (apply_op h op).
Proof.
  destruct h as [v c]. unfold initialized. cbn [history currentIndex].
  intros Hc. destruct op as [s | |]; cbn [apply_op].
  - apply push_initialized. lia.
  - unfold undo, canUndo. cbn [currentIndex].
    destruct (Z.ltb_spec 0 c); cbn; lia.
  - unfold redo, canRedo. cbn [history currentIndex].
    destruct (Z.ltb_spec c (Z.of_nat (length v) - 1)); cbn; lia.
Qed.

Lemma run_initialized ops : forall h,
  initialized h -> initialized (run h ops).
Proof.
  induction ops as [| op ops IH]; intros h Hh; [exact Hh |].
  cbn [run foldl]. apply IH, apply_op_initialized, Hh.
Qed.

Lemma undo_at_floor h : currentIndex h = 0 -> apply_op h OpUndo = h.
Proof.
  intros H0. cbn [apply_op]. unfold undo, canUndo. rewrite H0. reflexivity.
Qed.

Lemma redo_at_ceiling h :
  currentIndex h = Z.of_nat (length (history h)) - 1 -> apply_op h OpRedo = h.
Proof.
  intros Hc. cbn [apply_op]. unfold redo, canRedo.
  rewrite Hc, Z.ltb_irrefl. reflexivity.
Qed.

End HistoryFacts.

(** C1.  For every history with versions [v] and cursor [c] with
    [0 <= c < length v], [push s] leaves the versions [v[0..c]] followed by
    [s], and the cursor on the last of them.  In particular, from the
    history [A, B, C] with the cursor on [C], two undos put the cursor on
    [A], and a push of [D] then gives the history [A, D] with cursor 1 and
    [canRedo] false. *)
Theorem C1_push_truncates_redo_tail :
  forall (T : Type) (v : list T) (c : Z) (s : T) (A B C D : T),
    0 <= c < Z.of_nat (length v) ->
    let h' := apply_op (mkState v c) (OpPush s) in
    (history h' = take (Z.to_nat (c + 1)) v ++ [s]
     /\ currentIndex h' = Z.of_nat (length (history h')) - 1)
    /\
    let undone := run (mkState [A; B; C] 2) [OpUndo; OpUndo] in
    let pushed := apply_op undone (OpPush D) in
    currentIndex undone = 0 /\ current undone = Some A
    /\ history pushed = [A; D] /\ currentIndex pushed = 1
    /\ canRedo pushed = false.
Proof.
  intros T v c s A B C D Hc h'. split.
  - subst h'. cbn [apply_op]. rewrite push_history by lia.
    cbn [history currentIndex]. split; [reflexivity |].
    rewrite length_app, length_take. cbn [length]. lia.
  - repeat split; reflexivity.
Qed.

Lemma C1_push_truncates_redo_tail_witness :
  0 <= 1 < Z.of_nat (length [10; 20; 30; 40]%nat)
  /\ history (apply_op (mkState [10; 20; 30; 40]%nat 1) (OpPush 50%nat))
     = [10; 20; 50]%nat.
Proof.
  split; [cbn; lia |].
  apply (C1_push_truncates_redo_tail nat [10; 20; 30; 40]%nat 1 50%nat
           0%nat 1%nat 2%nat 3%nat).
  cbn; lia.
Defined.

(** C3.  Starting from any initialized history, after every operation of
    any sequence of pushes, undos and redos: the history is still
    initialized, [canUndo] holds exactly when the cursor is above 0,
    [canRedo] holds exactly when the cursor is below [length - 1], an undo
    with the cursor at 0 changes nothing, and a redo with the cursor at
    [length - 1] changes nothing.  The operations are total functions, so
    none of them raises an error. *)
Theorem C3_undo_redo_flags_and_clamping :
  forall (T : Type) (h0 : State T) (ops : list (Op T)) (k : nat),
    initialized h0 ->
    let h := run h0 (take k ops) in
    initialized h
    /\ (canUndo h = true <-> 0 < currentIndex h)
    /\ (canRedo h = true <-> currentIndex h < Z.of_nat (length (history h)) - 1)
    /\ (currentIndex h = 0 -> apply_op h OpUndo = h)
    /\ (currentIndex h = Z.of_nat (length (history h)) - 1 -> apply_op h OpRedo = h).
Proof.
  intros T h0 ops k H0 h.
  split; [apply run_initialized, H0 |].
  split; [unfold canUndo; apply Z.ltb_lt |].
  split; [unfold canRedo; apply Z.ltb_lt |].
  split; [apply undo_at_floor | apply redo_at_ceiling].
Qed.

Lemma C3_undo_redo_flags_and_clamping_witness :
  initialized (mkState [1; 2; 3]%nat 2)
  /\ apply_op (run (mkState [1; 2; 3]%nat 2) (take 2 [OpUndo; OpUndo; OpRedo])) OpUndo
     = run (mkState [1; 2; 3]%nat 2) (take 2 [OpUndo; OpUndo; OpRedo]).
Proof.
  assert (H0 : initialized (mkState [1; 2; 3]%nat 2)) by (unfold initialized; cbn; lia).
  split; [exact H0 |].
  apply (C3_undo_redo_flags_and_clamping nat (mkState [1; 2; 3]%nat 2)
           [OpUndo; OpUndo; OpRedo] 2 H0).
  reflexivity.
Defined.

(** C10.  The queries and operations of the History Store are total on the
    empty history, the state of [useImageHistory(null)]: [current] and
    [original] are absent, [canUndo] and [canRedo] are false, undo and redo
    change nothing, and [push s], like [reset s], gives the history [[s]]
    with cursor 0, which is initialized. *)
Theorem C10_empty_history_total :
  forall (T : Type) (s : T),
    let empty : State T := init None in
    history empty = [] /\ currentIndex empty = -1
    /\ current empty = None /\ original empty = None
    /\ canUndo empty = false /\ canRedo empty = false
    /\ apply_op empty OpUndo = empty /\ apply_op empty OpRedo = empty
    /\ apply_op empty (OpPush s) = mkState [s] 0
    /\ reset s empty = mkState [s] 0
    /\ initialized (apply_op empty (OpPush s)).
Proof.
  intros T s empty. unfold initialized.
  repeat split; try reflexivity; cbn; lia.
Qed.

(** ** The Editor: editing *)

Import JS WebStorage Editor.

Section EditingFacts.
Variable engineMessage : EngineError -> string.

(** A successful answer: what [handleSubmit_resume] leaves behind. *)
Lemma resume_success r url st :
  exists st',
    handleSubmit_resume engineMessage r (Return url) st = Normal tt st'
    /\ hist st' =
         push (hist r)
           (image_state url (JSString.or_else (match_data_url url) "image/png"))
           (hist st)
    /\ prompt st' = EmptyString
    /\ isLoading st' = false
    /\ error st' = error st
    /\ getItem SAVED_PROMPT (localStorage st') = None.
Proof.
  destruct st. eexists. split; [reflexivity |].
  cbn. repeat split; try reflexivity.
  unfold getItem. cbn. apply lookup_delete_eq.
Qed.

(** A failure: the error slot is written, the history is not. *)
Lemma resume_failure r err st :
  exists st',
    handleSubmit_resume engineMessage r (Throw err) st = Normal tt st'
    /\ hist st' = hist st
    /\ prompt st' = prompt st
    /\ localStorage st' = localStorage st
    /\ isLoading st' = false
    /\ error st' = Some (message_or engineMessage "An unexpected error occurred." err).
Proof.
  destruct st. eexists. split; [reflexivity |].
  cbn. repeat split; reflexivity.
Qed.

(** A request is only in flight for a render with a current image, whose
    history is therefore initialized. *)
Lemma awaiting_initialized r st request st1 :
  handleSubmit engineMessage r st = Awaiting request st1 ->
  initialized (hist r)
  /\ st1 = update_error (fun _ => None)
             (update_loadingMessage (fun _ => "Applying AI edit...")
                (update_isLoading (fun _ => true) st)).
Proof.
  unfold handleSubmit.
  destruct (ImageHistory.current (hist r)) as [cur |] eqn:Hcur.
  - change (read (Some cur)) with cur.
    destruct (negb (truthy cur) || negb (truthy (VString (prompt r))) || isLoading r);
      cbv beta iota; [intros H; discriminate H |].
    destruct (edit_request cur (prompt r)); cbv beta iota;
      [| intros H; discriminate H].
    intros H. injection H as _ <-. split; [| destruct st; reflexivity].
    unfold ImageHistory.current, JSArray.index in Hcur.
    destruct (Z.ltb_spec (currentIndex (hist r)) 0) as [| Hpos]; [discriminate Hcur |].
    apply lookup_lt_Some in Hcur. unfold initialized. lia.
  - cbn. intros H. discriminate H.
Qed.

End EditingFacts.

(** C2 (code at the failing input).  [A] is uploaded and edited into [B];
    an edit of [B] is submitted, with the cursor at 1.  While it is in
    flight a file [N] is dropped on the canvas, which no loading flag
    guards, and the end of its read ends the loading state: the history is
    [N].  A second edit, of [N], is submitted and succeeds with [Z]; the
    Undo button is enabled and moves the cursor from [Z] back to [N].  The
    edit of [B] then succeeds with [Y].  The claim says that [Y] is
    appended after the cursor at completion time: [N, Y], cursor 1.  The
    code appends it after the cursor of the submission, in the versions of
    the submission: [A, B, Y], cursor 2, and the upload is gone.  At every
    input the history after a successful completion is made of the render
    of the submission alone. *)
Theorem C2_completion_push_ignores_the_cursor_at_completion :
  let before := DropDuringEdit.after DropDuringEdit.undo_in_flight in
  let completed :=
    Session.step DropDuringEdit.fileType Scenario.engineMessage before
      (Session.Settle 0 (Return Scenario.answerY)) in
  List.map hist (Session.inFlight (DropDuringEdit.after DropDuringEdit.edit_of_B))
    = [mkState [Scenario.imageA; Scenario.imageB] 1]
  /\ hist (Session.view (DropDuringEdit.after
             (DropDuringEdit.drop_of_N
              ++ [Session.Act EditorControls.Submit;
                  Session.Settle 1 (Return DropDuringEdit.answerZ)])))
     = mkState [DropDuringEdit.imageN; DropDuringEdit.imageZ] 1
  /\ hist (Session.view before) = mkState [DropDuringEdit.imageN; DropDuringEdit.imageZ] 0
  /\ List.map hist (Session.inFlight before)
     = [mkState [Scenario.imageA; Scenario.imageB] 1]
  /\ hist (Session.view completed)
     = mkState [Scenario.imageA; Scenario.imageB; Scenario.imageY] 2
  /\ apply_op (hist (Session.view before)) (OpPush Scenario.imageY)
     = mkState [DropDuringEdit.imageN; Scenario.imageY] 1
  /\ hist (Session.view completed)
     <> apply_op (hist (Session.view before)) (OpPush Scenario.imageY)
  /\ (forall (engineMessage : EngineError -> string) (r st : Editor.State)
             (request : GeminiService.EditRequest) (st1 st2 : Editor.State)
             (url : string),
        handleSubmit engineMessage r st = Awaiting request st1 ->
        hist (final_state (handleSubmit_resume engineMessage r (Return url) st2))
        = mkState
            (take (Z.to_nat (currentIndex (hist r) + 1)) (history (hist r))
             ++ [image_state url (JSString.or_else (match_data_url url) "image/png")])
            (currentIndex (hist r) + 1)).
Proof.
  intros before completed.
  split; [vm_compute; reflexivity |].
  split; [vm_compute; reflexivity |].
  split; [vm_compute; reflexivity |].
  split; [vm_compute; reflexivity |].
  split; [vm_compute; reflexivity |].
  split; [vm_compute; reflexivity |].
  split; [vm_compute; intros H; discriminate H |].
  intros em r st request st1 st2 url Hsubmit.
  apply awaiting_initialized in Hsubmit as [Hinit _].
  destruct (resume_success em r url st2) as (st' & Hrun & Hhist & _).
  rewrite Hrun. cbn [final_state]. rewrite Hhist.
  destruct (hist r) as [v c]. unfold initialized in Hinit.
  cbn [history currentIndex] in *.
  apply push_history. lia.
Qed.

(** Every failure of [editImageWithNanoBanana] is an [Error] object: one
    made by [new Error], or an error of the engine. *)
Lemma collaborator_rejects_with_error engineMessage generateContent request err :
  fst (GeminiService.editImageWithNanoBanana engineMessage generateContent request)
    = Throw err ->
  (exists message, err = Error message) \/ (exists e, err = Engine e).
Proof.
  unfold GeminiService.editImageWithNanoBanana.
  destruct (GeminiService.request_image generateContent request) as [url | t];
    cbn [fst]; intros H; [discriminate H |].
  injection H as <-. unfold GeminiService.rethrow.
  destruct t as [m | e | v].
  - left. destruct (JSString.includes _ m); eauto.
  - destruct (JSString.includes _ (engineMessage e)); [left | right]; eauto.
  - left. eauto.
Qed.

(** C6 (code at the failing input).  The guard of [handleSubmit] reads the
    loading flag, which the end of any file read clears.  [A] is uploaded
    and edited into [B]; an edit of [B] is submitted.  While it is in flight
    a file [N] is dropped on the canvas and read, and a prompt is typed: an
    edit is in flight, and the loading flag is off.  The claim says that a
    submit is then a no-op.  In the code it is not: a second request, for
    [N], goes in flight beside the first.  And when the edit of [B]
    succeeds with [Y] without a second submit, the new state is not pushed
    onto the history, which is [N]: the history becomes [A, B, Y]. *)
Theorem C6_submit_with_an_edit_in_flight :
  let s := DropDuringEdit.after DropDuringEdit.drop_of_N in
  let submitted :=
    Session.step DropDuringEdit.fileType Scenario.engineMessage s
      (Session.Act EditorControls.Submit) in
  let completed :=
    Session.step DropDuringEdit.fileType Scenario.engineMessage s
      (Session.Settle 0 (Return Scenario.answerY)) in
  List.map hist (Session.inFlight s) = [mkState [Scenario.imageA; Scenario.imageB] 1]
  /\ hist (Session.view s) = mkState [DropDuringEdit.imageN] 0
  /\ isLoading (Session.view s) = false
  /\ prompt (Session.view s) = "more"
  /\ handleSubmit Scenario.engineMessage (Session.view s) (Session.view s)
     = Awaiting (GeminiService.mkRequest (Some "NNNN") (VString "image/png") "more")
         (Session.view submitted)
  /\ Session.view submitted <> Session.view s
  /\ isLoading (Session.view submitted) = true
  /\ List.map hist (Session.inFlight submitted)
     = [mkState [Scenario.imageA; Scenario.imageB] 1; mkState [DropDuringEdit.imageN] 0]
  /\ hist (Session.view completed)
     = mkState [Scenario.imageA; Scenario.imageB; Scenario.imageY] 2
  /\ apply_op (hist (Session.view s)) (OpPush Scenario.imageY)
     = mkState [DropDuringEdit.imageN; Scenario.imageY] 1
  /\ prompt (Session.view completed) = EmptyString.
Proof.
  intros s submitted completed.
  split; [vm_compute; reflexivity |].
  split; [vm_compute; reflexivity |].
  split; [vm_compute; reflexivity |].
  split; [vm_compute; reflexivity |].
  split; [vm_compute; reflexivity |].
  split; [vm_compute; intros H; discriminate H |].
  split; [vm_compute; reflexivity |].
  split; [vm_compute; reflexivity |].
  split; [vm_compute; reflexivity |].
  split; vm_compute; reflexivity.
Qed.

(** ** The Editor: clearing the session *)

(** C5 (code at the failing input).  The object of [useImageHistory] has
    no [clear] property.  [handleClearSession] removes the two storage
    entries and then calls it: the call throws a [TypeError], the history
    keeps its versions and its cursor, so the current image is still there,
    and the statements after the call are not run. *)
Theorem C5_clear_is_not_provided :
  (forall (T : Type) (h : ImageHistory.State T), useImageHistory h !! "clear" = None)
  /\ (forall r st : Editor.State,
        exists st',
          handleClearSession r st = Abrupt (Engine TypeError) st'
          /\ hist st' = hist st
          /\ prompt st' = prompt st
          /\ getItem SAVED_IMAGE (localStorage st') = None
          /\ getItem SAVED_PROMPT (localStorage st') = None)
  /\ (let st := Scenario.editor [Scenario.imageA] 0 "add hat" Scenario.roomy in
      current (hist (final_state (handleClearSession st st))) = Some Scenario.imageA).
Proof.
  assert (Hclear : forall (T : Type) (h : ImageHistory.State T), useImageHistory h !! "clear" = None).
  { intros T h. unfold useImageHistory.
    rewrite !lookup_insert_ne by discriminate. apply lookup_empty. }
  split; [exact Hclear |]. split.
  - intros r st. unfold handleClearSession. rewrite Hclear.
    destruct st. eexists. split; [reflexivity |]. cbn.
    repeat split; try reflexivity; unfold getItem; cbn.
    + rewrite lookup_delete_ne by discriminate. apply lookup_delete_eq.
    + apply lookup_delete_eq.
  - reflexivity.
Qed.

(** ** The Editor: session persistence *)

(** The save effect of the superseded Editor is not guarded either. *)
Lemma superseded_save_unguarded (r st : Editor.State) (t : Thrown) :
  truthy (read (current (hist r))) = true ->
  setItem SupersededEditor.SESSION_IMAGE_KEY
    (JSON_stringify (read (current (hist r)))) (localStorage st) = Throw t ->
  SupersededEditor.saveEffect r st = Abrupt t st.
Proof.
  intros Himage Hset. unfold SupersededEditor.saveEffect. rewrite Himage.
  unfold bind, localStorage_setItem. rewrite Hset. reflexivity.
Qed.

(** C7 (as stated, refuted).  With a storage area that has no room left,
    the auto-save effect and [handlePromptChange] end with the
    [QuotaExceededError] of [setItem]: nothing in them catches it, and
    nothing is written to the console. *)
Lemma C7_counterexample :
  let st := Scenario.editor [Scenario.imageA] 0 "add hat" Scenario.full in
  autoSaveEffect st st = Abrupt (Engine QuotaExceededError) st
  /\ handlePromptChange "make it brighter" st
     = Abrupt (Engine QuotaExceededError)
         (update_prompt (fun _ => "make it brighter") st)
  /\ console st = [].
Proof. repeat split; reflexivity. Qed.

(** C7 (amended).  The saves are not guarded.  The auto-save effect writes
    the image entry when there is a current image, and [handlePromptChange]
    writes the prompt entry after setting the prompt: when [setItem] throws,
    the exception leaves the effect or the handler, with the storage and the
    console as they were; when it does not, the entry is written. *)
Theorem C7_save_failure_propagates :
  forall (r st : Editor.State) (newPrompt : string),
    let image := read (current (hist r)) in
    (truthy image = true ->
       (forall t, setItem SAVED_IMAGE (JSON_stringify image) (localStorage st) = Throw t ->
          autoSaveEffect r st = Abrupt t st)
       /\ (forall s, setItem SAVED_IMAGE (JSON_stringify image) (localStorage st) = Return s ->
          autoSaveEffect r st = Normal tt (update_localStorage (fun _ => s) st)))
    /\ (truthy image = false -> autoSaveEffect r st = Normal tt st)
    /\ (forall t, setItem SAVED_PROMPT newPrompt (localStorage st) = Throw t ->
          handlePromptChange newPrompt st
          = Abrupt t (update_prompt (fun _ => newPrompt) st))
    /\ (forall s, setItem SAVED_PROMPT newPrompt (localStorage st) = Return s ->
          handlePromptChange newPrompt st
          = Normal tt (update_localStorage (fun _ => s)
                         (update_prompt (fun _ => newPrompt) st))).
Proof.
  intros r st newPrompt image. subst image.
  unfold autoSaveEffect, handlePromptChange.
  split; [intros ->; split; intros x Hx | split; [intros ->; reflexivity | split; intros x Hx]].
  - unfold localStorage_setItem. rewrite Hx. reflexivity.
  - unfold localStorage_setItem. rewrite Hx. reflexivity.
  - destruct st. unfold bind, setPrompt, modify, localStorage_setItem in *.
    cbn in *. rewrite Hx. reflexivity.
  - destruct st. unfold bind, setPrompt, modify, localStorage_setItem in *.
    cbn in *. rewrite Hx. reflexivity.
Qed.

Lemma C7_save_failure_propagates_witness :
  let st := Scenario.editor [Scenario.imageA] 0 "add hat" Scenario.full in
  setItem SAVED_PROMPT "make it brighter" (localStorage st)
    = Throw (Engine QuotaExceededError)
  /\ handlePromptChange "make it brighter" st
     = Abrupt (Engine QuotaExceededError)
         (update_prompt (fun _ => "make it brighter") st).
Proof.
  intros st. split; [reflexivity |].
  apply (C7_save_failure_propagates st st "make it brighter").
  reflexivity.
Defined.

Lemma present_nonempty json : json <> EmptyString -> present (Some json) = true.
Proof.
  intros Hne. unfold present, truthy.
  destruct (String.eqb_spec json EmptyString) as [-> |]; [contradiction | reflexivity].
Qed.

(** The validation of the superseded Editor never throws, and answers as
    the specification words it. *)
Lemma well_formed_spec v st :
  SupersededEditor.well_formed v st = Normal (SupersededEditor.spec_has_string_fields v) st.
Proof.
  destruct v as [| | b | lit | s | elems | props]; try reflexivity.
  - cbn. destruct b; reflexivity.
  - unfold SupersededEditor.well_formed. cbn. destruct (zero_literal lit); reflexivity.
  - unfold SupersededEditor.well_formed. cbn. destruct (String.eqb s EmptyString); reflexivity.
  - unfold SupersededEditor.well_formed, SupersededEditor.spec_has_string_fields.
    cbn. unfold bind, of_result, ret. cbn.
    destruct (lookup_prop "dataUrl" props) as [[] |]; cbn; try reflexivity.
    destruct (lookup_prop "mimeType" props) as [[] |]; reflexivity.
Qed.

(** C4 (as stated, refuted).  The stored image entry is the text of an
    object with a [dataUrl] and no [mimeType].  The canonical Editor puts
    the parsed object into the history and keeps both entries; the
    superseded Editor leaves the history empty and keeps both entries. *)
Lemma C4_counterexample :
  JSON.parse Scenario.entry_without_mimeType = Some (VObject [("dataUrl", VString "x")])
  /\ (let st := Editor.initial
                  (Scenario.stored SAVED_IMAGE SAVED_PROMPT
                     Scenario.entry_without_mimeType "add hat") in
      let st' := final_state (Editor.loadEffect st) in
      history (hist st') = [VObject [("dataUrl", VString "x")]]
      /\ getItem SAVED_IMAGE (localStorage st') = Some Scenario.entry_without_mimeType
      /\ getItem SAVED_PROMPT (localStorage st') = Some "add hat")
  /\ (let st := Editor.initial
                  (Scenario.stored SupersededEditor.SESSION_IMAGE_KEY
                     SupersededEditor.SESSION_PROMPT_KEY
                     Scenario.entry_without_mimeType "add hat") in
      let st' := final_state (SupersededEditor.loadEffect st) in
      history (hist st') = []
      /\ getItem SupersededEditor.SESSION_IMAGE_KEY (localStorage st')
         = Some Scenario.entry_without_mimeType
      /\ getItem SupersededEditor.SESSION_PROMPT_KEY (localStorage st') = Some "add hat").
Proof. repeat split; vm_compute; reflexivity. Qed.

(** C4 (amended).  In both Editors, a stored image entry that is not the
    empty string and is not JSON makes the load log the failure, delete both
    storage entries and leave the history and the prompt as they were; an
    image entry that is the empty string is treated as an absent one:
    nothing is parsed, logged or deleted, and the history is left as it
    was.  In the superseded Editor, an entry that parses but lacks a string
    [dataUrl] or a string [mimeType] is not put into the history, and the
    storage is left as it was; an entry that has both becomes the one
    version of the history. *)
Theorem C4_load_of_a_bad_entry :
  forall st : Editor.State,
    (forall json : string,
       json <> EmptyString ->
       (getItem SAVED_IMAGE (localStorage st) = Some json ->
        JSON.parse json = None ->
        exists st',
          Editor.loadEffect st = Normal tt st'
          /\ hist st' = hist st /\ prompt st' = prompt st
          /\ getItem SAVED_IMAGE (localStorage st') = None
          /\ getItem SAVED_PROMPT (localStorage st') = None
          /\ console st' = console st
               ++ [("Failed to load saved state from localStorage", Engine SyntaxError)])
       /\ (getItem SupersededEditor.SESSION_IMAGE_KEY (localStorage st) = Some json ->
           JSON.parse json = None ->
           exists st',
             SupersededEditor.loadEffect st = Normal tt st'
             /\ hist st' = hist st /\ prompt st' = prompt st
             /\ getItem SupersededEditor.SESSION_IMAGE_KEY (localStorage st') = None
             /\ getItem SupersededEditor.SESSION_PROMPT_KEY (localStorage st') = None
             /\ console st' = console st
                  ++ [("Failed to load session from localStorage:", Engine SyntaxError)])
       /\ (forall v,
             getItem SupersededEditor.SESSION_IMAGE_KEY (localStorage st) = Some json ->
             JSON.parse json = Some v ->
             exists st',
               SupersededEditor.loadEffect st = Normal tt st'
               /\ localStorage st' = localStorage st
               /\ console st' = console st
               /\ hist st' =
                    if SupersededEditor.spec_has_string_fields v
                    then reset v (hist st) else hist st))
    /\ (getItem SAVED_IMAGE (localStorage st) = Some EmptyString ->
        exists st',
          Editor.loadEffect st = Normal tt st'
          /\ hist st' = hist st
          /\ localStorage st' = localStorage st
          /\ console st' = console st)
    /\ (getItem SupersededEditor.SESSION_IMAGE_KEY (localStorage st) = Some EmptyString ->
        exists st',
          SupersededEditor.loadEffect st = Normal tt st'
          /\ hist st' = hist st
          /\ localStorage st' = localStorage st
          /\ console st' = console st).
Proof.
  intros st. split; [| split].
  - intros json Hne. pose proof (present_nonempty json Hne) as Hpresent.
    split; [| split].
    + intros Hget Hparse.
      unfold Editor.loadEffect, try_catch, bind, localStorage_getItem.
      rewrite Hget, Hpresent. cbn [default from_option id].
      unfold JSON_parse. rewrite Hparse. unfold throw.
      destruct st. eexists. split; [reflexivity |]. cbn.
      repeat split; try reflexivity; unfold getItem; cbn.
      * rewrite lookup_delete_ne by discriminate. apply lookup_delete_eq.
      * apply lookup_delete_eq.
    + intros Hget Hparse.
      unfold SupersededEditor.loadEffect, try_catch, bind, localStorage_getItem.
      rewrite Hget, Hpresent. cbn [default from_option id].
      unfold JSON_parse. rewrite Hparse. unfold throw.
      destruct st. eexists. split; [reflexivity |]. cbn.
      repeat split; try reflexivity; unfold getItem; cbn.
      * rewrite lookup_delete_ne by discriminate. apply lookup_delete_eq.
      * apply lookup_delete_eq.
    + intros v Hget Hparse.
      unfold SupersededEditor.loadEffect, try_catch, bind, localStorage_getItem.
      rewrite Hget, Hpresent. cbn [default from_option id].
      unfold JSON_parse. rewrite Hparse. unfold ret at 1.
      rewrite well_formed_spec.
      destruct (SupersededEditor.spec_has_string_fields v);
        destruct st; cbn;
        match goal with
        | |- context [present ?p] => destruct (present p)
        end; eexists; (split; [reflexivity |]); cbn; repeat split; reflexivity.
  - intros Hget.
    destruct st as [h p l lm e sg se sp sl tr b c storage co].
    cbn [localStorage] in Hget.
    unfold Editor.loadEffect, try_catch, bind, localStorage_getItem, ret,
      setPrompt, modify.
    cbn [localStorage]. rewrite Hget. change (present (Some EmptyString)) with false.
    cbv beta iota. cbn [localStorage].
    destruct (present (getItem SAVED_PROMPT storage));
      eexists; (split; [reflexivity |]); repeat split; reflexivity.
  - intros Hget.
    destruct st as [h p l lm e sg se sp sl tr b c storage co].
    cbn [localStorage] in Hget.
    unfold SupersededEditor.loadEffect, try_catch, bind, localStorage_getItem, ret,
      setPrompt, modify.
    cbn [localStorage]. rewrite Hget. change (present (Some EmptyString)) with false.
    cbv beta iota. cbn [localStorage].
    destruct (present (getItem SupersededEditor.SESSION_PROMPT_KEY storage));
      eexists; (split; [reflexivity |]); repeat split; reflexivity.
Qed.

Lemma C4_load_of_a_bad_entry_witness :
  let st := Editor.initial (Scenario.stored SAVED_IMAGE SAVED_PROMPT "{oops" "add hat") in
  ("{oops" : string) <> EmptyString
  /\ exists st',
       Editor.loadEffect st = Normal tt st'
       /\ hist st' = hist st /\ prompt st' = prompt st
       /\ getItem SAVED_IMAGE (localStorage st') = None
       /\ getItem SAVED_PROMPT (localStorage st') = None
       /\ console st' = console st
            ++ [("Failed to load saved state from localStorage", Engine SyntaxError)].
Proof.
  intros st.
  assert (Hne : ("{oops" : string) <> EmptyString) by discriminate.
  split; [exact Hne |].
  destruct (C4_load_of_a_bad_entry st) as [Hbad _].
  apply (Hbad "{oops" Hne); reflexivity.
Defined.

(** ** The local image transforms *)

Import ImageUtils.

(** C8 (as stated, refuted).  A browser in which [fetch] of the data URL is
    rejected: [compressImageForDownload] is rejected with that error, and
    does not return its input. *)
Lemma C8_counterexample :
  let imageCompression (file : string) (_ : Options) : Result string := Return file in
  let getDataUrlFromFile (file : string) : Result string := Return file in
  let fetch (_ : string) : Result string := Throw (Engine TypeError) in
  let blob (res : string) : Result string := Return res in
  let newFile (b _ : string) : string := b in
  compressImageForDownload imageCompression getDataUrlFromFile fetch blob newFile
    "data:image/png;base64,@" "image/png" low
  = (Throw (Engine TypeError), []).
Proof. reflexivity. Qed.

(** C8 (amended).  [optimizeImage] never throws: it returns the compressed
    file, or, when the compression fails, its input file, with the failure
    in the console.  [compressImageForDownload] returns its input data URL,
    with the failure in the console, when the compression of the file or
    the conversion of the result back to a data URL fails; a failure of the
    conversion of the data URL to a file, which comes before, is thrown to
    the caller. *)
Theorem C8_transforms_fall_back_on_compression_failure :
  forall (File Blob FetchResponse : Type)
         (imageCompression : File -> Options -> Result File)
         (getDataUrlFromFile : File -> Result string)
         (fetch : string -> Result FetchResponse)
         (blob : FetchResponse -> Result Blob)
         (newFile : Blob -> string -> File)
         (file : File) (dataUrl mimeType : string) (quality : OutputQuality),
    let optimize := optimizeImage imageCompression in
    let compress :=
      compressImageForDownload imageCompression getDataUrlFromFile fetch blob newFile in
    (exists result, fst (optimize file) = Return result)
    /\ (forall error, imageCompression file upload_options = Throw error ->
          optimize file = (Return file, [("Image compression failed:", error)]))
    /\ (forall source,
          dataURLtoFile fetch blob newFile dataUrl
            ("source." +:+ JSString.or_else (JSString.split_on "/" mimeType !! 1%nat) "png")
            = Return source ->
          (exists result, fst (compress dataUrl mimeType quality) = Return result)
          /\ (forall error,
                JS.bind (imageCompression source (download_options quality))
                  getDataUrlFromFile = Throw error ->
                compress dataUrl mimeType quality
                = (Return dataUrl, [("Image compression for download failed:", error)])))
    /\ (forall error,
          dataURLtoFile fetch blob newFile dataUrl
            ("source." +:+ JSString.or_else (JSString.split_on "/" mimeType !! 1%nat) "png")
            = Throw error ->
          compress dataUrl mimeType quality = (Throw error, [])).
Proof.
  intros File Blob FetchResponse imageCompression getDataUrlFromFile fetch blob newFile
    file dataUrl mimeType quality optimize compress.
  subst optimize compress. unfold optimizeImage, compressImageForDownload.
  split; [| split; [| split]].
  - destruct (imageCompression file upload_options); eexists; reflexivity.
  - intros error ->. reflexivity.
  - intros source ->. split.
    + destruct (JS.bind _ _); eexists; reflexivity.
    + intros error ->. reflexivity.
  - intros error ->. reflexivity.
Qed.

Lemma C8_transforms_fall_back_on_compression_failure_witness :
  let imageCompression (file : string) (_ : Options) : Result string :=
    Throw (Error "out of memory") in
  let getDataUrlFromFile (file : string) : Result string := Return file in
  let fetch (url : string) : Result string := Return url in
  let blob (res : string) : Result string := Return res in
  let newFile (b _ : string) : string := b in
  imageCompression "photo" upload_options = Throw (Error "out of memory")
  /\ optimizeImage imageCompression "photo"
     = (Return "photo", [("Image compression failed:", Error "out of memory")]).
Proof.
  intros imageCompression getDataUrlFromFile fetch blob newFile.
  split; [reflexivity |].
  apply (C8_transforms_fall_back_on_compression_failure string string string
           imageCompression getDataUrlFromFile fetch blob newFile
           "photo" "data:image/png;base64,AAAA" "image/png" low).
  reflexivity.
Defined.

(** C9.  With brightness 100 and contrast 100, [applyVisualAdjustments]
    resolves to its input data URL, whatever the browser would make of the
    image: nothing is decoded and nothing is rendered.  With other values
    the image is decoded, and when that fails the promise is rejected with
    an error. *)
Theorem C9_adjustment_identity_and_decode_failure :
  forall (Image : Type)
         (loadImage : string -> Image + string) (has2dContext : bool)
         (renderFiltered : Image -> string -> string -> string)
         (dataUrl : string),
    applyVisualAdjustments loadImage has2dContext renderFiltered dataUrl 100 100
      = Return dataUrl
    /\ (forall (brightness contrast : Z) (err : string),
          ~ (brightness = 100 /\ contrast = 100) ->
          loadImage dataUrl = inr err ->
          applyVisualAdjustments loadImage has2dContext renderFiltered
            dataUrl brightness contrast
          = Throw (Error ("Failed to load image for adjustments: " +:+ err))).
Proof.
  intros Image loadImage has2dContext renderFiltered dataUrl.
  split; [reflexivity |].
  intros brightness contrast err Hne Hload. unfold applyVisualAdjustments.
  destruct (Z.eqb_spec brightness 100) as [Hb |];
    destruct (Z.eqb_spec contrast 100) as [Hc |]; cbn [andb];
    try (rewrite Hload; reflexivity).
  exfalso. apply Hne. split; assumption.
Qed.

Lemma C9_adjustment_identity_and_decode_failure_witness :
  let loadImage (_ : string) : unit + string := inr "[object Event]" in
  ~ (120 = 100 /\ 100 = 100)
  /\ applyVisualAdjustments loadImage true (fun _ _ _ => EmptyString)
       "data:image/png;base64,@" 120 100
     = Throw (Error "Failed to load image for adjustments: [object Event]").
Proof.
  intros loadImage.
  assert (Hne : ~ (120 = 100 /\ 100 = 100)) by lia.
  split; [exact Hne |].
  apply (C9_adjustment_identity_and_decode_failure unit loadImage true
           (fun _ _ _ => EmptyString) "data:image/png;base64,@");
    [exact Hne | reflexivity].
Defined.

(** * Further properties *)

(** ** The History Store: how its operations compose *)

Ltac hook_unfold :=
  unfold apply_op, undo, redo, canUndo, canRedo, setCurrentIndex, setHistory;
  cbn [history currentIndex].

Ltac hook_cases :=
  repeat match goal with
         | |- context [?a <? ?b] =>
             destruct (Z.ltb_spec a b); cbn [history currentIndex] in *; try lia
         end.

Section HistoryComposition.
Context {T : Type}.
Implicit Types (h : ImageHistory.State T) (v : list T) (c : Z) (s : T).

Lemma index_in_range v c :
  0 <= c -> JSArray.index v c = v !! Z.to_nat c.
Proof.
  intros Hc. unfold JSArray.index.
  destruct (Z.ltb_spec c 0); [lia | reflexivity].
Qed.

Lemma apply_op_original h op :
  initialized h -> original (apply_op h op) = original h.
Proof.
  destruct h as [v c]. unfold initialized. cbn [history currentIndex].
  intros Hc. destruct op as [s | |]; cbn [apply_op].
  - rewrite push_history by lia. unfold original. cbn [history].
    rewrite !index_in_range by lia. change (Z.to_nat 0) with 0%nat.
    rewrite lookup_app_l by (rewrite length_take; lia).
    apply lookup_take_lt. lia.
  - unfold undo. destruct (canUndo _); reflexivity.
  - unfold redo. destruct (canRedo _); reflexivity.
Qed.

Lemma undo_steps v c : forall k : nat,
  0 <= c ->
  run (mkState v c) (replicate k OpUndo) = mkState v (Z.max (c - Z.of_nat k) 0).
Proof.
  intros k. revert c. induction k as [| k IH]; intros c Hc.
  - cbn. f_equal. lia.
  - rewrite replicate_S. cbn [run foldl apply_op]. unfold undo, canUndo.
    cbn [currentIndex].
    destruct (Z.ltb_spec 0 c) as [Hpos | Hzero].
    + unfold setCurrentIndex. cbn [history currentIndex].
      fold (run (mkState v (c - 1)) (replicate k OpUndo)).
      rewrite IH by lia. f_equal. lia.
    + fold (run (mkState v c) (replicate k OpUndo)).
      rewrite IH by lia. f_equal. lia.
Qed.

End HistoryComposition.

(** X1.  In an initialized history, an undo that is possible is reverted by
    a redo, and a redo that is possible is reverted by an undo: both round
    trips give back the same versions and the same cursor. *)
Theorem X1_undo_redo_round_trip :
  forall (T : Type) (h : ImageHistory.State T),
    initialized h ->
    (canUndo h = true -> apply_op (apply_op h OpUndo) OpRedo = h)
    /\ (canRedo h = true -> apply_op (apply_op h OpRedo) OpUndo = h).
Proof.
  intros T [v c]. unfold initialized. cbn [history currentIndex]. intros Hc.
  split; intros Hcan; apply Z.ltb_lt in Hcan; cbn [history currentIndex] in Hcan;
    hook_unfold; hook_cases; f_equal; lia.
Qed.

Lemma X1_undo_redo_round_trip_witness :
  initialized (mkState [1; 2; 3]%nat 1)
  /\ apply_op (apply_op (mkState [1; 2; 3]%nat 1) OpUndo) OpRedo = mkState [1; 2; 3]%nat 1.
Proof.
  assert (H : initialized (mkState [1; 2; 3]%nat 1)) by (unfold initialized; cbn; lia).
  split; [exact H |].
  apply (X1_undo_redo_round_trip nat (mkState [1; 2; 3]%nat 1) H). reflexivity.
Defined.

(** X2.  In an initialized history, a push shows the pushed version, an
    undo right after it shows again the version that was current before the
    push, and a redo after that undo shows the pushed version again. *)
Theorem X2_push_then_undo_restores_current :
  forall (T : Type) (h : ImageHistory.State T) (s : T),
    initialized h ->
    let pushed := apply_op h (OpPush s) in
    current pushed = Some s
    /\ canUndo pushed = true
    /\ current (apply_op pushed OpUndo) = current h
    /\ apply_op (apply_op pushed OpUndo) OpRedo = pushed.
Proof.
  intros T [v c] s Hc pushed. subst pushed.
  unfold initialized in Hc. cbn [history currentIndex] in Hc. cbn [apply_op]. rewrite push_history by lia.
  assert (Hlen : length (take (Z.to_nat (c + 1)) v) = Z.to_nat (c + 1))
    by (rewrite length_take; lia).
  split; [| split; [| split]].
  - unfold current. cbn [history currentIndex]. rewrite index_in_range by lia.
    rewrite lookup_app_r by lia. rewrite Hlen, Nat.sub_diag. reflexivity.
  - unfold canUndo. cbn [currentIndex]. apply Z.ltb_lt. lia.
  - hook_unfold. hook_cases. unfold current. cbn [history currentIndex].
    rewrite !index_in_range by lia.
    replace (c + 1 - 1) with c by lia.
    rewrite lookup_app_l by lia. apply lookup_take_lt. lia.
  - hook_unfold. destruct (Z.ltb_spec 0 (c + 1)); [| lia].
    cbn [history currentIndex]. rewrite length_app, Hlen. cbn [length].
    hook_cases. f_equal. lia.
Qed.

Lemma X2_push_then_undo_restores_current_witness :
  initialized (mkState [1; 2; 3]%nat 1)
  /\ current (apply_op (apply_op (mkState [1; 2; 3]%nat 1) (OpPush 9%nat)) OpUndo)
     = current (mkState [1; 2; 3]%nat 1).
Proof.
  assert (H : initialized (mkState [1; 2; 3]%nat 1)) by (unfold initialized; cbn; lia).
  split; [exact H |].
  apply (X2_push_then_undo_restores_current nat (mkState [1; 2; 3]%nat 1) 9%nat H).
Defined.

(** X3.  The first version is the original for as long as pushes, undos
    and redos are all that happens: after any sequence of them on an
    initialized history, [original] is what it was. *)
Theorem X3_original_is_preserved :
  forall (T : Type) (h : ImageHistory.State T) (ops : list (ImageHistory.Op T)),
    initialized h ->
    original (run h ops) = original h
    /\ exists first, original (run h ops) = Some first.
Proof.
  intros T h ops. revert h.
  induction ops as [| op ops IH]; intros h Hh.
  - split; [reflexivity |].
    destruct h as [v c]. unfold initialized in Hh. cbn [history currentIndex] in Hh.
    unfold original. cbn [history]. rewrite index_in_range by lia.
    apply lookup_lt_is_Some_2. cbn. lia.
  - cbn [run foldl]. fold (run (apply_op h op) ops).
    destruct (IH (apply_op h op) (apply_op_initialized h op Hh)) as [Heq Hex].
    rewrite Heq in *. rewrite apply_op_original in * by exact Hh.
    split; [reflexivity | exact Hex].
Qed.

Lemma X3_original_is_preserved_witness :
  initialized (mkState [1; 2; 3]%nat 2)
  /\ original (run (mkState [1; 2; 3]%nat 2) [OpUndo; OpUndo; OpPush 7%nat; OpRedo])
     = original (mkState [1; 2; 3]%nat 2).
Proof.
  assert (H : initialized (mkState [1; 2; 3]%nat 2)) by (unfold initialized; cbn; lia).
  split; [exact H |].
  apply (X3_original_is_preserved nat (mkState [1; 2; 3]%nat 2)
           [OpUndo; OpUndo; OpPush 7%nat; OpRedo] H).
Defined.

(** X4.  Undo is clamped at the original: [k] undos in a row move the
    cursor of an initialized history from [c] to [max (c - k) 0] and leave
    the versions alone; once [k] is at least [c], the current version is
    the original and no further undo is possible. *)
Theorem X4_repeated_undo_stops_at_original :
  forall (T : Type) (h : ImageHistory.State T) (k : nat),
    initialized h ->
    let undone := run h (replicate k OpUndo) in
    history undone = history h
    /\ currentIndex undone = Z.max (currentIndex h - Z.of_nat k) 0
    /\ (currentIndex h <= Z.of_nat k ->
        current undone = original h /\ canUndo undone = false).
Proof.
  intros T [v c] k Hc undone. subst undone.
  unfold initialized in Hc. cbn [history currentIndex] in Hc. rewrite undo_steps by lia. cbn [history currentIndex].
  split; [reflexivity |]. split; [reflexivity |].
  intros Hk. rewrite Z.max_r by lia. split; reflexivity.
Qed.

Lemma X4_repeated_undo_stops_at_original_witness :
  initialized (mkState [1; 2; 3]%nat 2)
  /\ currentIndex (run (mkState [1; 2; 3]%nat 2) (replicate 5 OpUndo)) = 0.
Proof.
  assert (H : initialized (mkState [1; 2; 3]%nat 2)) by (unfold initialized; cbn; lia).
  split; [exact H |].
  apply (X4_repeated_undo_stops_at_original nat (mkState [1; 2; 3]%nat 2) 5 H).
Defined.

(** ** JSON: a string survives being written and read back *)

Lemma append_cons (x : ascii) (a b : string) : String x a +:+ b = String x (a +:+ b).
Proof. reflexivity. Qed.

Lemma string_app_assoc (a b c : string) : (a +:+ b) +:+ c = a +:+ (b +:+ c).
Proof.
  induction a as [| x a IH]; [reflexivity |].
  rewrite !append_cons, IH. reflexivity.
Qed.

Lemma quote_chars_cons (c : ascii) (s : string) :
  JSON.quote_chars (String c s)
  = JSON.quote_chars (String c EmptyString) +:+ JSON.quote_chars s.
Proof.
  cbn [JSON.quote_chars]. rewrite string_app_assoc. reflexivity.
Qed.

Lemma parse_chars_quote_chars (s rest : string) :
  JSON.parse_chars (JSON.quote_chars s +:+ String "034" rest) = Some (s, rest).
Proof.
  induction s as [| c s IH]; [reflexivity |].
  rewrite quote_chars_cons, string_app_assoc.
  transitivity
    ('(str, rest') ← JSON.parse_chars (JSON.quote_chars s +:+ String "034" rest);
     Some (String c str, rest')); [| rewrite IH; reflexivity].
  destruct c as [[] [] [] [] [] [] [] []]; reflexivity.
Qed.

Lemma parse_quote (s : string) (fuel : nat) (rest : string) :
  JSON.parse_value (S fuel) (JSON.quote s +:+ rest) = Some (JS.VString s, rest).
Proof.
  unfold JSON.quote. rewrite append_cons, string_app_assoc, append_cons.
  cbn [JSON.parse_value JSON.skip_ws JSON.is_ws]. cbn.
  rewrite parse_chars_quote_chars. reflexivity.
Qed.

Lemma quote_app (s rest : string) :
  JSON.quote s +:+ rest = String "034" (JSON.quote_chars s +:+ String "034" rest).
Proof.
  unfold JSON.quote. rewrite append_cons, string_app_assoc. reflexivity.
Qed.

Lemma append_nil (b : string) : EmptyString +:+ b = b.
Proof. reflexivity. Qed.

Lemma parse_members_step (fuel : nat) (acc : list (string * JS.Value)) (body : string) :
  JSON.parse_members (S fuel) acc (String "034" body)
  = '(k, s2) ← JSON.parse_chars body;
    match JSON.skip_ws s2 with
    | String ":" s3 =>
        '(v, s4) ← JSON.parse_value fuel s3;
        match JSON.skip_ws s4 with
        | String "," s5 => JSON.parse_members fuel (JS.set_prop k v acc) s5
        | String "}" s5 => Some (JS.VObject (JS.set_prop k v acc), s5)
        | _ => None
        end
    | _ => None
    end.
Proof. reflexivity. Qed.

Lemma skip_ws_colon (s : string) : JSON.skip_ws (String ":" s) = String ":" s.
Proof. reflexivity. Qed.

Lemma skip_ws_comma (s : string) : JSON.skip_ws (String "," s) = String "," s.
Proof. reflexivity. Qed.

Lemma skip_ws_brace (s : string) : JSON.skip_ws (String "}" s) = String "}" s.
Proof. reflexivity. Qed.

(** One member with a string value, followed by a comma or by the closing
    brace of the object. *)
Lemma parse_member_then_comma (fuel : nat) (acc : list (string * JS.Value))
    (k v more : string) :
  JSON.parse_members (S (S fuel)) acc
    (JSON.quote k +:+ ":" +:+ JSON.quote v +:+ "," +:+ more)
  = JSON.parse_members (S fuel) (JS.set_prop k (JS.VString v) acc) more.
Proof.
  rewrite quote_app, parse_members_step, parse_chars_quote_chars.
  cbn [mbind option_bind].
  rewrite append_cons, append_nil, skip_ws_colon. cbv beta iota.
  rewrite parse_quote. cbn [mbind option_bind].
  rewrite append_cons, append_nil, skip_ws_comma. reflexivity.
Qed.

Lemma parse_member_then_brace (fuel : nat) (acc : list (string * JS.Value))
    (k v more : string) :
  JSON.parse_members (S (S fuel)) acc
    (JSON.quote k +:+ ":" +:+ JSON.quote v +:+ "}" +:+ more)
  = Some (JS.VObject (JS.set_prop k (JS.VString v) acc), more).
Proof.
  rewrite quote_app, parse_members_step, parse_chars_quote_chars.
  cbn [mbind option_bind].
  rewrite append_cons, append_nil, skip_ws_colon. cbv beta iota.
  rewrite parse_quote. cbn [mbind option_bind].
  rewrite append_cons, append_nil, skip_ws_brace. reflexivity.
Qed.

Lemma parse_object_open (fuel : nat) (body : string) :
  JSON.parse_value (S fuel) (String "{" (String "034" body))
  = JSON.parse_members fuel [] (String "034" body).
Proof. reflexivity. Qed.

Lemma stringify_image_state (dataUrl mimeType : string) :
  JSON.stringify (Editor.image_state dataUrl mimeType)
  = Some (EditorControls.image_state_text dataUrl mimeType).
Proof.
  unfold Editor.image_state, EditorControls.image_state_text. cbn [JSON.stringify].
  unfold JSON.join. cbn [foldl]. f_equal.
  rewrite !string_app_assoc. reflexivity.
Qed.

Lemma parse_image_state_text (dataUrl mimeType : string) :
  JSON.parse (EditorControls.image_state_text dataUrl mimeType)
  = Some (Editor.image_state dataUrl mimeType).
Proof.
  unfold JSON.parse.
  assert (Hfuel : exists k,
            (2 * String.length (EditorControls.image_state_text dataUrl mimeType) + 2
             = S (S (S (S k))))%nat).
  { unfold EditorControls.image_state_text. rewrite append_cons.
    match goal with
    | |- context [String.length (String _ ?rest)] =>
        exists (2 * String.length rest)%nat
    end.
    cbn [String.length]. lia. }
  destruct Hfuel as [k ->].
  unfold EditorControls.image_state_text.
  rewrite append_cons, append_nil, quote_app, parse_object_open, <- quote_app.
  rewrite parse_member_then_comma.
  change "}" with ("}" +:+ EmptyString) at 1.
  rewrite parse_member_then_brace.
  reflexivity.
Qed.

(** ** The Editor: reset, the gate on the buttons, and reloads *)

Import EditorControls.

Lemma perform_in_flight engineMessage (st : Editor.State) (i : Intent) :
  isLoading st = true ->
  hist (perform engineMessage st i) = hist st
  /\ isLoading (perform engineMessage st i) = true.
Proof.
  intros Hload. destruct i; cbn [perform];
    unfold clickUndo, clickRedo, clickReset, clickClear, clickSubmit;
    rewrite ?Hload, ?orb_true_r; cbn [orb final_state ret];
    try (split; [reflexivity | exact Hload]).
  all: unfold handlePromptChange, clickSuggestion, resetAdjustments, bind,
         setPrompt, setBrightness, setContrast, modify, localStorage_setItem;
       destruct st; cbn in *;
       try destruct (setItem _ _ _); cbn; split; (reflexivity || exact Hload).
Qed.

Lemma perform_all_in_flight engineMessage (intents : list Intent) :
  forall st : Editor.State,
    isLoading st = true ->
    hist (perform_all engineMessage st intents) = hist st
    /\ isLoading (perform_all engineMessage st intents) = true.
Proof.
  induction intents as [| i intents IH]; intros st Hload; [split; [reflexivity | exact Hload] |].
  cbn [perform_all foldl]. fold (perform_all engineMessage (perform engineMessage st i) intents).
  destruct (perform_in_flight engineMessage st i Hload) as [Hhist Hl].
  destruct (IH _ Hl) as [Hhist' Hl']. rewrite Hhist', Hhist. split; [reflexivity | exact Hl'].
Qed.

(** X5.  Single-flight editing.  From the moment a submit has a request in
    flight until the request completes, whatever the user does in the
    controls panel (undo, redo, reset, clear, a second submit, typing,
    picking a suggestion, moving the sliders) leaves the versions and the
    cursor as they were and the loading flag set.  The push of a successful
    completion is therefore a push on the history of that moment. *)
Theorem X5_controls_are_gated_while_in_flight :
  forall (engineMessage : EngineError -> string) (r : Editor.State)
         (request : GeminiService.EditRequest) (st1 : Editor.State)
         (intents : list Intent) (url : string),
    handleSubmit engineMessage r r = Awaiting request st1 ->
    let st2 := perform_all engineMessage st1 intents in
    let newState := image_state url (JSString.or_else (match_data_url url) "image/png") in
    hist st2 = hist r
    /\ isLoading st2 = true
    /\ hist (final_state (handleSubmit_resume engineMessage r (Return url) st2))
       = apply_op (hist st2) (OpPush newState).
Proof.
  intros em r request st1 intents url Hsubmit st2 newState.
  apply awaiting_initialized in Hsubmit as [_ ->].
  assert (Hload : isLoading
            (update_error (fun _ => None)
               (update_loadingMessage (fun _ => "Applying AI edit...")
                  (update_isLoading (fun _ => true) r))) = true)
    by (destruct r; reflexivity).
  destruct (perform_all_in_flight em intents _ Hload) as [Hhist Hl].
  fold st2 in Hhist, Hl.
  assert (Hr : hist st2 = hist r) by (rewrite Hhist; destruct r; reflexivity).
  split; [exact Hr |]. split; [exact Hl |].
  destruct (resume_success em r url st2) as (st' & -> & Hpush & _).
  cbn [final_state apply_op]. rewrite Hpush, Hr. reflexivity.
Qed.

Lemma X5_controls_are_gated_while_in_flight_witness :
  let r := Scenario.editor [Scenario.imageA; Scenario.imageB] 1 "add hat" Scenario.roomy in
  let st1 := update_error (fun _ => None)
               (update_loadingMessage (fun _ => "Applying AI edit...")
                  (update_isLoading (fun _ => true) r)) in
  handleSubmit Scenario.engineMessage r r
    = Awaiting (GeminiService.mkRequest (Some "BBBB") (VString "image/png") "add hat") st1
  /\ hist (perform_all Scenario.engineMessage st1
             [Undo; Undo; Reset; Clear; TypePrompt "more"; Submit; Redo])
     = hist r.
Proof.
  intros r st1. split; [reflexivity |].
  apply (X5_controls_are_gated_while_in_flight Scenario.engineMessage r
           (GeminiService.mkRequest (Some "BBBB") (VString "image/png") "add hat") st1
           [Undo; Undo; Reset; Clear; TypePrompt "more"; Submit; Redo]
           Scenario.answerY).
  reflexivity.
Defined.

Lemma removeItem_idemp (key : string) (s : Storage) :
  removeItem key (removeItem key s) = removeItem key s.
Proof.
  unfold removeItem. cbn [items quota]. rewrite delete_delete_eq. reflexivity.
Qed.

Lemma handleReset_run (r st : Editor.State) (first : Value) :
  original (hist r) = Some first ->
  truthy first = true ->
  handleReset r st
  = Normal tt
      (mkEditor (mkState [first] 0) EmptyString (isLoading st) (loadingMessage st)
         (error st) (suggestions st) (suggestionError st)
         (speechRecognitionError st) (sliderPosition st)
         (transform (final_state (resetView st))) 100 100
         (removeItem SAVED_PROMPT (localStorage st)) (console st)).
Proof.
  intros Horig Htruthy. unfold handleReset. rewrite Horig.
  change (read (Some first)) with first. rewrite Htruthy.
  destruct st. reflexivity.
Qed.

(** X6.  Reset to original.  When the history has a (truthy) original,
    [handleReset] leaves exactly that one version, with the cursor on it,
    clears the prompt and its storage entry, puts the view and the
    adjustments back to neutral, and keeps the stored image entry; a second
    reset changes nothing more.  On the empty history it does nothing. *)
Theorem X6_reset_to_original :
  forall (st : Editor.State) (first : Value),
    original (hist st) = Some first ->
    truthy first = true ->
    exists st',
      handleReset st st = Normal tt st'
      /\ hist st' = mkState [first] 0
      /\ canUndo (hist st') = false /\ canRedo (hist st') = false
      /\ prompt st' = EmptyString
      /\ brightness st' = 100 /\ contrast st' = 100
      /\ getItem SAVED_PROMPT (localStorage st') = None
      /\ getItem SAVED_IMAGE (localStorage st') = getItem SAVED_IMAGE (localStorage st)
      /\ handleReset st' st' = Normal tt st'.
Proof.
  intros st first Horig Htruthy.
  destruct st as [h p l lm e sg se sp sl tr b c storage co].
  rewrite (handleReset_run _ _ first Horig Htruthy).
  eexists. split; [reflexivity |].
  cbn [hist prompt brightness contrast localStorage canUndo canRedo
       history currentIndex].
  split; [reflexivity |]. split; [reflexivity |]. split; [reflexivity |].
  split; [reflexivity |]. split; [reflexivity |]. split; [reflexivity |].
  split; [apply lookup_delete_eq |].
  split; [apply lookup_delete_ne; discriminate |].
  erewrite handleReset_run; [| reflexivity | exact Htruthy].
  cbn [hist localStorage console isLoading loadingMessage error suggestions
       suggestionError speechRecognitionError sliderPosition].
  rewrite removeItem_idemp. reflexivity.
Qed.

Lemma X6_reset_to_original_witness :
  let st := Scenario.editor [Scenario.imageA; Scenario.imageB; Scenario.imageY] 2
              "add hat" Scenario.roomy in
  original (hist st) = Some Scenario.imageA
  /\ exists st',
       handleReset st st = Normal tt st'
       /\ hist st' = mkState [Scenario.imageA] 0.
Proof.
  intros st. split; [reflexivity |].
  destruct (X6_reset_to_original st Scenario.imageA eq_refl eq_refl)
    as (st' & Hrun & Hhist & _).
  exists st'. split; assumption.
Defined.

Lemma clear_session_outcome (r st : Editor.State) :
  exists st',
    handleClearSession r st = Abrupt (Engine TypeError) st'
    /\ hist st' = hist st
    /\ getItem SAVED_IMAGE (localStorage st') = None
    /\ getItem SAVED_PROMPT (localStorage st') = None.
Proof.
  unfold handleClearSession.
  replace (useImageHistory (hist r) !! "clear") with (@None (ImageHistory.Member Value)).
  - destruct st. eexists. split; [reflexivity |]. cbn.
    repeat split; try reflexivity; unfold getItem; cbn.
    + rewrite lookup_delete_ne by discriminate. apply lookup_delete_eq.
    + apply lookup_delete_eq.
  - symmetry. unfold useImageHistory.
    rewrite !lookup_insert_ne by discriminate. apply lookup_empty.
Qed.

Lemma load_without_entries (st : Editor.State) :
  present (getItem SAVED_IMAGE (localStorage st)) = false ->
  present (getItem SAVED_PROMPT (localStorage st)) = false ->
  Editor.loadEffect st = Normal tt st.
Proof.
  intros Himage Hprompt.
  unfold Editor.loadEffect, try_catch, bind, localStorage_getItem.
  rewrite Himage. unfold ret. rewrite Hprompt. reflexivity.
Qed.

(** X7.  A reload after a cleared session starts empty.  [handleClearSession]
    removes both storage entries before anything else, so the mount that
    follows finds neither of them: its load leaves the history empty and the
    prompt empty, logs nothing and keeps the storage as it found it.  More
    generally a load that finds no image entry and no prompt entry (absent,
    or the empty string) changes nothing. *)
Theorem X7_reload_after_clear_is_empty :
  forall r st : Editor.State,
    let storage := localStorage (final_state (handleClearSession r st)) in
    mount storage = Normal tt (Editor.initial storage)
    /\ current (hist (final_state (mount storage))) = None
    /\ (forall st0 : Editor.State,
          present (getItem SAVED_IMAGE (localStorage st0)) = false ->
          present (getItem SAVED_PROMPT (localStorage st0)) = false ->
          Editor.loadEffect st0 = Normal tt st0).
Proof.
  intros r st storage.
  assert (Hmount : mount storage = Normal tt (Editor.initial storage)).
  { unfold mount. apply load_without_entries; subst storage.
    - destruct (clear_session_outcome r st) as (st' & Hrun & _ & Himage & _).
      rewrite Hrun. cbn [final_state localStorage Editor.initial].
      rewrite Himage. reflexivity.
    - destruct (clear_session_outcome r st) as (st' & Hrun & _ & _ & Hprompt).
      rewrite Hrun. cbn [final_state localStorage Editor.initial].
      rewrite Hprompt. reflexivity. }
  split; [exact Hmount |]. split; [rewrite Hmount; reflexivity |].
  intros st0. apply load_without_entries.
Qed.

Lemma X7_reload_after_clear_is_empty_witness :
  present (getItem SAVED_IMAGE (localStorage (Editor.initial Scenario.roomy))) = false
  /\ Editor.loadEffect (Editor.initial Scenario.roomy)
     = Normal tt (Editor.initial Scenario.roomy).
Proof.
  split; [reflexivity |].
  apply (X7_reload_after_clear_is_empty (Editor.initial Scenario.roomy)
           (Editor.initial Scenario.roomy)); reflexivity.
Defined.

(** ** The Editor: what is saved is what is loaded *)

Lemma setItem_Return (key value : string) (s s' : Storage) :
  setItem key value s = Return s' ->
  s' = mkStorage (<[key := value]> (items s)) (quota s).
Proof.
  unfold setItem. destruct (_ <=? _)%nat; intros H; [| discriminate H].
  injection H as <-. reflexivity.
Qed.

Lemma image_entry_present (dataUrl mimeType : string) :
  present (Some (image_state_text dataUrl mimeType)) = true.
Proof. reflexivity. Qed.

Lemma JSON_stringify_image_state (dataUrl mimeType : string) :
  JSON_stringify (image_state dataUrl mimeType) = image_state_text dataUrl mimeType.
Proof. unfold JSON_stringify. rewrite stringify_image_state. reflexivity. Qed.

Lemma prompt_after_load (p : string) (st : Editor.State) :
  prompt st = EmptyString ->
  exists st',
    (if present (Some p) then setPrompt (default EmptyString (Some p)) else ret tt) st
      = Normal tt st'
    /\ prompt st' = p /\ hist st' = hist st /\ console st' = console st
    /\ localStorage st' = localStorage st.
Proof.
  intros Hempty. destruct p as [| c p].
  - exists st. cbn. repeat split; try reflexivity. exact Hempty.
  - destruct st. eexists. split; [reflexivity |]. repeat split; reflexivity.
Qed.

(** X8.  Session round trip.  When the auto-save of the current image state
    and the save of the prompt both succeed, a later mount over that storage
    restores them: its history is that one image state, with the cursor on
    it, and its prompt is the saved prompt; nothing is logged and the
    storage is left as it was. *)
Theorem X8_saved_session_is_restored :
  forall (r st st1 st2 : Editor.State) (dataUrl mimeType newPrompt : string),
    current (hist r) = Some (image_state dataUrl mimeType) ->
    autoSaveEffect r st = Normal tt st1 ->
    handlePromptChange newPrompt st1 = Normal tt st2 ->
    exists st3,
      mount (localStorage st2) = Normal tt st3
      /\ hist st3 = mkState [image_state dataUrl mimeType] 0
      /\ current (hist st3) = Some (image_state dataUrl mimeType)
      /\ prompt st3 = newPrompt
      /\ console st3 = []
      /\ localStorage st3 = localStorage st2.
Proof.
  intros r st st1 st2 dataUrl mimeType newPrompt Hcur Hsave Hprompt.
  (* what the two saves wrote *)
  unfold autoSaveEffect in Hsave. rewrite Hcur in Hsave.
  change (read (Some (image_state dataUrl mimeType)))
    with (image_state dataUrl mimeType) in Hsave.
  cbn [truthy image_state] in Hsave. rewrite JSON_stringify_image_state in Hsave.
  unfold localStorage_setItem in Hsave.
  destruct (setItem SAVED_IMAGE _ (localStorage st)) as [s1 | t] eqn:Hset1;
    [| discriminate Hsave].
  apply setItem_Return in Hset1. injection Hsave as <-.
  unfold handlePromptChange, bind, setPrompt, modify, localStorage_setItem in Hprompt.
  destruct (setItem SAVED_PROMPT newPrompt _) as [s2 | t] eqn:Hset2;
    [| discriminate Hprompt].
  apply setItem_Return in Hset2. injection Hprompt as <-.
  assert (Hstore : localStorage
            (update_localStorage (fun _ => s2)
               (update_prompt (fun _ => newPrompt)
                  (update_localStorage (fun _ => s1) st))) = s2)
    by (destruct st; reflexivity).
  rewrite Hstore.
  assert (Himage : getItem SAVED_IMAGE s2 = Some (image_state_text dataUrl mimeType)).
  { subst s2. unfold getItem. cbn [items].
    rewrite lookup_insert_ne by discriminate.
    replace (items (localStorage (update_prompt (fun _ => newPrompt)
               (update_localStorage (fun _ => s1) st)))) with (items s1)
      by (destruct st; reflexivity).
    subst s1. cbn [items]. apply lookup_insert_eq. }
  assert (Hp : getItem SAVED_PROMPT s2 = Some newPrompt).
  { subst s2. unfold getItem. cbn [items]. apply lookup_insert_eq. }
  (* the load *)
  unfold mount, Editor.loadEffect, try_catch, bind, localStorage_getItem.
  cbn [localStorage Editor.initial]. rewrite Himage, image_entry_present.
  cbn [default from_option id]. unfold JSON_parse.
  change (id (image_state_text dataUrl mimeType))
    with (image_state_text dataUrl mimeType).
  rewrite parse_image_state_text. unfold ret at 1. unfold set_hist, modify.
  cbn [localStorage update_hist Editor.initial]. rewrite Hp.
  destruct (prompt_after_load newPrompt
              (update_hist (reset (image_state dataUrl mimeType)) (Editor.initial s2))
              eq_refl) as (st3 & Hrun & Hpr & Hh & Hc & Hl).
  exists st3. rewrite Hrun. split; [reflexivity |].
  rewrite Hh, Hpr, Hc, Hl. repeat split; reflexivity.
Qed.

Lemma X8_saved_session_is_restored_witness :
  let r := Scenario.editor [Scenario.imageA; Scenario.imageY] 1 EmptyString Scenario.roomy in
  exists st1 st2,
    autoSaveEffect r r = Normal tt st1
    /\ handlePromptChange "add hat" st1 = Normal tt st2
    /\ exists st3,
         mount (localStorage st2) = Normal tt st3
         /\ hist st3 = mkState [Scenario.imageY] 0
         /\ prompt st3 = "add hat".
Proof.
  intros r.
  set (st1 := final_state (autoSaveEffect r r)).
  set (st2 := final_state (handlePromptChange "add hat" st1)).
  assert (Hsave : autoSaveEffect r r = Normal tt st1) by (vm_compute; reflexivity).
  assert (Hprompt : handlePromptChange "add hat" st1 = Normal tt st2)
    by (vm_compute; reflexivity).
  exists st1, st2. split; [exact Hsave |]. split; [exact Hprompt |].
  destruct (X8_saved_session_is_restored r r st1 st2
              "data:image/jpeg;base64,YYYY" "image/jpeg" "add hat"
              eq_refl Hsave Hprompt) as (st3 & Hmount & Hhist & _ & Hpr & _).
  exists st3. repeat split; assumption.
Defined.

(** X9.  The superseded Editor has the same round trip, through its own
    two entries and its validation: after a save effect that succeeds, a
    load over that storage accepts the stored image state, which becomes the
    one version of the history, and restores the prompt of the saved
    render. *)
Theorem X9_superseded_saved_session_is_restored :
  forall (r st st1 : Editor.State) (dataUrl mimeType : string),
    current (hist r) = Some (image_state dataUrl mimeType) ->
    SupersededEditor.saveEffect r st = Normal tt st1 ->
    exists st2,
      SupersededEditor.loadEffect (Editor.initial (localStorage st1)) = Normal tt st2
      /\ hist st2 = mkState [image_state dataUrl mimeType] 0
      /\ prompt st2 = prompt r
      /\ console st2 = []
      /\ localStorage st2 = localStorage st1.
Proof.
  intros r st st1 dataUrl mimeType Hcur Hsave.
  unfold SupersededEditor.saveEffect in Hsave. rewrite Hcur in Hsave.
  change (read (Some (image_state dataUrl mimeType)))
    with (image_state dataUrl mimeType) in Hsave.
  cbn [truthy image_state] in Hsave. rewrite JSON_stringify_image_state in Hsave.
  unfold bind, localStorage_setItem in Hsave.
  destruct (setItem SupersededEditor.SESSION_IMAGE_KEY _ (localStorage st))
    as [s1 | t] eqn:Hset1; [| discriminate Hsave].
  apply setItem_Return in Hset1.
  destruct (setItem SupersededEditor.SESSION_PROMPT_KEY (prompt r) _)
    as [s2 | t] eqn:Hset2; [| discriminate Hsave].
  apply setItem_Return in Hset2. injection Hsave as <-.
  assert (Hstore : localStorage
            (update_localStorage (fun _ => s2)
               (update_localStorage (fun _ => s1) st)) = s2)
    by (destruct st; reflexivity).
  rewrite Hstore.
  assert (Himage : getItem SupersededEditor.SESSION_IMAGE_KEY s2
                   = Some (image_state_text dataUrl mimeType)).
  { subst s2. unfold getItem. cbn [items].
    rewrite lookup_insert_ne by discriminate.
    replace (items (localStorage (update_localStorage (fun _ => s1) st)))
      with (items s1) by (destruct st; reflexivity).
    subst s1. cbn [items]. apply lookup_insert_eq. }
  assert (Hp : getItem SupersededEditor.SESSION_PROMPT_KEY s2 = Some (prompt r)).
  { subst s2. unfold getItem. cbn [items]. apply lookup_insert_eq. }
  unfold SupersededEditor.loadEffect, try_catch, bind, localStorage_getItem.
  cbn [localStorage Editor.initial]. rewrite Himage, image_entry_present.
  cbn [default from_option id]. unfold JSON_parse.
  change (id (image_state_text dataUrl mimeType))
    with (image_state_text dataUrl mimeType).
  rewrite parse_image_state_text. unfold ret at 1.
  rewrite well_formed_spec.
  change (SupersededEditor.spec_has_string_fields (image_state dataUrl mimeType))
    with true. cbv beta iota.
  unfold set_hist, modify.
  cbn [localStorage update_hist Editor.initial]. rewrite Hp.
  destruct (prompt_after_load (prompt r)
              (update_hist (reset (image_state dataUrl mimeType)) (Editor.initial s2))
              eq_refl) as (st3 & Hrun & Hpr & Hh & Hc & Hl).
  exists st3. rewrite Hrun. split; [reflexivity |].
  rewrite Hh, Hpr, Hc, Hl. repeat split; reflexivity.
Qed.

Lemma X9_superseded_saved_session_is_restored_witness :
  let r := Scenario.editor [Scenario.imageA] 0 "add hat" Scenario.roomy in
  exists st1,
    SupersededEditor.saveEffect r r = Normal tt st1
    /\ exists st2,
         SupersededEditor.loadEffect (Editor.initial (localStorage st1)) = Normal tt st2
         /\ hist st2 = mkState [Scenario.imageA] 0
         /\ prompt st2 = "add hat".
Proof.
  intros r.
  set (st1 := final_state (SupersededEditor.saveEffect r r)).
  assert (Hsave : SupersededEditor.saveEffect r r = Normal tt st1)
    by (vm_compute; reflexivity).
  exists st1. split; [exact Hsave |].
  destruct (X9_superseded_saved_session_is_restored r r st1
              "data:image/png;base64,AAAA" "image/png" eq_refl Hsave)
    as (st2 & Hload & Hhist & Hpr & _).
  exists st2. repeat split; assumption.
Defined.

(** ** From the answer of the model to the version in the history *)

Lemma line_break_before_semicolon (c : ascii) (t u : string) :
  line_break (String c t +:+ String ";" u) = line_break (String c t).
Proof.
  unfold line_break. rewrite append_cons.
  destruct t as [| c2 [| c3 t]]; rewrite ?append_cons, ?append_nil;
    cbn [JSString.strip_prefix];
    destruct (Ascii.eqb "226" c); try reflexivity;
    destruct (Ascii.eqb "128" c2); reflexivity.
Qed.

Lemma greedy_group_without_marker (u : string) :
  JSString.includes ";base64," u = false -> greedy_group u = None.
Proof.
  induction u as [| c u IH]; intros Hno.
  - reflexivity.
  - cbn [JSString.includes] in Hno.
    destruct (JSString.strip_prefix ";base64," (String c u)) eqn:Hstrip;
      [discriminate Hno |].
    cbn [greedy_group]. rewrite Hstrip, (IH Hno).
    destruct (line_break (String c u)); reflexivity.
Qed.

Lemma greedy_group_of_answer (mime data : string) :
  single_line mime = true ->
  JSString.includes ";base64," data = false ->
  greedy_group (mime +:+ ";base64," +:+ data) = Some mime.
Proof.
  intros Hline Hdata. induction mime as [| c mime IH].
  - rewrite append_nil.
    assert (Htail : greedy_group ("base64," +:+ data) = None)
      by (apply greedy_group_without_marker; exact Hdata).
    change (";base64," +:+ data) with (String ";" ("base64," +:+ data)).
    cbn [greedy_group]. rewrite Htail. reflexivity.
  - cbn [single_line] in Hline. apply andb_true_iff in Hline as [Hc Hrest].
    apply negb_true_iff in Hc.
    change (";base64," +:+ data) with (String ";" ("base64," +:+ data)) in *.
    pose proof (line_break_before_semicolon c mime ("base64," +:+ data)) as Hlb.
    rewrite Hc in Hlb. rewrite (append_cons c mime) in Hlb |- *.
    cbn [greedy_group]. rewrite Hlb, (IH Hrest). reflexivity.
Qed.

Lemma match_data_url_of_answer (mime data : string) :
  single_line mime = true ->
  JSString.includes ";base64," data = false ->
  match_data_url ("data:" +:+ mime +:+ ";base64," +:+ data) = Some mime.
Proof.
  intros Hline Hdata.
  change ("data:" +:+ mime +:+ ";base64," +:+ data)
    with (String "d" (String "a" (String "t" (String "a" (String ":"
            (mime +:+ ";base64," +:+ data)))))).
  cbn [match_data_url JSString.strip_prefix].
  cbn. rewrite (greedy_group_of_answer mime data Hline Hdata). reflexivity.
Qed.

(** X10.  From the answer of the model to the history.  When the first
    candidate of the answer has a part with inline data, whose MIME type has
    no line terminator and whose data does not contain [;base64,], the call
    (of the service module as of its copy at the end of [Editor.tsx])
    resolves to the data URL [data:<mime>;base64,<data>] and logs nothing,
    and the version that [handleSubmit] then pushes carries that data URL
    and, as its [mimeType], the MIME type of the answer ([image/png] when
    the answer gave the empty string). *)
Theorem X10_answer_mime_type_is_recorded :
  forall (engineMessage : EngineError -> string)
         (generateContent : GeminiService.EditRequest -> Result GeminiService.Response)
         (request : GeminiService.EditRequest) (response : GeminiService.Response)
         (candidate : GeminiService.Candidate) (others : list GeminiService.Candidate)
         (answerParts : list GeminiService.Part) (d : GeminiService.InlineData)
         (r st : Editor.State),
    generateContent request = Return response ->
    GeminiService.candidates response = Some (candidate :: others) ->
    GeminiService.parts candidate = Some answerParts ->
    GeminiService.first_inline answerParts = Some d ->
    single_line (GeminiService.dataMimeType d) = true ->
    JSString.includes ";base64," (GeminiService.data d) = false ->
    let url := "data:" +:+ GeminiService.dataMimeType d +:+ ";base64,"
               +:+ GeminiService.data d in
    let recorded := JSString.or_else (Some (GeminiService.dataMimeType d)) "image/png" in
    GeminiService.editImageWithNanoBanana engineMessage generateContent request
      = (Return url, [])
    /\ (forall toLowerCase : string -> string,
          Services.editImageWithNanoBanana engineMessage toLowerCase generateContent request
          = (Return url, []))
    /\ exists st',
         handleSubmit_resume engineMessage r (Return url) st = Normal tt st'
         /\ hist st' = push (hist r) (image_state url recorded) (hist st).
Proof.
  intros em gen request response candidate others answerParts d r st
    Hgen Hcands Hparts Hinline Hline Hdata url recorded.
  assert (Hrequest : GeminiService.request_image gen request = Return url).
  { unfold GeminiService.request_image.
    rewrite Hgen. cbn [JS.bind]. rewrite Hcands. cbn [mbind option_bind head].
    rewrite Hparts. cbn [mbind option_bind]. rewrite Hinline. reflexivity. }
  split; [| split].
  - unfold GeminiService.editImageWithNanoBanana. rewrite Hrequest. reflexivity.
  - intros toLowerCase. unfold Services.editImageWithNanoBanana.
    rewrite Hrequest. reflexivity.
  - destruct (resume_success em r url st) as (st' & Hrun & Hhist & _).
    exists st'. split; [exact Hrun |]. rewrite Hhist. subst url recorded.
    rewrite (match_data_url_of_answer _ _ Hline Hdata). reflexivity.
Qed.

Lemma X10_answer_mime_type_is_recorded_witness :
  let d := GeminiService.mkInlineData "YYYY" "image/webp" in
  let response :=
    GeminiService.mkResponse
      (Some [GeminiService.mkCandidate
               (Some [GeminiService.mkPart None; GeminiService.mkPart (Some d)])
               (Some "STOP")]) in
  let r := Scenario.editor [Scenario.imageA] 0 "add hat" Scenario.roomy in
  single_line "image/webp" = true
  /\ exists st',
       handleSubmit_resume Scenario.engineMessage r
         (Return "data:image/webp;base64,YYYY") r = Normal tt st'
       /\ hist st'
          = push (hist r) (image_state "data:image/webp;base64,YYYY" "image/webp") (hist r).
Proof.
  intros d response r. split; [reflexivity |].
  apply (X10_answer_mime_type_is_recorded Scenario.engineMessage
           (fun _ => Return response)
           (GeminiService.mkRequest (Some "AAAA") (VString "image/png") "add hat")
           response
           (GeminiService.mkCandidate
              (Some [GeminiService.mkPart None; GeminiService.mkPart (Some d)])
              (Some "STOP"))
           [] [GeminiService.mkPart None; GeminiService.mkPart (Some d)] d r r);
    reflexivity.
Defined.

(** X11.  A blocked answer reaches the user.  For the copy of the service
    that stands at the end of [Editor.tsx]: when the answer of the model
    carries no image and its first candidate has a finish reason other than
    [STOP], the call is rejected with an error that names the reason, and
    the original error is logged once.  Unless that message speaks of an
    invalid API key, [handleSubmit] shows exactly this message in the error
    slot, ends the loading state, and leaves the history, the cursor and
    the prompt as they were. *)
Theorem X11_blocked_answer_is_reported :
  forall (engineMessage : EngineError -> string)
         (generateContent : GeminiService.EditRequest -> Result GeminiService.Response)
         (request : GeminiService.EditRequest) (response : GeminiService.Response)
         (candidate : GeminiService.Candidate) (others : list GeminiService.Candidate)
         (reason : string) (r st : Editor.State),
    generateContent request = Return response ->
    GeminiService.candidates response = Some (candidate :: others) ->
    (ps ← GeminiService.parts candidate; GeminiService.first_inline ps) = None ->
    GeminiService.finishReason candidate = Some reason ->
    reason <> EmptyString ->
    reason <> "STOP" ->
    let message := "Image generation failed. Reason: " +:+ reason
                   +:+ ". This can happen if the prompt violates safety policies." in
    JSString.includes "API key not valid" message = false ->
    GeminiService.editImageWithNanoBanana engineMessage generateContent request
      = (Throw (Error message), [("Error editing image with Gemini:", Error message)])
    /\ exists st',
         handleSubmit_resume engineMessage r (Throw (Error message)) st = Normal tt st'
         /\ error st' = Some message
         /\ isLoading st' = false
         /\ hist st' = hist st
         /\ prompt st' = prompt st.
Proof.
  intros em gen request response candidate others reason r st
    Hgen Hcands Hnone Hreason Hne Hstop message Hkey.
  split.
  - unfold GeminiService.editImageWithNanoBanana, GeminiService.request_image.
    rewrite Hgen. cbn [JS.bind]. rewrite Hcands. cbn [mbind option_bind head].
    rewrite Hnone, Hreason.
    assert (Htruthy : truthy (VString reason) = true).
    { cbn [truthy]. destruct (String.eqb_spec reason EmptyString); [contradiction | reflexivity]. }
    assert (Hnot : String.eqb reason "STOP" = false)
      by (destruct (String.eqb_spec reason "STOP"); [contradiction | reflexivity]).
    rewrite Htruthy, Hnot. cbn [andb negb].
    fold message. unfold GeminiService.rethrow. rewrite Hkey. reflexivity.
  - destruct (resume_failure em r (Error message) st)
      as (st' & Hrun & Hhist & Hprompt & _ & Hload & Herr).
    exists st'. repeat split; assumption.
Qed.

Lemma X11_blocked_answer_is_reported_witness :
  let candidate := GeminiService.mkCandidate (Some []) (Some "SAFETY") in
  let response := GeminiService.mkResponse (Some [candidate]) in
  let request := GeminiService.mkRequest (Some "AAAA") (VString "image/png") "add hat" in
  ("SAFETY" : string) <> "STOP"
  /\ GeminiService.editImageWithNanoBanana Scenario.engineMessage
       (fun _ => Return response) request
     = (Throw (Error "Image generation failed. Reason: SAFETY. This can happen if the prompt violates safety policies."),
        [("Error editing image with Gemini:",
          Error "Image generation failed. Reason: SAFETY. This can happen if the prompt violates safety policies.")]).
Proof.
  intros candidate response request.
  assert (Hstop : ("SAFETY" : string) <> "STOP") by discriminate.
  split; [exact Hstop |].
  apply (X11_blocked_answer_is_reported Scenario.engineMessage
           (fun _ => Return response) request response candidate []
           "SAFETY" (Editor.initial Scenario.roomy) (Editor.initial Scenario.roomy));
    try reflexivity; try discriminate; exact Hstop.
Defined.

(** ** Suggestions *)

Lemma suggestions_awaiting engineMessage (r st : Suggestions.Cells)
    (request : Suggestions.SuggestRequest) (st1 : Suggestions.Cells) :
  Suggestions.handleGetSuggestions engineMessage r st = Suggestions.Awaiting request st1 ->
  st1 = Suggestions.in_editor (update_suggestions (fun _ => []))
          (Suggestions.in_editor (update_suggestionError (fun _ => None))
             (Suggestions.setIsGeneratingSuggestions true st)).
Proof.
  unfold Suggestions.handleGetSuggestions.
  destruct (negb _); [intros H; discriminate H |].
  destruct (JS.bind _ _); intros H; [| discriminate H].
  injection H as _ <-. reflexivity.
Qed.

(** X12.  Suggestion failures are uniform and harmless.  For the copy of
    [getPromptSuggestions] that stands at the end of [Editor.tsx]: whatever
    the model answers, a fetch of suggestions that fails is rejected with the one
    fixed message, with the cause logged once; the Editor then shows that
    message in the suggestion error slot and an empty suggestion list.  A
    fetch that succeeds shows its strings and no error.  Either way the fetch
    is over afterwards, and the history, the prompt and the main error slot
    are as they were.  An answer whose text is JSON but not an array is one
    of the failures. *)
Theorem X12_suggestion_failures_are_uniform :
  forall (engineMessage : EngineError -> string)
         (generateContent : Suggestions.SuggestRequest -> Result Suggestions.TextResponse)
         (r st : Suggestions.Cells) (request : Suggestions.SuggestRequest)
         (st1 : Suggestions.Cells),
    Suggestions.handleGetSuggestions engineMessage r st = Suggestions.Awaiting request st1 ->
    let result := Suggestions.getPromptSuggestions generateContent request in
    let st2 := Suggestions.handleGetSuggestions_resume engineMessage (fst result) st1 in
    hist (Suggestions.editor st2) = hist (Suggestions.editor st)
    /\ prompt (Suggestions.editor st2) = prompt (Suggestions.editor st)
    /\ error (Suggestions.editor st2) = error (Suggestions.editor st)
    /\ Suggestions.isGeneratingSuggestions st2 = false
    /\ match fst result with
       | Return newSuggestions =>
           suggestions (Suggestions.editor st2) = newSuggestions
           /\ suggestionError (Suggestions.editor st2) = None
           /\ snd result = []
       | Throw err =>
           err = Error Suggestions.FAILED
           /\ suggestions (Suggestions.editor st2) = []
           /\ suggestionError (Suggestions.editor st2) = Some Suggestions.FAILED
           /\ length (snd result) = 1%nat
       end
    /\ (forall response t v,
          generateContent request = Return response ->
          Suggestions.text response = Some t ->
          JSON.parse (Suggestions.trim t) = Some v ->
          (forall elems, v <> VArray elems) ->
          fst result = Throw (Error Suggestions.FAILED)).
Proof.
  intros em gen r st request st1 Hbegin result st2.
  apply suggestions_awaiting in Hbegin. subst st1 st2 result.
  unfold Suggestions.getPromptSuggestions.
  split; [| split; [| split; [| split; [| split]]]].
  1-4: destruct (Suggestions.request_suggestions gen request);
       destruct st as [[] ?]; reflexivity.
  - destruct (Suggestions.request_suggestions gen request);
      destruct st as [[] ?]; repeat split; reflexivity.
  - intros response t v Hgen Htext Hparse Hnot.
    unfold Suggestions.request_suggestions.
    rewrite Hgen. cbn [JS.bind]. rewrite Htext. cbn [JS.bind]. rewrite Hparse.
    cbn [JS.bind].
    destruct v; try reflexivity. exfalso. eapply Hnot. reflexivity.
Qed.

Lemma X12_suggestion_failures_are_uniform_witness :
  let r := Suggestions.mkCells
             (Scenario.editor [Scenario.imageA] 0 EmptyString Scenario.roomy) false in
  let request := Suggestions.mkSuggestRequest (Some "AAAA") (VString "image/png") in
  let st1 := Suggestions.in_editor (update_suggestions (fun _ => []))
               (Suggestions.in_editor (update_suggestionError (fun _ => None))
                  (Suggestions.setIsGeneratingSuggestions true r)) in
  let generateContent (_ : Suggestions.SuggestRequest) : Result Suggestions.TextResponse :=
    Return (Suggestions.mkTextResponse (Some "{}")) in
  Suggestions.handleGetSuggestions Scenario.engineMessage r r
    = Suggestions.Awaiting request st1
  /\ fst (Suggestions.getPromptSuggestions generateContent request)
     = Throw (Error Suggestions.FAILED).
Proof.
  intros r request st1 generateContent. split; [reflexivity |].
  destruct (X12_suggestion_failures_are_uniform Scenario.engineMessage generateContent
              r r request st1 eq_refl) as (_ & _ & _ & _ & _ & Hnot_array).
  apply (Hnot_array (Suggestions.mkTextResponse (Some "{}")) "{}" (VObject []));
    try reflexivity.
  intros elems H. discriminate H.
Defined.

(** ** Upload *)

(** X13.  An upload is a new session root.  A file whose type does not
    start with [image/] only sets the error slot: history, loading flag,
    prompt and storage stay as they were.  For an image file the
    optimization cannot fail the upload (when the compression fails, the
    original file is the one that is read), and once the file is read the
    history is exactly the one uploaded version, whatever it was before,
    with no undo and no redo; the prompt and its storage entry are cleared
    and the loading state is over. *)
Theorem X13_upload_is_a_new_session_root :
  forall (File : Type) (fileType : File -> string)
         (readAsDataURL : File -> Result Value)
         (engineMessage : EngineError -> string)
         (imageCompression : File -> Options -> Result File)
         (file : File) (st : Editor.State),
    (JSString.strip_prefix "image/" (fileType file) = None ->
     exists st',
       Upload.handleFileChange fileType file st = Upload.Rejected (Normal tt st')
       /\ error st' = Some "Please upload a valid image file (PNG, JPG, etc.)."
       /\ hist st' = hist st /\ isLoading st' = isLoading st
       /\ prompt st' = prompt st /\ localStorage st' = localStorage st)
    /\ (exists optimizedFile,
          fst (optimizeImage imageCompression file) = Return optimizedFile
          /\ (forall e, imageCompression file upload_options = Throw e ->
                optimizedFile = file))
    /\ (forall st1 optimizedFile result,
          Upload.handleFileChange fileType file st = Upload.Optimizing file st1 ->
          fst (optimizeImage imageCompression file) = Return optimizedFile ->
          readAsDataURL optimizedFile = Return result ->
          let version :=
            VObject [("dataUrl", result); ("mimeType", VString (fileType optimizedFile))] in
          Upload.handleFileChange_optimized readAsDataURL engineMessage
            (fst (optimizeImage imageCompression file)) st1
          = Upload.Started optimizedFile result st1
          /\ exists st2,
               Upload.onloadend fileType optimizedFile result st1 = Normal tt st2
               /\ hist st2 = mkState [version] 0
               /\ canUndo (hist st2) = false /\ canRedo (hist st2) = false
               /\ prompt st2 = EmptyString
               /\ isLoading st2 = false
               /\ getItem SAVED_PROMPT (localStorage st2) = None).
Proof.
  intros File fileType readAsDataURL em imageCompression file st.
  split; [| split].
  - intros Htype. unfold Upload.handleFileChange. rewrite Htype.
    destruct st. eexists. split; [reflexivity |]. repeat split; reflexivity.
  - unfold optimizeImage.
    destruct (imageCompression file upload_options) as [compressed | e] eqn:Hc.
    + exists compressed. split; [reflexivity |]. intros e H. discriminate H.
    + exists file. split; [reflexivity |]. intros _ _. reflexivity.
  - intros st1 optimizedFile result _ Hopt Hread version.
    split.
    + unfold Upload.handleFileChange_optimized. rewrite Hopt. cbn [JS.bind].
      rewrite Hread. reflexivity.
    + destruct st1. eexists. split; [reflexivity |]. cbn.
      repeat split; try reflexivity. apply lookup_delete_eq.
Qed.

Lemma X13_upload_is_a_new_session_root_witness :
  let fileType (f : string) : string := f in
  JSString.strip_prefix "image/" (fileType "text/plain") = None
  /\ exists st',
       Upload.handleFileChange fileType "text/plain"
         (Scenario.editor [Scenario.imageA] 0 "add hat" Scenario.roomy)
       = Upload.Rejected (Normal tt st')
       /\ error st' = Some "Please upload a valid image file (PNG, JPG, etc.)."
       /\ hist st' = mkState [Scenario.imageA] 0.
Proof.
  intros fileType. split; [reflexivity |].
  destruct (X13_upload_is_a_new_session_root string fileType
              (fun _ => Return VNull) Scenario.engineMessage
              (fun f _ => Return f) "text/plain"
              (Scenario.editor [Scenario.imageA] 0 "add hat" Scenario.roomy))
    as [Hrejected _].
  destruct (Hrejected eq_refl) as (st' & Hrun & Herr & Hhist & _).
  exists st'. repeat split; assumption.
Defined.

(** ** Download *)

(** X14.  What is downloaded.  With neutral adjustments (100 and 100) the
    download is the compression of the current image itself: nothing is
    decoded or rendered.  With other adjustments the image is rendered
    first, and when it cannot be decoded the download is rejected with the
    decoding error before anything is fetched or compressed: the handler
    then shows that error, hands nothing to the browser and ends the loading
    state.  When the rendering succeeds and the compression fails, the
    download is the rendered image, not the original one.  Whatever the
    outcome, the handler leaves the history as it was, and on success the
    link it clicks points to the prepared data URL.  The handler starts
    nothing while another operation is loading or when there is no current
    image; otherwise it asks for the current image under the adjustments
    and the quality tier of its render. *)
Theorem X14_download_applies_adjustments_then_compresses :
  forall (File Blob FetchResponse Image : Type)
         (imageCompression : File -> Options -> Result File)
         (getDataUrlFromFile : File -> Result string)
         (fetch : string -> Result FetchResponse)
         (blob : FetchResponse -> Result Blob)
         (newFile : Blob -> string -> File)
         (loadImage : string -> Image + string) (has2dContext : bool)
         (renderFiltered : Image -> string -> string -> string)
         (engineMessage : EngineError -> string) (now : Z)
         (dataUrl mimeType : string) (brightness contrast : Z)
         (quality : OutputQuality) (st : Editor.State),
    let prepare :=
      Download.prepareDownload imageCompression getDataUrlFromFile fetch blob newFile
        loadImage has2dContext renderFiltered in
    let compress :=
      compressImageForDownload imageCompression getDataUrlFromFile fetch blob newFile in
    prepare dataUrl mimeType 100 100 quality = compress dataUrl mimeType quality
    /\ (~ (brightness = 100 /\ contrast = 100) ->
        (forall err,
           loadImage dataUrl = inr err ->
           let message := "Failed to load image for adjustments: " +:+ err in
           prepare dataUrl mimeType brightness contrast quality
             = (Throw (Error message), [])
           /\ exists st',
                Download.handleDownload_resume engineMessage now quality
                  (Throw (Error message)) st = Normal None st'
                /\ error st' = Some message
                /\ isLoading st' = false
                /\ hist st' = hist st)
        /\ (forall img source error,
              loadImage dataUrl = inl img ->
              has2dContext = true ->
              let adjusted :=
                renderFiltered img
                  ("brightness(" +:+ pretty brightness +:+ "%) contrast("
                   +:+ pretty contrast +:+ "%)")
                  (JSString.substring (JSString.indexOf ":" dataUrl + 1)
                     (JSString.indexOf ";" dataUrl) dataUrl) in
              dataURLtoFile fetch blob newFile adjusted
                ("source." +:+ JSString.or_else (JSString.split_on "/" mimeType !! 1%nat) "png")
                = Return source ->
              JS.bind (imageCompression source (download_options quality))
                getDataUrlFromFile = Throw error ->
              prepare dataUrl mimeType brightness contrast quality
                = (Return adjusted, [("Image compression for download failed:", error)])))
    /\ (forall prepared,
          exists link st',
            Download.handleDownload_resume engineMessage now quality (Return prepared) st
              = Normal (Some link) st'
            /\ Download.href link = prepared
            /\ hist st' = hist st
            /\ error st' = error st
            /\ isLoading st' = false)
    /\ (forall r : Editor.State,
          (isLoading r = true \/ current (hist r) = None ->
           Download.handleDownload engineMessage r quality st = Download.Skipped st)
          /\ (isLoading r = false ->
              current (hist r) = Some (image_state dataUrl mimeType) ->
              exists st1,
                Download.handleDownload engineMessage r quality st
                  = Download.Awaiting
                      (Download.mkDownloadRequest (VString dataUrl) (VString mimeType)
                         (Editor.brightness r) (Editor.contrast r) quality) st1
                /\ isLoading st1 = true /\ error st1 = None /\ hist st1 = hist st)).
Proof.
  intros File Blob FetchResponse Image imageCompression getDataUrlFromFile fetch blob
    newFile loadImage has2dContext renderFiltered em now dataUrl mimeType
    brightness contrast quality st prepare compress.
  subst prepare compress. unfold Download.prepareDownload.
  split; [reflexivity |]. split.
  - intros Hne.
    assert (Hneutral : (brightness =? 100) && (contrast =? 100) = false).
    { destruct (Z.eqb_spec brightness 100); destruct (Z.eqb_spec contrast 100);
        try reflexivity. exfalso. apply Hne. split; assumption. }
    split.
    + intros err Hload. unfold applyVisualAdjustments.
      rewrite Hneutral, Hload. split; [reflexivity |].
      destruct st. eexists. split; [reflexivity |]. repeat split; reflexivity.
    + intros img source error Hload Hctx Hfile Hcompress.
      unfold applyVisualAdjustments. rewrite Hneutral, Hload, Hctx.
      unfold compressImageForDownload.
      rewrite Hfile, Hcompress. reflexivity.
  - split.
    + intros prepared. destruct st. eexists _, _.
      split; [reflexivity |]. repeat split; reflexivity.
    + intros r. unfold Download.handleDownload. split.
      * intros [Hload | Hnone].
        -- rewrite Hload, orb_true_r. reflexivity.
        -- rewrite Hnone. reflexivity.
      * intros Hload Hcur. rewrite Hload, Hcur. destruct st. eexists.
        split; [reflexivity |]. repeat split; reflexivity.
Qed.

Lemma X14_download_applies_adjustments_then_compresses_witness :
  let loadImage (_ : string) : unit + string := inr "[object Event]" in
  let failing (_ : string) : Result string := Throw (Engine TypeError) in
  ~ (120 = 100 /\ 100 = 100)
  /\ Download.prepareDownload (fun (f : string) (_ : Options) => Return f)
       (fun f => Return f) failing (fun r => Return r) (fun (b _ : string) => b)
       loadImage true (fun _ _ _ => EmptyString)
       "data:image/png;base64,@" "image/png" 120 100 low
     = (Throw (Error "Failed to load image for adjustments: [object Event]"), []).
Proof.
  intros loadImage failing.
  assert (Hne : ~ (120 = 100 /\ 100 = 100)) by lia.
  split; [exact Hne |].
  apply (X14_download_applies_adjustments_then_compresses string string string unit
           (fun (f : string) (_ : Options) => Return f)
           (fun f => Return f) failing (fun r => Return r) (fun (b _ : string) => b)
           loadImage true (fun _ _ _ => EmptyString)
           Scenario.engineMessage 0
           "data:image/png;base64,@" "image/png" 120 100 low
           (Editor.initial Scenario.roomy));
    [exact Hne | reflexivity].
Defined.

(** ** Submitting: what is sent, and what cannot be sent *)

Lemma split_on_no_separator (sep : ascii) (s : string) :
  has_char sep s = false -> JSString.split_on sep s = [s].
Proof.
  induction s as [| c s IH]; intros Hno; [reflexivity |].
  cbn [has_char] in Hno. apply orb_false_iff in Hno as [Hc Hs].
  cbn [JSString.split_on]. rewrite Ascii.eqb_sym, Hc, (IH Hs). reflexivity.
Qed.

Lemma split_on_first_separator (sep : ascii) (a b : string) :
  has_char sep a = false ->
  JSString.split_on sep (a +:+ String sep b) = a :: JSString.split_on sep b.
Proof.
  induction a as [| c a IH]; intros Hno.
  - rewrite append_nil. cbn [JSString.split_on]. rewrite Ascii.eqb_refl. reflexivity.
  - cbn [has_char] in Hno. apply orb_false_iff in Hno as [Hc Ha].
    rewrite append_cons. cbn [JSString.split_on].
    rewrite Ascii.eqb_sym, Hc, (IH Ha). reflexivity.
Qed.

(** X15.  What a submit sends.  For a current image state whose data URL is
    a header without comma, a comma and a payload without comma, a submit
    that passes its guard sets the loading flag, clears the error slot,
    leaves the history alone, and has a request in flight that carries
    exactly the payload (the data URL without its header), the stored
    [mimeType] and the prompt of the render. *)
Theorem X15_submit_sends_the_payload :
  forall (engineMessage : EngineError -> string) (r st : Editor.State)
         (header payload mimeType : string),
    current (hist r) = Some (image_state (header +:+ "," +:+ payload) mimeType) ->
    has_char "," header = false ->
    has_char "," payload = false ->
    prompt r <> EmptyString ->
    isLoading r = false ->
    exists st1,
      handleSubmit engineMessage r st
        = Awaiting (GeminiService.mkRequest (Some payload) (VString mimeType) (prompt r)) st1
      /\ isLoading st1 = true
      /\ loadingMessage st1 = "Applying AI edit..."
      /\ error st1 = None
      /\ hist st1 = hist st
      /\ prompt st1 = prompt st.
Proof.
  intros em r st header payload mimeType Hcur Hheader Hpayload Hprompt Hload.
  unfold handleSubmit. rewrite Hcur, Hload.
  change (read (Some (image_state (header +:+ "," +:+ payload) mimeType)))
    with (image_state (header +:+ "," +:+ payload) mimeType).
  assert (Htruthy : truthy (VString (prompt r)) = true).
  { cbn [truthy]. destruct (String.eqb_spec (prompt r) EmptyString);
      [contradiction | reflexivity]. }
  rewrite Htruthy. cbn [truthy image_state negb orb].
  unfold edit_request, base64_of. cbn [get lookup_prop image_state].
  cbn [String.eqb Ascii.eqb Bool.eqb default from_option id JS.bind].
  change (id (VString (header +:+ "," +:+ payload)))
    with (VString (header +:+ "," +:+ payload)).
  cbv beta iota.
  change ("," +:+ payload) with (String "," payload).
  rewrite (split_on_first_separator "," header payload Hheader).
  rewrite (split_on_no_separator "," payload Hpayload).
  cbn [lookup list_lookup JS.bind].
  destruct st. eexists. split; [reflexivity |]. repeat split; reflexivity.
Qed.

Lemma X15_submit_sends_the_payload_witness :
  let r := Scenario.editor [Scenario.imageA] 0 "add hat" Scenario.roomy in
  has_char "," "data:image/png;base64" = false
  /\ exists st1,
       handleSubmit Scenario.engineMessage r r
         = Awaiting (GeminiService.mkRequest (Some "AAAA") (VString "image/png") "add hat") st1
       /\ isLoading st1 = true.
Proof.
  intros r. split; [reflexivity |].
  assert (Hprompt : prompt r <> EmptyString) by discriminate.
  destruct (X15_submit_sends_the_payload Scenario.engineMessage r r
              "data:image/png;base64" "AAAA" "image/png"
              eq_refl eq_refl eq_refl Hprompt eq_refl)
    as (st1 & Hrun & Hl & _).
  exists st1. split; assumption.
Defined.

(** X16.  What a submit cannot send.  When the current entry of the history
    is truthy but its [dataUrl] is not a string (an entry that the load of
    the canonical Editor took from storage without looking at it), a submit
    with a prompt sends nothing: it ends at once with the engine's
    [TypeError] message in the error slot, the loading state over, and the
    history and the prompt as they were. *)
Theorem X16_submit_of_a_malformed_entry_fails_locally :
  forall (engineMessage : EngineError -> string) (r st : Editor.State) (entry : Value),
    current (hist r) = Some entry ->
    truthy entry = true ->
    (forall s, get entry "dataUrl" <> Return (VString s)) ->
    prompt r <> EmptyString ->
    isLoading r = false ->
    exists st',
      handleSubmit engineMessage r st = Finished (Normal tt st')
      /\ error st' = Some (engineMessage TypeError)
      /\ isLoading st' = false
      /\ loadingMessage st' = EmptyString
      /\ hist st' = hist st
      /\ prompt st' = prompt st.
Proof.
  intros em r st entry Hcur Hentry Hbad Hprompt Hload.
  unfold handleSubmit. rewrite Hcur, Hload.
  change (read (Some entry)) with entry. rewrite Hentry.
  assert (Htruthy : truthy (VString (prompt r)) = true).
  { cbn [truthy]. destruct (String.eqb_spec (prompt r) EmptyString);
      [contradiction | reflexivity]. }
  rewrite Htruthy. cbn [negb orb].
  assert (Hreq : edit_request entry (prompt r) = Throw (Engine TypeError)).
  { unfold edit_request, base64_of.
    destruct (get entry "dataUrl") as [v | t] eqn:Hget.
    - cbn [JS.bind]. destruct v; try reflexivity. exfalso. eapply Hbad. reflexivity.
    - cbn [JS.bind]. destruct entry; cbn in Hget; try discriminate Hget;
        injection Hget as <-; reflexivity. }
  rewrite Hreq. destruct st. eexists. split; [reflexivity |].
  repeat split; reflexivity.
Qed.

Lemma X16_submit_of_a_malformed_entry_fails_locally_witness :
  let entry := VObject [("dataUrl", VNumber "7")] in
  let r := Scenario.editor [entry] 0 "add hat" Scenario.roomy in
  truthy entry = true
  /\ exists st',
       handleSubmit Scenario.engineMessage r r = Finished (Normal tt st')
       /\ error st' = Some "Cannot read properties of undefined".
Proof.
  intros entry r. split; [reflexivity |].
  assert (Hbad : forall s, get entry "dataUrl" <> Return (VString s))
    by (intros s H; discriminate H).
  assert (Hprompt : prompt r <> EmptyString) by discriminate.
  destruct (X16_submit_of_a_malformed_entry_fails_locally Scenario.engineMessage r r entry
              eq_refl eq_refl Hbad Hprompt eq_refl)
    as (st' & Hrun & Herr & _).
  exists st'. split; assumption.
Defined.

(** ** The history of a mounted Editor stays coherent *)

Section SessionFacts.
Context {File : Type}.
Variable fileType : File -> string.
Variable engineMessage : EngineError -> string.

Lemma initialized_current (h : ImageHistory.State Value) :
  initialized h -> exists v, current h = Some v.
Proof.
  unfold initialized, current. intros Hc. rewrite index_in_range by lia.
  apply lookup_lt_is_Some_2. lia.
Qed.

Lemma initialized_original (h : ImageHistory.State Value) :
  initialized h -> exists v, original h = Some v.
Proof.
  unfold initialized, original. intros Hc. rewrite index_in_range by lia.
  apply lookup_lt_is_Some_2. lia.
Qed.

Lemma reset_coherent (v : Value) (h : ImageHistory.State Value) :
  Session.coherent (reset v h).
Proof. right. unfold initialized. cbn. lia. Qed.

Lemma undo_redo_coherent (h : ImageHistory.State Value) (op : Op Value) :
  (forall s, op <> OpPush s) ->
  Session.coherent h -> Session.coherent (apply_op h op).
Proof.
  intros Hop [[Hnil Hc] | Hinit].
  - destruct h as [v c]. cbn [history currentIndex] in *. subst v c.
    destruct op as [s | |]; [destruct (Hop s eq_refl) | left .. ]; split; reflexivity.
  - right. apply apply_op_initialized, Hinit.
Qed.

Lemma handleReset_hist (r st : Editor.State) :
  hist (final_state (handleReset r st)) = hist st
  \/ exists v, hist (final_state (handleReset r st)) = mkState [v] 0.
Proof.
  unfold handleReset.
  destruct (truthy (read (original (hist r)))).
  - right. destruct st. eexists. reflexivity.
  - left. reflexivity.
Qed.

Lemma handleSubmit_hist (r st : Editor.State) :
  match handleSubmit engineMessage r st with
  | Finished c => hist (final_state c) = hist st
  | Awaiting _ st1 => hist st1 = hist st /\ initialized (hist r)
  end.
Proof.
  destruct (handleSubmit engineMessage r st) as [c | request st1] eqn:Hrun.
  - unfold handleSubmit in Hrun.
    destruct (negb _ || negb _ || isLoading r).
    + injection Hrun as <-. reflexivity.
    + destruct (edit_request _ _); [discriminate Hrun |].
      injection Hrun as <-. destruct st. reflexivity.
  - apply awaiting_initialized in Hrun as [Hinit ->]. split; [| exact Hinit].
    destruct st. reflexivity.
Qed.

Lemma perform_coherent (st : Editor.State) (i : Intent) :
  Session.coherent (hist st) ->
  Session.coherent (hist (perform engineMessage st i)).
Proof.
  intros Hst. destruct i; cbn [perform].
  - unfold clickUndo. destruct (negb _ || isLoading st); [exact Hst |].
    replace (hist (final_state (set_hist (undo (hist st)) st)))
      with (apply_op (hist st) OpUndo) by (destruct st; reflexivity).
    apply undo_redo_coherent; [discriminate | exact Hst].
  - unfold clickRedo. destruct (negb _ || isLoading st); [exact Hst |].
    replace (hist (final_state (set_hist (redo (hist st)) st)))
      with (apply_op (hist st) OpRedo) by (destruct st; reflexivity).
    apply undo_redo_coherent; [discriminate | exact Hst].
  - unfold clickReset. destruct (negb _ || isLoading st); [exact Hst |].
    destruct (handleReset_hist st st) as [-> | [v ->]]; [exact Hst |].
    apply (reset_coherent v (hist st)).
  - unfold clickClear. destruct (isLoading st); [exact Hst |].
    destruct (clear_session_outcome st st) as (st' & Hrun & Hh & _).
    rewrite Hrun. cbn [final_state]. rewrite Hh. exact Hst.
  - unfold clickSubmit. destruct (isLoading st || _); [exact Hst |].
    pose proof (handleSubmit_hist st st) as Hsub.
    destruct (handleSubmit engineMessage st st) as [c | request st1].
    + rewrite Hsub. exact Hst.
    + destruct Hsub as [-> _]. exact Hst.
  - replace (hist (final_state (handlePromptChange newPrompt st))) with (hist st);
      [exact Hst |].
    unfold handlePromptChange, bind, setPrompt, modify, localStorage_setItem.
    destruct st; cbn. destruct (setItem _ _ _); reflexivity.
  - destruct st; exact Hst.
  - destruct st; exact Hst.
  - destruct st; exact Hst.
  - destruct st; exact Hst.
Qed.

Lemma submitted_render_initialized (st : Editor.State) (i : Intent) :
  Forall (fun r => initialized (hist r)) (Session.submitted_render engineMessage st i).
Proof.
  destruct i; cbn [Session.submitted_render]; try apply Forall_nil_2.
  unfold clickSubmit. destruct (isLoading st || _); [apply Forall_nil_2 |].
  pose proof (handleSubmit_hist st st) as Hsub.
  destruct (handleSubmit engineMessage st st) as [c | request st1];
    [apply Forall_nil_2 |].
  apply Forall_cons_2; [apply Hsub | apply Forall_nil_2].
Qed.

Lemma resume_coherent (r st : Editor.State) (outcome : Result string) :
  initialized (hist r) ->
  Session.coherent (hist st) ->
  Session.coherent (hist (final_state (handleSubmit_resume engineMessage r outcome st))).
Proof.
  intros Hr Hst. destruct outcome as [url | err].
  - destruct (resume_success engineMessage r url st) as (st' & Hrun & Hh & _).
    rewrite Hrun. cbn [final_state]. rewrite Hh.
    right. destruct (hist r) as [v c]. unfold initialized in Hr.
    cbn [history currentIndex] in Hr. apply push_initialized. lia.
  - destruct (resume_failure engineMessage r err st) as (st' & Hrun & Hh & _).
    rewrite Hrun. cbn [final_state]. rewrite Hh. exact Hst.
Qed.

Lemma step_coherent (s : Session.Session) (e : Session.Event) :
  Session.coherent (hist (Session.view s)) ->
  Forall (fun r => initialized (hist r)) (Session.inFlight s) ->
  Session.coherent (hist (Session.view (Session.step fileType engineMessage s e)))
  /\ Forall (fun r => initialized (hist r))
       (Session.inFlight (Session.step fileType engineMessage s e)).
Proof.
  intros Hview Hflight. destruct e as [i | n outcome | file | err | f result];
    cbn [Session.step].
  - cbn [Session.view Session.inFlight]. split.
    + apply perform_coherent, Hview.
    + apply Forall_app_2; [exact Hflight | apply submitted_render_initialized].
  - destruct (Session.inFlight s !! n) as [r |] eqn:Hn; [| split; assumption].
    cbn [Session.view Session.inFlight]. split.
    + apply resume_coherent; [| exact Hview].
      exact (proj1 (Forall_lookup _ _) Hflight n r Hn).
    + apply Forall_delete, Hflight.
  - unfold Upload.handleFileChange.
    destruct (JSString.strip_prefix "image/" (fileType file));
      cbn [Session.view Session.inFlight]; (split; [| exact Hflight]);
      destruct (Session.view s); exact Hview.
  - cbn [Session.view Session.inFlight]. split; [| exact Hflight].
    destruct (Session.view s); exact Hview.
  - cbn [Session.view Session.inFlight]. split; [| exact Hflight].
    destruct (Session.view s). apply (reset_coherent _ (mkState [] (-1))).
Qed.

Lemma loadEffect_hist (st : Editor.State) :
  hist (final_state (Editor.loadEffect st)) = hist st
  \/ exists v, hist (final_state (Editor.loadEffect st)) = mkState [v] 0.
Proof.
  destruct st as [h p l lm e sg se sp sl tr b c storage co].
  unfold Editor.loadEffect, try_catch, bind, localStorage_getItem, JSON_parse,
    set_hist, setPrompt, modify, ret, throw, console_error, localStorage_removeItem.
  cbn [localStorage].
  destruct (present (getItem SAVED_IMAGE storage)).
  - destruct (JSON.parse _) as [v |].
    + right. exists v. cbn [update_hist localStorage hist].
      destruct (present (getItem SAVED_PROMPT storage)); reflexivity.
    + left. reflexivity.
  - left. cbn [localStorage].
    destruct (present (getItem SAVED_PROMPT storage)); reflexivity.
Qed.

Lemma mount_coherent (storage : Storage) :
  Session.coherent (hist (final_state (mount storage))).
Proof.
  unfold mount.
  destruct (loadEffect_hist (Editor.initial storage)) as [-> | [v ->]].
  - left. split; reflexivity.
  - apply (reset_coherent v (mkState [] (-1))).
Qed.

End SessionFacts.

(** X17.  The history of a mounted Editor stays coherent.  After the load
    of a mount over any storage, and then after any sequence of events (the
    user acting in the controls panel, edits in flight settling with an
    image or an error in any order, files picked, failing to be read, or
    read at any time), either there is no version, the cursor is -1, there
    is no current image and neither undo nor redo is possible, or the
    cursor is on one of the versions and the current image and the original
    are defined.  Every render that has an edit in flight has a current
    image. *)
Theorem X17_history_stays_coherent :
  forall (File : Type) (fileType : File -> string)
         (engineMessage : EngineError -> string)
         (storage : Storage) (events : list (Session.Event (File := File))),
    let s := Session.run fileType engineMessage (Session.mounted storage) events in
    let h := hist (Session.view s) in
    ((history h = [] /\ currentIndex h = -1 /\ current h = None
      /\ canUndo h = false /\ canRedo h = false)
     \/ (0 <= currentIndex h < Z.of_nat (length (history h))
         /\ (exists v, current h = Some v) /\ (exists v, original h = Some v)))
    /\ Forall (fun r => exists v, current (hist r) = Some v) (Session.inFlight s).
Proof.
  intros File fileType em storage events s h.
  assert (Hinv : Session.coherent h
                 /\ Forall (fun r => initialized (hist r)) (Session.inFlight s)).
  { subst h s. unfold Session.run.
    assert (Hstart : Session.coherent (hist (Session.view (Session.mounted storage)))
                     /\ Forall (fun r => initialized (hist r))
                          (Session.inFlight (Session.mounted storage)))
      by (split; [apply mount_coherent | apply Forall_nil_2]).
    revert Hstart. generalize (Session.mounted storage).
    induction events as [| e events IH]; intros s0 Hs0; [exact Hs0 |].
    cbn [foldl]. apply IH. destruct Hs0 as [Hview Hflight].
    apply step_coherent; assumption. }
  destruct Hinv as [Hcoherent Hflight]. split.
  - destruct Hcoherent as [[Hnil Hc] | Hinit].
    + left. destruct h as [v c]. cbn [history currentIndex] in Hnil, Hc. subst v c.
      repeat split; reflexivity.
    + right. split; [exact Hinit |]. split.
      * apply initialized_current, Hinit.
      * apply initialized_original, Hinit.
  - eapply Forall_impl; [exact Hflight |]. intros r Hr.
    apply initialized_current, Hr.
Qed.

(** ** The MIME type under which an adjusted image is encoded *)

Lemma has_char_app (c : ascii) (a b : string) :
  has_char c (a +:+ b) = has_char c a || has_char c b.
Proof.
  induction a as [| d a IH]; [rewrite append_nil; reflexivity |].
  rewrite append_cons. cbn [has_char]. rewrite IH, orb_assoc. reflexivity.
Qed.

Lemma length_string_app (a b : string) :
  String.length (a +:+ b) = (String.length a + String.length b)%nat.
Proof.
  induction a as [| d a IH]; [rewrite append_nil; reflexivity |].
  rewrite append_cons. cbn [String.length]. rewrite IH. reflexivity.
Qed.

Lemma indexOf_absent (c : ascii) (s : string) :
  has_char c s = false -> JSString.indexOf c s = -1.
Proof.
  induction s as [| d s IH]; intros Hno; [reflexivity |].
  cbn [has_char] in Hno. apply orb_false_iff in Hno as [Hd Hs].
  cbn [JSString.indexOf]. rewrite Hd, (IH Hs). reflexivity.
Qed.

Lemma indexOf_first (c : ascii) (a b : string) :
  has_char c a = false ->
  JSString.indexOf c (a +:+ String c b) = Z.of_nat (String.length a).
Proof.
  induction a as [| d a IH]; intros Hno.
  - rewrite append_nil. cbn [JSString.indexOf]. rewrite Ascii.eqb_refl. reflexivity.
  - cbn [has_char] in Hno. apply orb_false_iff in Hno as [Hd Ha].
    rewrite append_cons. cbn [JSString.indexOf]. rewrite Hd, (IH Ha).
    destruct (Z.ltb_spec (Z.of_nat (String.length a)) 0); [lia |].
    cbn [String.length]. lia.
Qed.

Lemma substring_prefix (m r : string) :
  String.substring 0 (String.length m) (m +:+ r) = m.
Proof.
  induction m as [| d m IH].
  - rewrite append_nil. destruct r; reflexivity.
  - rewrite append_cons. cbn [String.length String.substring]. rewrite IH. reflexivity.
Qed.

Lemma substring_skip (a s : string) (k : nat) :
  String.substring (String.length a) k (a +:+ s) = String.substring 0 k s.
Proof.
  induction a as [| d a IH]; [rewrite append_nil; reflexivity |].
  rewrite append_cons. cbn [String.length String.substring]. exact IH.
Qed.

Lemma substring_between (a m r : string) :
  JSString.substring (Z.of_nat (String.length a))
    (Z.of_nat (String.length a) + Z.of_nat (String.length m)) (a +:+ m +:+ r) = m.
Proof.
  unfold JSString.substring. rewrite !length_string_app.
  set (la := String.length a). set (lm := String.length m). set (lr := String.length r).
  replace (Z.to_nat _) with la by lia.
  replace (Z.to_nat _) with lm by lia.
  subst la lm. rewrite substring_skip. apply substring_prefix.
Qed.

(** X18.  The MIME type under which an adjusted image is encoded.  When the
    adjustments are not both 100 and the image decodes, the canvas is
    encoded under the text between the first colon and the first semicolon
    of the data URL: for a data URL made of a scheme without colon or
    semicolon, a colon, a media type without semicolon, a semicolon and the
    rest, this is the media type of the source image.  For a data URL
    without any semicolon it is the text up to and including the colon. *)
Theorem X18_adjusted_image_keeps_the_media_type :
  forall (Image : Type) (loadImage : string -> Image + string)
         (renderFiltered : Image -> string -> string -> string)
         (scheme mediaType rest : string) (brightness contrast : Z) (img : Image),
    ~ (brightness = 100 /\ contrast = 100) ->
    has_char ":" scheme = false ->
    has_char ";" scheme = false ->
    let filter := "brightness(" +:+ pretty brightness +:+ "%) contrast("
                  +:+ pretty contrast +:+ "%)" in
    (has_char ";" mediaType = false ->
     let dataUrl := scheme +:+ ":" +:+ mediaType +:+ ";" +:+ rest in
     loadImage dataUrl = inl img ->
     applyVisualAdjustments loadImage true renderFiltered dataUrl brightness contrast
     = Return (renderFiltered img filter mediaType))
    /\ (has_char ";" rest = false ->
        let dataUrl := scheme +:+ ":" +:+ rest in
        loadImage dataUrl = inl img ->
        applyVisualAdjustments loadImage true renderFiltered dataUrl brightness contrast
        = Return (renderFiltered img filter (scheme +:+ ":"))).
Proof.
  intros Image loadImage renderFiltered scheme mediaType rest brightness contrast img
    Hne Hcolon Hsemi filter.
  assert (Hneutral : (brightness =? 100) && (contrast =? 100) = false).
  { destruct (Z.eqb_spec brightness 100); destruct (Z.eqb_spec contrast 100);
      try reflexivity. exfalso. apply Hne. split; assumption. }
  split.
  - intros Hmedia dataUrl Hload. unfold applyVisualAdjustments.
    rewrite Hneutral, Hload. fold filter. do 2 f_equal.
    assert (Hfirst : JSString.indexOf ":" dataUrl = Z.of_nat (String.length scheme)).
    { subst dataUrl. change (":" +:+ mediaType +:+ ";" +:+ rest)
        with (String ":" (mediaType +:+ ";" +:+ rest)).
      apply indexOf_first, Hcolon. }
    assert (Hsecond : JSString.indexOf ";" dataUrl
                      = Z.of_nat (String.length (scheme +:+ ":"))
                        + Z.of_nat (String.length mediaType)).
    { subst dataUrl.
      replace (scheme +:+ ":" +:+ mediaType +:+ ";" +:+ rest)
        with ((scheme +:+ ":" +:+ mediaType) +:+ String ";" rest)
        by (rewrite !string_app_assoc; reflexivity).
      rewrite indexOf_first.
      - rewrite <- string_app_assoc, !length_string_app. lia.
      - rewrite !has_char_app, Hsemi, Hmedia. reflexivity. }
    rewrite Hfirst, Hsecond.
    replace (Z.of_nat (String.length scheme) + 1)
      with (Z.of_nat (String.length (scheme +:+ ":")))
      by (rewrite length_string_app; cbn [String.length]; lia).
    subst dataUrl.
    replace (scheme +:+ ":" +:+ mediaType +:+ ";" +:+ rest)
      with ((scheme +:+ ":") +:+ mediaType +:+ (";" +:+ rest))
      by (rewrite !string_app_assoc; reflexivity).
    apply substring_between.
  - intros Hrest dataUrl Hload. unfold applyVisualAdjustments.
    rewrite Hneutral, Hload. fold filter. do 2 f_equal.
    assert (Hfirst : JSString.indexOf ":" dataUrl = Z.of_nat (String.length scheme)).
    { subst dataUrl. change (":" +:+ rest) with (String ":" rest).
      apply indexOf_first, Hcolon. }
    assert (Hsecond : JSString.indexOf ";" dataUrl = -1).
    { subst dataUrl. apply indexOf_absent.
      rewrite !has_char_app, Hsemi, Hrest. reflexivity. }
    rewrite Hfirst, Hsecond. subst dataUrl.
    unfold JSString.substring. rewrite !length_string_app.
    cbn [String.length].
    replace (Z.to_nat _) with 0%nat by lia.
    replace (Z.to_nat _) with (String.length (scheme +:+ ":"))
      by (rewrite length_string_app; cbn [String.length]; lia).
    rewrite <- (string_app_assoc scheme ":" rest). apply substring_prefix.
Qed.

Lemma X18_adjusted_image_keeps_the_media_type_witness :
  let loadImage (s : string) : string + string := inl s in
  let renderFiltered (img filter mimeType : string) : string := mimeType in
  ~ (120 = 100 /\ 100 = 100)
  /\ applyVisualAdjustments loadImage true renderFiltered
       "data:image/webp;base64,AAAA" 120 100
     = Return "image/webp".
Proof.
  intros loadImage renderFiltered.
  assert (Hne : ~ (120 = 100 /\ 100 = 100)) by lia.
  split; [exact Hne |].
  apply (X18_adjusted_image_keeps_the_media_type string loadImage renderFiltered
           "data" "image/webp" "base64,AAAA" 120 100 "data:image/webp;base64,AAAA"
           Hne eq_refl eq_refl);
    reflexivity.
Defined.

(** ** The service module: what its [catch] blocks make of a failure *)

Lemma includes_app_r (needle a b : string) :
  JSString.includes needle b = true -> JSString.includes needle (a +:+ b) = true.
Proof.
  intros Hb. induction a as [| c a IH]; [rewrite append_nil; exact Hb |].
  rewrite append_cons. cbn [JSString.includes].
  destruct (JSString.strip_prefix needle (String c (a +:+ b))); [reflexivity | exact IH].
Qed.

Lemma ascii_lower_app (a b : string) :
  Services.ascii_lower (a +:+ b) = Services.ascii_lower a +:+ Services.ascii_lower b.
Proof.
  induction a as [| c a IH]; [rewrite !append_nil; reflexivity |].
  rewrite append_cons. cbn [Services.ascii_lower]. rewrite IH, append_cons. reflexivity.
Qed.

Lemma ascii_lower_lowers_ascii : Services.lowers_ascii Services.ascii_lower.
Proof.
  intros a t _. exists (Services.ascii_lower a). split; [apply ascii_lower_app |].
  intros ->. reflexivity.
Qed.

Lemma lowers_ascii_text (toLowerCase : string -> string) (t : string) :
  Services.lowers_ascii toLowerCase ->
  Services.ascii_only t = true ->
  toLowerCase t = Services.ascii_lower t.
Proof.
  intros Hlower Ht. destruct (Hlower EmptyString t Ht) as (a' & Heq & Hnil).
  rewrite append_nil in Heq. rewrite Heq, (Hnil eq_refl), append_nil. reflexivity.
Qed.

(** X19.  The service module hides the finish reason.  When the answer of
    the model carries no image and its first candidate has a finish reason
    other than [STOP], [editImageWithNanoBanana] of the service module logs
    the error that names the reason and, unless the lowered message speaks
    of an invalid API key, rejects with the one fixed message about safety
    policies, whatever the reason is; [handleSubmit] shows that message,
    ends the loading state and leaves the history and the prompt as they
    were.  Whatever the model does, a rejection of this function is an
    [Error], and its cause is logged exactly once. *)
Theorem X19_service_reports_a_blocked_answer_as_safety :
  forall (engineMessage : EngineError -> string) (toLowerCase : string -> string)
         (generateContent : GeminiService.EditRequest -> Result GeminiService.Response)
         (request : GeminiService.EditRequest) (response : GeminiService.Response)
         (candidate : GeminiService.Candidate) (others : list GeminiService.Candidate)
         (reason : string) (r st : Editor.State),
    Services.lowers_ascii toLowerCase ->
    generateContent request = Return response ->
    GeminiService.candidates response = Some (candidate :: others) ->
    (ps ← GeminiService.parts candidate; GeminiService.first_inline ps) = None ->
    GeminiService.finishReason candidate = Some reason ->
    reason <> EmptyString ->
    reason <> "STOP" ->
    let cause := "Image generation failed. Reason: " +:+ reason
                 +:+ ". This can happen if the prompt violates safety policies." in
    let shown := "Your request could not be processed due to safety policies. Please modify your prompt and try again." in
    JSString.includes "api key not valid" (toLowerCase cause) = false ->
    Services.editImageWithNanoBanana engineMessage toLowerCase generateContent request
      = (Throw (Error shown), [("Error editing image with Gemini:", Error cause)])
    /\ (exists st',
          handleSubmit_resume engineMessage r (Throw (Error shown)) st = Normal tt st'
          /\ error st' = Some shown
          /\ isLoading st' = false
          /\ hist st' = hist st
          /\ prompt st' = prompt st)
    /\ (forall (generateContent' : GeminiService.EditRequest -> Result GeminiService.Response)
               (request' : GeminiService.EditRequest) (t : Thrown),
          fst (Services.editImageWithNanoBanana engineMessage toLowerCase
                 generateContent' request') = Throw t ->
          (exists message, t = Error message)
          /\ length (snd (Services.editImageWithNanoBanana engineMessage toLowerCase
                            generateContent' request')) = 1%nat).
Proof.
  intros em toLowerCase gen request response candidate others reason r st
    Hlower Hgen Hcands Hnone Hreason Hne Hstop cause shown Hkey.
  split; [| split].
  - unfold Services.editImageWithNanoBanana, GeminiService.request_image.
    rewrite Hgen. cbn [JS.bind]. rewrite Hcands. cbn [mbind option_bind head].
    rewrite Hnone, Hreason.
    assert (Htruthy : truthy (VString reason) = true).
    { cbn [truthy]. destruct (String.eqb_spec reason EmptyString); [contradiction | reflexivity]. }
    assert (Hnot : String.eqb reason "STOP" = false)
      by (destruct (String.eqb_spec reason "STOP"); [contradiction | reflexivity]).
    rewrite Htruthy, Hnot. cbn [andb negb]. fold cause.
    unfold Services.edit_userFriendlyError. cbn [Services.message_of].
    rewrite Hkey.
    assert (Hsafety : JSString.includes "safety" (toLowerCase cause) = true).
    { subst cause.
      destruct (Hlower ("Image generation failed. Reason: " +:+ reason)
                  ". This can happen if the prompt violates safety policies." eq_refl)
        as (a' & Heq & _).
      rewrite string_app_assoc in Heq. rewrite Heq.
      apply includes_app_r. reflexivity. }
    rewrite Hsafety. reflexivity.
  - destruct (resume_failure em r (Error shown) st)
      as (st' & Hrun & Hhist & Hprompt & _ & Hload & Herr).
    exists st'. repeat split; assumption.
  - intros gen' request' t. unfold Services.editImageWithNanoBanana.
    destruct (GeminiService.request_image gen' request') as [url | error];
      cbn [fst snd]; intros H; [discriminate H |].
    injection H as <-. split; [eexists; reflexivity | reflexivity].
Qed.

Lemma X19_service_reports_a_blocked_answer_as_safety_witness :
  let candidate := GeminiService.mkCandidate (Some []) (Some "PROHIBITED_CONTENT") in
  let response := GeminiService.mkResponse (Some [candidate]) in
  let request := GeminiService.mkRequest (Some "AAAA") (VString "image/png") "add hat" in
  ("PROHIBITED_CONTENT" : string) <> "STOP"
  /\ Services.editImageWithNanoBanana Scenario.engineMessage Services.ascii_lower
       (fun _ => Return response) request
     = (Throw (Error "Your request could not be processed due to safety policies. Please modify your prompt and try again."),
        [("Error editing image with Gemini:",
          Error "Image generation failed. Reason: PROHIBITED_CONTENT. This can happen if the prompt violates safety policies.")]).
Proof.
  intros candidate response request.
  assert (Hstop : ("PROHIBITED_CONTENT" : string) <> "STOP") by discriminate.
  assert (Hne : ("PROHIBITED_CONTENT" : string) <> EmptyString) by discriminate.
  split; [exact Hstop |].
  apply (X19_service_reports_a_blocked_answer_as_safety Scenario.engineMessage
           Services.ascii_lower (fun _ => Return response) request response candidate []
           "PROHIBITED_CONTENT" (Editor.initial Scenario.roomy)
           (Editor.initial Scenario.roomy)
           ascii_lower_lowers_ascii eq_refl eq_refl eq_refl eq_refl Hne Hstop eq_refl).
Defined.

(** X20.  Suggestions through the service module.  Whatever the model
    answers, a fetch of suggestions that fails is rejected with an [Error]
    whose message is not empty, with the cause logged once; the Editor then
    shows that message in the suggestion error slot, with an empty
    suggestion list.  A fetch that succeeds shows its strings and no error.
    Either way the fetch is over afterwards, and the history, the prompt and
    the main error slot are as they were.  An answer whose text is JSON but
    not an array is reported with one fixed message. *)
Theorem X20_service_suggestion_failures_are_shown :
  forall (engineMessage : EngineError -> string) (toLowerCase : string -> string)
         (generateContent : Suggestions.SuggestRequest -> Result Suggestions.TextResponse)
         (r st : Suggestions.Cells) (request : Suggestions.SuggestRequest)
         (st1 : Suggestions.Cells),
    Suggestions.handleGetSuggestions engineMessage r st = Suggestions.Awaiting request st1 ->
    let result :=
      Services.getPromptSuggestions engineMessage toLowerCase generateContent request in
    let st2 := Suggestions.handleGetSuggestions_resume engineMessage (fst result) st1 in
    hist (Suggestions.editor st2) = hist (Suggestions.editor st)
    /\ prompt (Suggestions.editor st2) = prompt (Suggestions.editor st)
    /\ error (Suggestions.editor st2) = error (Suggestions.editor st)
    /\ Suggestions.isGeneratingSuggestions st2 = false
    /\ match fst result with
       | Return newSuggestions =>
           suggestions (Suggestions.editor st2) = newSuggestions
           /\ suggestionError (Suggestions.editor st2) = None
           /\ snd result = []
       | Throw err =>
           exists message,
             err = Error message
             /\ message <> EmptyString
             /\ suggestions (Suggestions.editor st2) = []
             /\ suggestionError (Suggestions.editor st2) = Some message
             /\ length (snd result) = 1%nat
       end
    /\ (Services.lowers_ascii toLowerCase ->
        forall response t v,
          generateContent request = Return response ->
          Suggestions.text response = Some t ->
          JSON.parse (Suggestions.trim t) = Some v ->
          (forall elems, v <> VArray elems) ->
          fst result
          = Throw (Error "The AI returned an unexpected response for suggestions. Please try again.")).
Proof.
  intros em toLowerCase gen r st request st1 Hbegin result st2.
  apply suggestions_awaiting in Hbegin. subst st1 st2 result.
  unfold Services.getPromptSuggestions.
  split; [| split; [| split; [| split; [| split]]]].
  1-4: destruct (Suggestions.request_suggestions gen request);
       destruct st as [[] ?]; reflexivity.
  - destruct (Suggestions.request_suggestions gen request) as [l | cause].
    + destruct st as [[] ?]. repeat split; reflexivity.
    + cbn [fst snd]. exists (Services.suggest_userFriendlyError em toLowerCase cause).
      split; [reflexivity |]. split.
      * unfold Services.suggest_userFriendlyError.
        destruct (Services.message_of em cause) as [message |]; [| discriminate].
        cbv zeta.
        repeat match goal with
               | |- (if ?b then _ else _) <> _ => destruct b; [discriminate |]
               end.
        destruct (truthy (VString message)) eqn:Htruthy; [| discriminate].
        intros ->. discriminate Htruthy.
      * destruct st as [[] ?]. repeat split; reflexivity.
  - intros Hlower response t v Hgen Htext Hparse Hnot.
    unfold Suggestions.request_suggestions.
    rewrite Hgen. cbn [JS.bind]. rewrite Htext. cbn [JS.bind]. rewrite Hparse.
    cbn [JS.bind].
    assert (Hcause :
      Services.suggest_userFriendlyError em toLowerCase
        (Error "AI response was not in the expected format (array of strings).")
      = "The AI returned an unexpected response for suggestions. Please try again.").
    { unfold Services.suggest_userFriendlyError. cbn [Services.message_of]. cbv zeta.
      rewrite (lowers_ascii_text toLowerCase
                 "AI response was not in the expected format (array of strings)."
                 Hlower eq_refl).
      reflexivity. }
    destruct v; cbn [fst]; rewrite ?Hcause; try reflexivity.
    exfalso. eapply Hnot. reflexivity.
Qed.

Lemma X20_service_suggestion_failures_are_shown_witness :
  let r := Suggestions.mkCells
             (Scenario.editor [Scenario.imageA] 0 EmptyString Scenario.roomy) false in
  let request := Suggestions.mkSuggestRequest (Some "AAAA") (VString "image/png") in
  let st1 := Suggestions.in_editor (update_suggestions (fun _ => []))
               (Suggestions.in_editor (update_suggestionError (fun _ => None))
                  (Suggestions.setIsGeneratingSuggestions true r)) in
  let generateContent (_ : Suggestions.SuggestRequest) : Result Suggestions.TextResponse :=
    Return (Suggestions.mkTextResponse (Some "{}")) in
  Suggestions.handleGetSuggestions Scenario.engineMessage r r
    = Suggestions.Awaiting request st1
  /\ fst (Services.getPromptSuggestions Scenario.engineMessage Services.ascii_lower
            generateContent request)
     = Throw (Error "The AI returned an unexpected response for suggestions. Please try again.").
Proof.
  intros r request st1 generateContent. split; [reflexivity |].
  destruct (X20_service_suggestion_failures_are_shown Scenario.engineMessage
              Services.ascii_lower generateContent r r request st1 eq_refl)
    as (_ & _ & _ & _ & _ & Hnot_array).
  apply (Hnot_array ascii_lower_lowers_ascii
           (Suggestions.mkTextResponse (Some "{}")) "{}" (VObject []));
    try reflexivity.
  intros elems H. discriminate H.
Defined.
